(** * The RDS backend model of moto ([moto/rds/models.py]) in Rocq

    A shallow embedding of the in-memory relational-database-service mock:
    its tagging mixin, its resource classes and their ARNs, the backend's
    resource dictionaries and the operations on DB instances, DB clusters and
    snapshots, followed by the properties established about them.

    Conventions.
    - Python [str] is [string]; a character is a code point below 256.
    - A Python [dict] (insertion ordered) is an association list without
      repeated keys, see [Module Dict].
    - A method of the backend is a function from the backend's state to an
      outcome and the state it leaves behind.  An exception does _not_ roll
      the state back: the state returned with [Raise e] is the state at the
      point of the [raise].
    - Attributes that no modelled operation reads (timestamps, random
      identifiers, endpoints, KMS keys and similar) are left out of the
      records. *)

From Stdlib Require Import Bool List Arith ZArith Lia Ascii String.
Import ListNotations.

Local Open Scope string_scope.
Local Open Scope list_scope.
Local Open Scope bool_scope.
Local Open Scope nat_scope.

Set Implicit Arguments.

(* ------------------------------------------------------------------ *)
(** * Python strings *)

Module PyStr.

Definition chars (s : string) : list ascii := list_ascii_of_string s.
Definition of_chars (l : list ascii) : string := string_of_list_ascii l.

Definition code (c : ascii) : nat := nat_of_ascii c.

Definition in_range (lo hi : nat) (c : ascii) : bool :=
  (lo <=? code c) && (code c <=? hi).

Definition is_upper : ascii -> bool := in_range 65 90.
Definition is_lower : ascii -> bool := in_range 97 122.
Definition is_digit : ascii -> bool := in_range 48 57.
Definition is_char (x c : ascii) : bool := Ascii.eqb c x.

(** [str.isalpha] on one code point below 256: the ASCII letters and the
    letters of the Latin-1 block. *)
Definition isalpha (c : ascii) : bool :=
  is_upper c || is_lower c
  || (code c =? 170) || (code c =? 181) || (code c =? 186)
  || in_range 192 214 c || in_range 216 246 c || in_range 248 255 c.

(** [str.lower] restricted to code points below 128 (the only ones the
    engine names carry). *)
Definition lower_char (c : ascii) : ascii :=
  if is_upper c then ascii_of_nat (code c + 32) else c.

Definition lower (s : string) : string :=
  of_chars (map lower_char (chars s)).

Fixpoint prefixb (p l : list ascii) : bool :=
  match p, l with
  | [], _ => true
  | _ :: _, [] => false
  | a :: p', b :: l' => Ascii.eqb a b && prefixb p' l'
  end.

Definition startswith (s p : string) : bool := prefixb (chars p) (chars s).

Definition endswith (s p : string) : bool :=
  prefixb (rev (chars p)) (rev (chars s)).

(** [s.split(sep)] for a one-character separator: the pieces between the
    separators, never an empty list. *)
Fixpoint split_chars (sep : ascii) (l : list ascii) : list (list ascii) :=
  match l with
  | [] => [[]]
  | c :: l' =>
      if Ascii.eqb c sep then [] :: split_chars sep l'
      else match split_chars sep l' with
           | [] => [[c]]
           | p :: ps => (c :: p) :: ps
           end
  end.

Definition split (sep : ascii) (s : string) : list string :=
  map of_chars (split_chars sep (chars s)).

(** [s.replace(old, new)]: the non-overlapping occurrences of [old], from
    the left.  [skip] counts the characters of an occurrence still to be
    dropped. *)
Fixpoint replace_from (old new : list ascii) (skip : nat) (l : list ascii)
  : list ascii :=
  match l with
  | [] => []
  | c :: l' =>
      match skip with
      | S k => replace_from old new k l'
      | O =>
          if prefixb old l
          then new ++ replace_from old new (Nat.pred (List.length old)) l'
          else c :: replace_from old new 0 l'
      end
  end.

(** With an empty [old], Python inserts [new] around every character. *)
Fixpoint intersperse (new l : list ascii) : list ascii :=
  match l with
  | [] => new
  | c :: l' => new ++ c :: intersperse new l'
  end.

Definition replace (s old new : string) : string :=
  match chars old with
  | [] => of_chars (intersperse (chars new) (chars s))
  | _ :: _ => of_chars (replace_from (chars old) (chars new) 0 (chars s))
  end.

(** Truthiness of an optional string: [None] and [""] are false. *)
Definition truthy (o : option string) : bool :=
  match o with
  | Some s => negb (String.eqb s "")
  | None => false
  end.

Definition mem (x : string) (l : list string) : bool :=
  existsb (String.eqb x) l.

End PyStr.

(* ------------------------------------------------------------------ *)
(** * Regular expressions ([re.match])

  The constructs the patterns of the backend use, with a backtracking
  matcher in continuation-passing style.  A configuration is the number of
  characters consumed and the text still ahead. *)

Module Re.

Inductive regex : Type :=
| Eps
| Bol                                   (* ^ *)
| Eol                                   (* $ *)
| Cls (p : ascii -> bool)               (* a character class *)
| Cat (r1 r2 : regex)
| Alt (r1 r2 : regex)
| Opt (r : regex)                       (* r? *)
| Star (r : regex)                      (* r* *)
| Rep (r : regex) (lo hi : nat)         (* r{lo,hi} *)
| NegLook (r : regex).                  (* (?!r) *)

Definition cfg : Type := (nat * list ascii)%type.

Definition newline : ascii := ascii_of_nat 10.

(** [.] without DOTALL. *)
Definition dot : regex := Cls (fun c => negb (Ascii.eqb c newline)).

Definition chr (x : ascii) : regex := Cls (PyStr.is_char x).

Fixpoint lit_chars (l : list ascii) : regex :=
  match l with
  | [] => Eps
  | c :: l' => Cat (chr c) (lit_chars l')
  end.

Definition lit (s : string) : regex := lit_chars (PyStr.chars s).

Fixpoint alts (rs : list regex) (last : regex) : regex :=
  match rs with
  | [] => last
  | r :: rs' => Alt r (alts rs' last)
  end.

(** [$] without MULTILINE: the end of the text, or just before a newline
    that ends the text. *)
Definition at_eol (l : list ascii) : bool :=
  match l with
  | [] => true
  | c :: [] => Ascii.eqb c newline
  | _ => false
  end.

Fixpoint star_aux (m : cfg -> (cfg -> bool) -> bool) (k : cfg -> bool)
         (fuel : nat) (c : cfg) : bool :=
  match fuel with
  | O => k c
  | S f =>
      m c (fun c' =>
             if List.length (snd c') <? List.length (snd c)
             then star_aux m k f c' else false)
      || k c
  end.

Fixpoint rep_aux (m : cfg -> (cfg -> bool) -> bool) (k : cfg -> bool)
         (lo hi : nat) (c : cfg) : bool :=
  match hi with
  | O => if lo =? 0 then k c else false
  | S hi' =>
      m c (fun c' => rep_aux m k (Nat.pred lo) hi' c')
      || (if lo =? 0 then k c else false)
  end.

Fixpoint matchk (r : regex) (c : cfg) (k : cfg -> bool) {struct r} : bool :=
  match r with
  | Eps => k c
  | Bol => (fst c =? 0) && k c
  | Eol => at_eol (snd c) && k c
  | Cls p =>
      match snd c with
      | [] => false
      | x :: l' => p x && k (S (fst c), l')
      end
  | Cat r1 r2 => matchk r1 c (fun c' => matchk r2 c' k)
  | Alt r1 r2 => matchk r1 c k || matchk r2 c k
  | Opt r1 => matchk r1 c k || k c
  | Star r1 => star_aux (matchk r1) k (List.length (snd c)) c
  | Rep r1 lo hi => rep_aux (matchk r1) k lo hi c
  | NegLook r1 => negb (matchk r1 c (fun _ => true)) && k c
  end.

(** A matcher calls its continuation only on a suffix of the text. *)
Definition calls_on_suffix (m : cfg -> (cfg -> bool) -> bool) : Prop :=
  forall c k, m c k = true ->
    exists c' pre, k c' = true /\ snd c = pre ++ snd c'.

(** [re.match(r, s)] as a truth value. *)
Definition re_match (r : regex) (s : string) : bool :=
  matchk r (0, PyStr.chars s) (fun _ => true).

End Re.


(* ------------------------------------------------------------------ *)
(** * Python containers *)

(** An insertion-ordered [dict] with string keys. *)
Module Dict.

Definition t (V : Type) : Type := list (string * V).

Section Ops.
Variable V : Type.

Fixpoint get (k : string) (d : t V) : option V :=
  match d with
  | [] => None
  | (k', v) :: d' => if String.eqb k' k then Some v else get k d'
  end.

(** [k in d] *)
Definition mem (k : string) (d : t V) : bool :=
  match get k d with Some _ => true | None => false end.

(** [d[k] = v]: an existing key keeps its place, a new one goes last. *)
Fixpoint set (k : string) (v : V) (d : t V) : t V :=
  match d with
  | [] => [(k, v)]
  | (k', v') :: d' =>
      if String.eqb k' k then (k, v) :: d' else (k', v') :: set k v d'
  end.

(** [del d[k]] and [d.pop(k)] on the dictionary. *)
Fixpoint remove (k : string) (d : t V) : t V :=
  match d with
  | [] => []
  | (k', v') :: d' =>
      if String.eqb k' k then remove k d' else (k', v') :: remove k d'
  end.

Definition len (d : t V) : nat := List.length d.
Definition keys (d : t V) : list string := map fst d.
Definition values (d : t V) : list V := map snd d.

(** A dictionary proper has no key twice. *)
Definition wf (d : t V) : Prop := NoDup (keys d).

End Ops.

End Dict.

(** [l.remove(x)] on a list of strings: the first occurrence goes; [None]
    stands for the [ValueError] of an absent [x]. *)
Fixpoint list_remove (x : string) (l : list string) : option (list string) :=
  match l with
  | [] => None
  | y :: l' =>
      if String.eqb y x then Some l'
      else match list_remove x l' with
           | Some r => Some (y :: r)
           | None => None
           end
  end.

(** [l[i]] with Python's negative indices. *)
Definition py_index (A : Type) (l : list A) (i : Z) : option A :=
  let n := Z.of_nat (List.length l) in
  if (0 <=? i)%Z then nth_error l (Z.to_nat i)
  else if (0 <=? n + i)%Z then nth_error l (Z.to_nat (n + i))
  else None.

(* ------------------------------------------------------------------ *)
(** * Exceptions and outcomes *)

(** The exception classes of [moto/rds/exceptions.py] that the modelled
    code raises, and the built-in ones it can run into.  Messages are not
    kept; the identifiers and codes passed to the constructors are. *)
Inductive exn : Type :=
| DBClusterNotFoundError (cluster_identifier : string)
| DBClusterSnapshotAlreadyExistsError (db_snapshot_identifier : string)
| DBClusterToBeDeletedHasActiveMembers
| DBInstanceAlreadyExists
| DBInstanceNotFoundError (database_identifier : string)
| DBParameterGroupNotFoundError (db_parameter_group_name : string)
| DBSnapshotAlreadyExistsError (database_snapshot_identifier : string)
| DBSubnetGroupNotFoundError (subnet_group_name : string)
| InvalidDBClusterStateFault
| InvalidDBClusterStateFaultError (database_identifier : string)
| InvalidDBInstanceEngine (instance_engine cluster_engine : string)
| InvalidDBInstanceIdentifier
| InvalidDBInstanceStateError (database_identifier istate : string)
| InvalidParameterCombination
| InvalidParameterValue
| OptionGroupNotFoundFaultError (option_group_name : string)
| RDSClientError (code : string)
| SnapshotQuotaExceededError
| AttributeError
| IndexError
| KeyError (key : string)
| NotImplementedError
| ValueError.

Inductive res (A : Type) : Type :=
| Ok (a : A)
| Raise (e : exn).

Arguments Ok {A} a.
Arguments Raise {A} e.

Definition res_bind (A B : Type) (r : res A) (f : A -> res B) : res B :=
  match r with
  | Ok a => f a
  | Raise e => Raise e
  end.

Definition is_ok (A : Type) (r : res A) : bool :=
  match r with Ok _ => true | Raise _ => false end.

(* ------------------------------------------------------------------ *)
(** * Tags: [class TaggingMixin] *)

(** One tag is the dictionary [{"Key": k, "Value": v}]. *)
Definition Tag : Type := (string * string)%type.
Definition Tags : Type := list Tag.

Module TaggingMixin.

Definition Key (tag : Tag) : string := fst tag.
Definition Value (tag : Tag) : string := snd tag.

(** The [tags] setter: [None] becomes the empty list and every tag is
    rebuilt from its key and its value. *)
Definition coerce (value : option Tags) : Tags :=
  match value with
  | None => []
  | Some l => map (fun tag => (Key tag, Value tag)) l
  end.

(** [add_tags]: the new value of [self.tags], which is also what the method
    returns. *)
Definition add_tags (self_tags : Tags) (tags : Tags) : Tags :=
  let new_keys := map Key tags in
  let updated_tags :=
    filter (fun tag_set => negb (PyStr.mem (Key tag_set) new_keys)) self_tags in
  coerce (Some (updated_tags ++ tags)).

(** [remove_tags]: the new value of [self.tags]. *)
Definition remove_tags (self_tags : Tags) (tag_keys : list string) : Tags :=
  coerce (Some (filter (fun tag_set => negb (PyStr.mem (Key tag_set) tag_keys))
                       self_tags)).

End TaggingMixin.

(* ------------------------------------------------------------------ *)
(** * The resource classes *)

(** [class DBProxyTarget]: a [resource_type], but no [name]. *)
Module DBProxyTarget.

Record t : Type := mk {
  rds_resource_id : string;
  tags : Tags
}.

Definition set_tags (v : Tags) (x : t) : t :=
  mk (x.(rds_resource_id)) v.

End DBProxyTarget.

(** [class DBProxyTargetGroup]. *)
Module DBProxyTargetGroup.

Record t : Type := mk {
  _name : string;
  target_group_name : string;
  db_proxy_name : string;
  tags : Tags
}.

Definition set_tags (v : Tags) (x : t) : t :=
  mk (x.(_name)) (x.(target_group_name)) (x.(db_proxy_name)) v.

End DBProxyTargetGroup.

(** [class GlobalCluster]. *)
Module GlobalCluster.

Record t : Type := mk {
  global_cluster_identifier : string;
  engine : string;
  deletion_protection : bool;
  members : list string;   (* the member clusters, each by its key in [clusters] *)
  tags : Tags
}.

Definition set_members (v : list string) (x : t) : t :=
  mk (x.(global_cluster_identifier)) (x.(engine)) (x.(deletion_protection)) v
    (x.(tags)).

Definition set_tags (v : Tags) (x : t) : t :=
  mk (x.(global_cluster_identifier)) (x.(engine)) (x.(deletion_protection))
    (x.(members)) v.

End GlobalCluster.

(** [class DBCluster]. *)
Module DBCluster.

Record t : Type := mk {
  db_cluster_identifier : string;
  deletion_protection : bool;
  engine : string;
  engine_version : string;
  engine_mode : string;
  iops : option Z;
  _status : string;
  copy_tags_to_snapshot : bool;
  storage_type : string;
  allocated_storage : Z;
  master_username : option string;
  global_cluster_identifier : option string;
  _master_user_password : option string;   (* unset on the branch that skips the setter *)
  port : Z;
  tags : Tags;
  cluster_members : list string;
  replication_source_identifier : option string;
  read_replica_identifiers : list string;
  backtrack_window : Z;
  iam_auth : bool
}.

Definition set_status (v : string) (x : t) : t :=
  mk (x.(db_cluster_identifier)) (x.(deletion_protection)) (x.(engine))
    (x.(engine_version)) (x.(engine_mode)) (x.(iops)) v
    (x.(copy_tags_to_snapshot)) (x.(storage_type)) (x.(allocated_storage))
    (x.(master_username)) (x.(global_cluster_identifier))
    (x.(_master_user_password)) (x.(port)) (x.(tags)) (x.(cluster_members))
    (x.(replication_source_identifier)) (x.(read_replica_identifiers))
    (x.(backtrack_window)) (x.(iam_auth)).

Definition set_tags (v : Tags) (x : t) : t :=
  mk (x.(db_cluster_identifier)) (x.(deletion_protection)) (x.(engine))
    (x.(engine_version)) (x.(engine_mode)) (x.(iops)) (x.(_status))
    (x.(copy_tags_to_snapshot)) (x.(storage_type)) (x.(allocated_storage))
    (x.(master_username)) (x.(global_cluster_identifier))
    (x.(_master_user_password)) (x.(port)) v (x.(cluster_members))
    (x.(replication_source_identifier)) (x.(read_replica_identifiers))
    (x.(backtrack_window)) (x.(iam_auth)).

Definition set_cluster_members (v : list string) (x : t) : t :=
  mk (x.(db_cluster_identifier)) (x.(deletion_protection)) (x.(engine))
    (x.(engine_version)) (x.(engine_mode)) (x.(iops)) (x.(_status))
    (x.(copy_tags_to_snapshot)) (x.(storage_type)) (x.(allocated_storage))
    (x.(master_username)) (x.(global_cluster_identifier))
    (x.(_master_user_password)) (x.(port)) (x.(tags)) v
    (x.(replication_source_identifier)) (x.(read_replica_identifiers))
    (x.(backtrack_window)) (x.(iam_auth)).

Definition set_read_replica_identifiers (v : list string) (x : t) : t :=
  mk (x.(db_cluster_identifier)) (x.(deletion_protection)) (x.(engine))
    (x.(engine_version)) (x.(engine_mode)) (x.(iops)) (x.(_status))
    (x.(copy_tags_to_snapshot)) (x.(storage_type)) (x.(allocated_storage))
    (x.(master_username)) (x.(global_cluster_identifier))
    (x.(_master_user_password)) (x.(port)) (x.(tags)) (x.(cluster_members))
    (x.(replication_source_identifier)) v (x.(backtrack_window))
    (x.(iam_auth)).

End DBCluster.

(** [class DBInstance]. *)
Module DBInstance.

Record t : Type := mk {
  status : string;
  is_replica : bool;
  replicas : list string;
  engine : string;
  iops : option string;
  storage_type : string;
  master_user_secret_status : string;
  allocated_storage : Z;
  _max_allocated_storage : Z;
  db_cluster_identifier : option string;
  db_instance_identifier : string;
  source_db_instance_identifier : option string;   (* set by [update] on replicas only *)
  port : Z;
  copy_tags_to_snapshot : bool;
  multi_az : bool;
  db_subnet_group_name : option string;
  vpc_security_group_ids : list string;
  preferred_maintenance_window : string;
  preferred_backup_window : string;
  db_parameter_group_name : option string;
  option_group_name : option string;
  option_group_supplied : bool;
  tags : Tags;
  deletion_protection : bool
}.

Definition set_status (v : string) (x : t) : t :=
  mk v (x.(is_replica)) (x.(replicas)) (x.(engine)) (x.(iops))
    (x.(storage_type)) (x.(master_user_secret_status)) (x.(allocated_storage))
    (x.(_max_allocated_storage)) (x.(db_cluster_identifier))
    (x.(db_instance_identifier)) (x.(source_db_instance_identifier))
    (x.(port)) (x.(copy_tags_to_snapshot)) (x.(multi_az))
    (x.(db_subnet_group_name)) (x.(vpc_security_group_ids))
    (x.(preferred_maintenance_window)) (x.(preferred_backup_window))
    (x.(db_parameter_group_name)) (x.(option_group_name))
    (x.(option_group_supplied)) (x.(tags)) (x.(deletion_protection)).

Definition set_replicas (v : list string) (x : t) : t :=
  mk (x.(status)) (x.(is_replica)) v (x.(engine)) (x.(iops))
    (x.(storage_type)) (x.(master_user_secret_status)) (x.(allocated_storage))
    (x.(_max_allocated_storage)) (x.(db_cluster_identifier))
    (x.(db_instance_identifier)) (x.(source_db_instance_identifier))
    (x.(port)) (x.(copy_tags_to_snapshot)) (x.(multi_az))
    (x.(db_subnet_group_name)) (x.(vpc_security_group_ids))
    (x.(preferred_maintenance_window)) (x.(preferred_backup_window))
    (x.(db_parameter_group_name)) (x.(option_group_name))
    (x.(option_group_supplied)) (x.(tags)) (x.(deletion_protection)).

Definition set_master_user_secret_status (v : string) (x : t) : t :=
  mk (x.(status)) (x.(is_replica)) (x.(replicas)) (x.(engine)) (x.(iops))
    (x.(storage_type)) v (x.(allocated_storage)) (x.(_max_allocated_storage))
    (x.(db_cluster_identifier)) (x.(db_instance_identifier))
    (x.(source_db_instance_identifier)) (x.(port)) (x.(copy_tags_to_snapshot))
    (x.(multi_az)) (x.(db_subnet_group_name)) (x.(vpc_security_group_ids))
    (x.(preferred_maintenance_window)) (x.(preferred_backup_window))
    (x.(db_parameter_group_name)) (x.(option_group_name))
    (x.(option_group_supplied)) (x.(tags)) (x.(deletion_protection)).

Definition set_db_cluster_identifier (v : option string) (x : t) : t :=
  mk (x.(status)) (x.(is_replica)) (x.(replicas)) (x.(engine)) (x.(iops))
    (x.(storage_type)) (x.(master_user_secret_status)) (x.(allocated_storage))
    (x.(_max_allocated_storage)) v (x.(db_instance_identifier))
    (x.(source_db_instance_identifier)) (x.(port)) (x.(copy_tags_to_snapshot))
    (x.(multi_az)) (x.(db_subnet_group_name)) (x.(vpc_security_group_ids))
    (x.(preferred_maintenance_window)) (x.(preferred_backup_window))
    (x.(db_parameter_group_name)) (x.(option_group_name))
    (x.(option_group_supplied)) (x.(tags)) (x.(deletion_protection)).

Definition set_db_instance_identifier (v : string) (x : t) : t :=
  mk (x.(status)) (x.(is_replica)) (x.(replicas)) (x.(engine)) (x.(iops))
    (x.(storage_type)) (x.(master_user_secret_status)) (x.(allocated_storage))
    (x.(_max_allocated_storage)) (x.(db_cluster_identifier)) v
    (x.(source_db_instance_identifier)) (x.(port)) (x.(copy_tags_to_snapshot))
    (x.(multi_az)) (x.(db_subnet_group_name)) (x.(vpc_security_group_ids))
    (x.(preferred_maintenance_window)) (x.(preferred_backup_window))
    (x.(db_parameter_group_name)) (x.(option_group_name))
    (x.(option_group_supplied)) (x.(tags)) (x.(deletion_protection)).

Definition set_copy_tags_to_snapshot (v : bool) (x : t) : t :=
  mk (x.(status)) (x.(is_replica)) (x.(replicas)) (x.(engine)) (x.(iops))
    (x.(storage_type)) (x.(master_user_secret_status)) (x.(allocated_storage))
    (x.(_max_allocated_storage)) (x.(db_cluster_identifier))
    (x.(db_instance_identifier)) (x.(source_db_instance_identifier))
    (x.(port)) v (x.(multi_az)) (x.(db_subnet_group_name))
    (x.(vpc_security_group_ids)) (x.(preferred_maintenance_window))
    (x.(preferred_backup_window)) (x.(db_parameter_group_name))
    (x.(option_group_name)) (x.(option_group_supplied)) (x.(tags))
    (x.(deletion_protection)).

Definition set_multi_az (v : bool) (x : t) : t :=
  mk (x.(status)) (x.(is_replica)) (x.(replicas)) (x.(engine)) (x.(iops))
    (x.(storage_type)) (x.(master_user_secret_status)) (x.(allocated_storage))
    (x.(_max_allocated_storage)) (x.(db_cluster_identifier))
    (x.(db_instance_identifier)) (x.(source_db_instance_identifier))
    (x.(port)) (x.(copy_tags_to_snapshot)) v (x.(db_subnet_group_name))
    (x.(vpc_security_group_ids)) (x.(preferred_maintenance_window))
    (x.(preferred_backup_window)) (x.(db_parameter_group_name))
    (x.(option_group_name)) (x.(option_group_supplied)) (x.(tags))
    (x.(deletion_protection)).

Definition set_preferred_maintenance_window (v : string) (x : t) : t :=
  mk (x.(status)) (x.(is_replica)) (x.(replicas)) (x.(engine)) (x.(iops))
    (x.(storage_type)) (x.(master_user_secret_status)) (x.(allocated_storage))
    (x.(_max_allocated_storage)) (x.(db_cluster_identifier))
    (x.(db_instance_identifier)) (x.(source_db_instance_identifier))
    (x.(port)) (x.(copy_tags_to_snapshot)) (x.(multi_az))
    (x.(db_subnet_group_name)) (x.(vpc_security_group_ids)) v
    (x.(preferred_backup_window)) (x.(db_parameter_group_name))
    (x.(option_group_name)) (x.(option_group_supplied)) (x.(tags))
    (x.(deletion_protection)).

Definition set_preferred_backup_window (v : string) (x : t) : t :=
  mk (x.(status)) (x.(is_replica)) (x.(replicas)) (x.(engine)) (x.(iops))
    (x.(storage_type)) (x.(master_user_secret_status)) (x.(allocated_storage))
    (x.(_max_allocated_storage)) (x.(db_cluster_identifier))
    (x.(db_instance_identifier)) (x.(source_db_instance_identifier))
    (x.(port)) (x.(copy_tags_to_snapshot)) (x.(multi_az))
    (x.(db_subnet_group_name)) (x.(vpc_security_group_ids))
    (x.(preferred_maintenance_window)) v (x.(db_parameter_group_name))
    (x.(option_group_name)) (x.(option_group_supplied)) (x.(tags))
    (x.(deletion_protection)).

Definition set_tags (v : Tags) (x : t) : t :=
  mk (x.(status)) (x.(is_replica)) (x.(replicas)) (x.(engine)) (x.(iops))
    (x.(storage_type)) (x.(master_user_secret_status)) (x.(allocated_storage))
    (x.(_max_allocated_storage)) (x.(db_cluster_identifier))
    (x.(db_instance_identifier)) (x.(source_db_instance_identifier))
    (x.(port)) (x.(copy_tags_to_snapshot)) (x.(multi_az))
    (x.(db_subnet_group_name)) (x.(vpc_security_group_ids))
    (x.(preferred_maintenance_window)) (x.(preferred_backup_window))
    (x.(db_parameter_group_name)) (x.(option_group_name))
    (x.(option_group_supplied)) v (x.(deletion_protection)).

Definition set_deletion_protection (v : bool) (x : t) : t :=
  mk (x.(status)) (x.(is_replica)) (x.(replicas)) (x.(engine)) (x.(iops))
    (x.(storage_type)) (x.(master_user_secret_status)) (x.(allocated_storage))
    (x.(_max_allocated_storage)) (x.(db_cluster_identifier))
    (x.(db_instance_identifier)) (x.(source_db_instance_identifier))
    (x.(port)) (x.(copy_tags_to_snapshot)) (x.(multi_az))
    (x.(db_subnet_group_name)) (x.(vpc_security_group_ids))
    (x.(preferred_maintenance_window)) (x.(preferred_backup_window))
    (x.(db_parameter_group_name)) (x.(option_group_name))
    (x.(option_group_supplied)) (x.(tags)) v.

End DBInstance.

(** [class DBSnapshot].  The attribute [database] is the instance object
    itself, which the backend goes on changing after the snapshot is made
    (its status, its tags, its identifier); it is a reference and not part
    of this record.  What [create_db_snapshot] takes from the instance, it
    reads when the snapshot is made. *)
Module DBSnapshot.

Record t : Type := mk {
  snapshot_id : string;
  snapshot_type : string;
  tags : Tags;
  status : string
}.

Definition set_tags (v : Tags) (x : t) : t :=
  mk (x.(snapshot_id)) (x.(snapshot_type)) v (x.(status)).

End DBSnapshot.

(** [class DBClusterSnapshot].  The attribute [cluster] is the cluster
    object in the source; the record keeps the cluster as it is when the
    snapshot is taken, which is the cluster that the call taking the
    snapshot leaves: no method changes a cluster after it has taken a
    snapshot of it. *)
Module DBClusterSnapshot.

Record t : Type := mk {
  cluster : DBCluster.t;   (* the cluster as it was when the snapshot was taken *)
  snapshot_id : string;
  snapshot_type : string;
  tags : Tags;
  status : string
}.

Definition set_tags (v : Tags) (x : t) : t :=
  mk (x.(cluster)) (x.(snapshot_id)) (x.(snapshot_type)) v (x.(status)).

End DBClusterSnapshot.

(** [class ExportTask]: neither [resource_type] nor [name]. *)
Module ExportTask.

Record t : Type := mk {
  export_task_identifier : string;
  status : string;
  tags : Tags
}.

Definition set_tags (v : Tags) (x : t) : t :=
  mk (x.(export_task_identifier)) (x.(status)) v.

End ExportTask.

(** [class EventSubscription]. *)
Module EventSubscription.

Record t : Type := mk {
  subscription_name : string;
  tags : Tags
}.

Definition set_tags (v : Tags) (x : t) : t :=
  mk (x.(subscription_name)) v.

End EventSubscription.

(** [class DBSecurityGroup]. *)
Module DBSecurityGroup.

Record t : Type := mk {
  group_name : string;
  tags : Tags
}.

Definition set_tags (v : Tags) (x : t) : t :=
  mk (x.(group_name)) v.

End DBSecurityGroup.

(** [class DBSubnetGroup]. *)
Module DBSubnetGroup.

Record t : Type := mk {
  subnet_name : string;
  tags : Tags
}.

Definition set_tags (v : Tags) (x : t) : t :=
  mk (x.(subnet_name)) v.

End DBSubnetGroup.

(** [class DBProxy]: its [name] is the random [unique_id]. *)
Module DBProxy.

Record t : Type := mk {
  db_proxy_name : string;
  unique_id : string;
  tags : Tags
}.

Definition set_tags (v : Tags) (x : t) : t :=
  mk (x.(db_proxy_name)) (x.(unique_id)) v.

End DBProxy.

(** [class OptionGroup]. *)
Module OptionGroup.

Record t : Type := mk {
  _name : string;
  engine_name : string;
  major_engine_version : string;
  tags : Tags
}.

Definition set_tags (v : Tags) (x : t) : t :=
  mk (x.(_name)) (x.(engine_name)) (x.(major_engine_version)) v.

End OptionGroup.

(** [class DBParameterGroup]. *)
Module DBParameterGroup.

Record t : Type := mk {
  _name : string;
  family : option string;
  tags : Tags
}.

Definition set_tags (v : Tags) (x : t) : t :=
  mk (x.(_name)) (x.(family)) v.

End DBParameterGroup.

(** [class DBClusterParameterGroup]. *)
Module DBClusterParameterGroup.

Record t : Type := mk {
  _name : string;
  db_parameter_group_family : string;
  tags : Tags
}.

Definition set_tags (v : Tags) (x : t) : t :=
  mk (x.(_name)) (x.(db_parameter_group_family)) v.

End DBClusterParameterGroup.

(** The state of one [RDSBackend]: its region, account and partition, and
    the resource dictionaries of [RDSBackend.__init__]. *)
Module Backend.

Record t : Type := mk {
  region_name : string;
  account_id : string;
  partition : string;   (* [BaseBackend.partition] *)
  clusters : Dict.t DBCluster.t;
  global_clusters : Dict.t GlobalCluster.t;
  databases : Dict.t DBInstance.t;
  database_snapshots : Dict.t DBSnapshot.t;
  cluster_snapshots : Dict.t DBClusterSnapshot.t;
  export_tasks : Dict.t ExportTask.t;
  event_subscriptions : Dict.t EventSubscription.t;
  db_parameter_groups : Dict.t DBParameterGroup.t;
  db_cluster_parameter_groups : Dict.t DBClusterParameterGroup.t;
  option_groups : Dict.t OptionGroup.t;
  security_groups : Dict.t DBSecurityGroup.t;
  subnet_groups : Dict.t DBSubnetGroup.t;
  db_proxies : Dict.t DBProxy.t
}.

Definition set_clusters (v : Dict.t DBCluster.t) (x : t) : t :=
  mk (x.(region_name)) (x.(account_id)) (x.(partition)) v
    (x.(global_clusters)) (x.(databases)) (x.(database_snapshots))
    (x.(cluster_snapshots)) (x.(export_tasks)) (x.(event_subscriptions))
    (x.(db_parameter_groups)) (x.(db_cluster_parameter_groups))
    (x.(option_groups)) (x.(security_groups)) (x.(subnet_groups))
    (x.(db_proxies)).

Definition set_global_clusters (v : Dict.t GlobalCluster.t) (x : t) : t :=
  mk (x.(region_name)) (x.(account_id)) (x.(partition)) (x.(clusters)) v
    (x.(databases)) (x.(database_snapshots)) (x.(cluster_snapshots))
    (x.(export_tasks)) (x.(event_subscriptions)) (x.(db_parameter_groups))
    (x.(db_cluster_parameter_groups)) (x.(option_groups))
    (x.(security_groups)) (x.(subnet_groups)) (x.(db_proxies)).

Definition set_databases (v : Dict.t DBInstance.t) (x : t) : t :=
  mk (x.(region_name)) (x.(account_id)) (x.(partition)) (x.(clusters))
    (x.(global_clusters)) v (x.(database_snapshots)) (x.(cluster_snapshots))
    (x.(export_tasks)) (x.(event_subscriptions)) (x.(db_parameter_groups))
    (x.(db_cluster_parameter_groups)) (x.(option_groups))
    (x.(security_groups)) (x.(subnet_groups)) (x.(db_proxies)).

Definition set_database_snapshots (v : Dict.t DBSnapshot.t) (x : t) : t :=
  mk (x.(region_name)) (x.(account_id)) (x.(partition)) (x.(clusters))
    (x.(global_clusters)) (x.(databases)) v (x.(cluster_snapshots))
    (x.(export_tasks)) (x.(event_subscriptions)) (x.(db_parameter_groups))
    (x.(db_cluster_parameter_groups)) (x.(option_groups))
    (x.(security_groups)) (x.(subnet_groups)) (x.(db_proxies)).

Definition set_cluster_snapshots (v : Dict.t DBClusterSnapshot.t) (x : t) : t :=
  mk (x.(region_name)) (x.(account_id)) (x.(partition)) (x.(clusters))
    (x.(global_clusters)) (x.(databases)) (x.(database_snapshots)) v
    (x.(export_tasks)) (x.(event_subscriptions)) (x.(db_parameter_groups))
    (x.(db_cluster_parameter_groups)) (x.(option_groups))
    (x.(security_groups)) (x.(subnet_groups)) (x.(db_proxies)).

Definition set_export_tasks (v : Dict.t ExportTask.t) (x : t) : t :=
  mk (x.(region_name)) (x.(account_id)) (x.(partition)) (x.(clusters))
    (x.(global_clusters)) (x.(databases)) (x.(database_snapshots))
    (x.(cluster_snapshots)) v (x.(event_subscriptions))
    (x.(db_parameter_groups)) (x.(db_cluster_parameter_groups))
    (x.(option_groups)) (x.(security_groups)) (x.(subnet_groups))
    (x.(db_proxies)).

Definition set_event_subscriptions (v : Dict.t EventSubscription.t) (x : t) : t :=
  mk (x.(region_name)) (x.(account_id)) (x.(partition)) (x.(clusters))
    (x.(global_clusters)) (x.(databases)) (x.(database_snapshots))
    (x.(cluster_snapshots)) (x.(export_tasks)) v (x.(db_parameter_groups))
    (x.(db_cluster_parameter_groups)) (x.(option_groups))
    (x.(security_groups)) (x.(subnet_groups)) (x.(db_proxies)).

Definition set_db_parameter_groups (v : Dict.t DBParameterGroup.t) (x : t) : t :=
  mk (x.(region_name)) (x.(account_id)) (x.(partition)) (x.(clusters))
    (x.(global_clusters)) (x.(databases)) (x.(database_snapshots))
    (x.(cluster_snapshots)) (x.(export_tasks)) (x.(event_subscriptions)) v
    (x.(db_cluster_parameter_groups)) (x.(option_groups))
    (x.(security_groups)) (x.(subnet_groups)) (x.(db_proxies)).

Definition set_db_cluster_parameter_groups (v : Dict.t DBClusterParameterGroup.t) (x : t) : t :=
  mk (x.(region_name)) (x.(account_id)) (x.(partition)) (x.(clusters))
    (x.(global_clusters)) (x.(databases)) (x.(database_snapshots))
    (x.(cluster_snapshots)) (x.(export_tasks)) (x.(event_subscriptions))
    (x.(db_parameter_groups)) v (x.(option_groups)) (x.(security_groups))
    (x.(subnet_groups)) (x.(db_proxies)).

Definition set_option_groups (v : Dict.t OptionGroup.t) (x : t) : t :=
  mk (x.(region_name)) (x.(account_id)) (x.(partition)) (x.(clusters))
    (x.(global_clusters)) (x.(databases)) (x.(database_snapshots))
    (x.(cluster_snapshots)) (x.(export_tasks)) (x.(event_subscriptions))
    (x.(db_parameter_groups)) (x.(db_cluster_parameter_groups)) v
    (x.(security_groups)) (x.(subnet_groups)) (x.(db_proxies)).

Definition set_security_groups (v : Dict.t DBSecurityGroup.t) (x : t) : t :=
  mk (x.(region_name)) (x.(account_id)) (x.(partition)) (x.(clusters))
    (x.(global_clusters)) (x.(databases)) (x.(database_snapshots))
    (x.(cluster_snapshots)) (x.(export_tasks)) (x.(event_subscriptions))
    (x.(db_parameter_groups)) (x.(db_cluster_parameter_groups))
    (x.(option_groups)) v (x.(subnet_groups)) (x.(db_proxies)).

Definition set_subnet_groups (v : Dict.t DBSubnetGroup.t) (x : t) : t :=
  mk (x.(region_name)) (x.(account_id)) (x.(partition)) (x.(clusters))
    (x.(global_clusters)) (x.(databases)) (x.(database_snapshots))
    (x.(cluster_snapshots)) (x.(export_tasks)) (x.(event_subscriptions))
    (x.(db_parameter_groups)) (x.(db_cluster_parameter_groups))
    (x.(option_groups)) (x.(security_groups)) v (x.(db_proxies)).

Definition set_db_proxies (v : Dict.t DBProxy.t) (x : t) : t :=
  mk (x.(region_name)) (x.(account_id)) (x.(partition)) (x.(clusters))
    (x.(global_clusters)) (x.(databases)) (x.(database_snapshots))
    (x.(cluster_snapshots)) (x.(export_tasks)) (x.(event_subscriptions))
    (x.(db_parameter_groups)) (x.(db_cluster_parameter_groups))
    (x.(option_groups)) (x.(security_groups)) (x.(subnet_groups)) v.

End Backend.

(* ------------------------------------------------------------------ *)
(** * [class RDSBaseModel]: resource type, name and ARN *)

Module RDSBaseModel.

(** An object of any of the classes derived from [RDSBaseModel]. *)
Inductive resource : Type :=
| IsDBProxyTarget (x : DBProxyTarget.t)
| IsDBProxyTargetGroup (x : DBProxyTargetGroup.t)
| IsGlobalCluster (x : GlobalCluster.t)
| IsDBCluster (x : DBCluster.t)
| IsDBClusterSnapshot (x : DBClusterSnapshot.t)
| IsDBInstance (x : DBInstance.t)
| IsDBSnapshot (x : DBSnapshot.t)
| IsExportTask (x : ExportTask.t)
| IsEventSubscription (x : EventSubscription.t)
| IsDBSecurityGroup (x : DBSecurityGroup.t)
| IsDBSubnetGroup (x : DBSubnetGroup.t)
| IsDBProxy (x : DBProxy.t)
| IsOptionGroup (x : OptionGroup.t)
| IsDBParameterGroup (x : DBParameterGroup.t)
| IsDBClusterParameterGroup (x : DBClusterParameterGroup.t).

(** The class attribute [resource_type].  [ExportTask] inherits the bare
    annotation of the base class, so reading it there is an
    [AttributeError]. *)
Definition resource_type (r : resource) : res string :=
  match r with
  | IsDBProxyTarget _ => Ok "proxy-target"
  | IsDBProxyTargetGroup _ => Ok "target-group"
  | IsGlobalCluster _ => Ok "global-cluster"
  | IsDBCluster _ => Ok "cluster"
  | IsDBClusterSnapshot _ => Ok "cluster-snapshot"
  | IsDBInstance _ => Ok "db"
  | IsDBSnapshot _ => Ok "snapshot"
  | IsExportTask _ => Raise AttributeError
  | IsEventSubscription _ => Ok "es"
  | IsDBSecurityGroup _ => Ok "secgrp"
  | IsDBSubnetGroup _ => Ok "subgrp"
  | IsDBProxy _ => Ok "db-proxy"
  | IsOptionGroup _ => Ok "og"
  | IsDBParameterGroup _ => Ok "pg"
  | IsDBClusterParameterGroup _ => Ok "cluster-pg"
  end.

(** The property [name]; the base class raises [NotImplementedError]. *)
Definition name (r : resource) : res string :=
  match r with
  | IsDBProxyTarget _ => Raise NotImplementedError
  | IsDBProxyTargetGroup x => Ok x.(DBProxyTargetGroup._name)
  | IsGlobalCluster x => Ok x.(GlobalCluster.global_cluster_identifier)
  | IsDBCluster x => Ok x.(DBCluster.db_cluster_identifier)
  | IsDBClusterSnapshot x => Ok x.(DBClusterSnapshot.snapshot_id)
  | IsDBInstance x => Ok x.(DBInstance.db_instance_identifier)
  | IsDBSnapshot x => Ok x.(DBSnapshot.snapshot_id)
  | IsExportTask _ => Raise NotImplementedError
  | IsEventSubscription x => Ok x.(EventSubscription.subscription_name)
  | IsDBSecurityGroup x => Ok x.(DBSecurityGroup.group_name)
  | IsDBSubnetGroup x => Ok x.(DBSubnetGroup.subnet_name)
  | IsDBProxy x => Ok x.(DBProxy.unique_id)
  | IsOptionGroup x => Ok x.(OptionGroup._name)
  | IsDBParameterGroup x => Ok x.(DBParameterGroup._name)
  | IsDBClusterParameterGroup x => Ok x.(DBClusterParameterGroup._name)
  end.

Definition get_tags (r : resource) : Tags :=
  match r with
  | IsDBProxyTarget x => x.(DBProxyTarget.tags)
  | IsDBProxyTargetGroup x => x.(DBProxyTargetGroup.tags)
  | IsGlobalCluster x => x.(GlobalCluster.tags)
  | IsDBCluster x => x.(DBCluster.tags)
  | IsDBClusterSnapshot x => x.(DBClusterSnapshot.tags)
  | IsDBInstance x => x.(DBInstance.tags)
  | IsDBSnapshot x => x.(DBSnapshot.tags)
  | IsExportTask x => x.(ExportTask.tags)
  | IsEventSubscription x => x.(EventSubscription.tags)
  | IsDBSecurityGroup x => x.(DBSecurityGroup.tags)
  | IsDBSubnetGroup x => x.(DBSubnetGroup.tags)
  | IsDBProxy x => x.(DBProxy.tags)
  | IsOptionGroup x => x.(OptionGroup.tags)
  | IsDBParameterGroup x => x.(DBParameterGroup.tags)
  | IsDBClusterParameterGroup x => x.(DBClusterParameterGroup.tags)
  end.

(** Assignment to [tags] after the setter has coerced the value. *)
Definition set_tags (v : Tags) (r : resource) : resource :=
  match r with
  | IsDBProxyTarget x => IsDBProxyTarget (DBProxyTarget.set_tags v x)
  | IsDBProxyTargetGroup x => IsDBProxyTargetGroup (DBProxyTargetGroup.set_tags v x)
  | IsGlobalCluster x => IsGlobalCluster (GlobalCluster.set_tags v x)
  | IsDBCluster x => IsDBCluster (DBCluster.set_tags v x)
  | IsDBClusterSnapshot x => IsDBClusterSnapshot (DBClusterSnapshot.set_tags v x)
  | IsDBInstance x => IsDBInstance (DBInstance.set_tags v x)
  | IsDBSnapshot x => IsDBSnapshot (DBSnapshot.set_tags v x)
  | IsExportTask x => IsExportTask (ExportTask.set_tags v x)
  | IsEventSubscription x => IsEventSubscription (EventSubscription.set_tags v x)
  | IsDBSecurityGroup x => IsDBSecurityGroup (DBSecurityGroup.set_tags v x)
  | IsDBSubnetGroup x => IsDBSubnetGroup (DBSubnetGroup.set_tags v x)
  | IsDBProxy x => IsDBProxy (DBProxy.set_tags v x)
  | IsOptionGroup x => IsOptionGroup (OptionGroup.set_tags v x)
  | IsDBParameterGroup x => IsDBParameterGroup (DBParameterGroup.set_tags v x)
  | IsDBClusterParameterGroup x =>
      IsDBClusterParameterGroup (DBClusterParameterGroup.set_tags v x)
  end.

(** [self.add_tags(tags)]: the object afterwards and the list returned. *)
Definition add_tags (tags : Tags) (r : resource) : resource * Tags :=
  let v := TaggingMixin.add_tags (get_tags r) tags in
  (set_tags v r, v).

(** [self.remove_tags(tag_keys)]. *)
Definition remove_tags (tag_keys : list string) (r : resource) : resource :=
  set_tags (TaggingMixin.remove_tags (get_tags r) tag_keys) r.

(** The f-string of [RDSBaseModel.arn], for a given type and name. *)
Definition arn_format (b : Backend.t) (rtype rname : string) : string :=
  ("arn:" ++ b.(Backend.partition) ++ ":rds:" ++ b.(Backend.region_name) ++ ":"
   ++ b.(Backend.account_id) ++ ":" ++ rtype ++ ":" ++ rname)%string.

(** [RDSBaseModel.arn] of an object whose backend is [b].  The f-string
    reads [resource_type] before [name]. *)
Definition base_arn (b : Backend.t) (r : resource) : res string :=
  res_bind (resource_type r) (fun rtype =>
  res_bind (name r) (fun rname =>
  Ok (arn_format b rtype rname))).

(** The property [arn]: [GlobalCluster] overrides it and drops the region. *)
Definition arn (b : Backend.t) (r : resource) : res string :=
  match r with
  | IsGlobalCluster _ =>
      res_bind (base_arn b r) (fun s =>
      Ok (PyStr.replace s b.(Backend.region_name) ""))
  | _ => base_arn b r
  end.

End RDSBaseModel.

(* ------------------------------------------------------------------ *)
(** * Keyword arguments *)

(** In the records below [None] stands for a key that is absent or bound
    to [None]; where the source tells the two apart only through a default,
    the default is taken. *)

(** The [db_kwargs] of [create_db_instance], i.e. the parameters of
    [DBInstance.__init__]. *)
Module DBInstanceKwargs.

Record t : Type := mk {
  db_instance_identifier : string;
  engine : option string;
  port : option Z;
  allocated_storage : option Z;
  max_allocated_storage : option Z;
  db_subnet_group_name : option string;
  db_cluster_identifier : option string;
  db_parameter_group_name : option string;
  copy_tags_to_snapshot : option bool;
  iops : option string;
  multi_az : option bool;
  preferred_backup_window : option string;
  preferred_maintenance_window : option string;
  storage_type : option string;
  tags : option Tags;
  vpc_security_group_ids : option (list string);
  deletion_protection : option bool;
  option_group_name : option string;
  master_user_secret_status : option string
}.

End DBInstanceKwargs.

(** The [db_kwargs] of [modify_db_instance]. *)
Module ModifyKwargs.

Record t : Type := mk {
  new_db_instance_identifier : option string;
  db_instance_identifier : option string;
  db_cluster_identifier : option string;
  multi_az : option bool;
  copy_tags_to_snapshot : option bool;
  deletion_protection : option bool;
  preferred_backup_window : option string;
  preferred_maintenance_window : option string;
  rotate_master_user_password : option bool;
  apply_immediately : option bool;
  master_user_secret_status : option string;
  tags : option Tags
}.

End ModifyKwargs.

(** The [kwargs] of [create_db_cluster], i.e. of [DBCluster.__init__]. *)
Module DBClusterKwargs.

Record t : Type := mk {
  db_cluster_identifier : string;
  deletion_protection : option bool;
  engine : option string;
  engine_version : option string;
  engine_mode : option string;
  iops : option Z;
  copy_tags_to_snapshot : option bool;
  storage_type : option string;
  allocated_storage : option Z;
  master_username : option string;
  global_cluster_identifier : option string;
  master_user_password : option string;
  port : option Z;
  tags : option Tags;
  replication_source_identifier : option string;
  backtrack_window : option Z;
  enable_iam_database_authentication : option bool
}.

End DBClusterKwargs.

(* ------------------------------------------------------------------ *)
(** * Small Python idioms *)

Definition option_or (A : Type) (o : option A) (d : A) : A :=
  match o with Some a => a | None => d end.

Definition truthy_bool (o : option bool) : bool := option_or o false.

Definition truthy_Z (o : option Z) : bool :=
  match o with Some z => negb (z =? 0)%Z | None => false end.

Definition is_some (A : Type) (o : option A) : bool :=
  match o with Some _ => true | None => false end.

Definition apply_opt (A T : Type) (o : option A) (f : A -> T -> T) (x : T) : T :=
  match o with Some v => f v x | None => x end.

(** [table[key]] on a dictionary literal. *)
Definition lookup (V : Type) (table : Dict.t V) (key : string) : res V :=
  match Dict.get key table with
  | Some v => Ok v
  | None => Raise (KeyError key)
  end.

(** [int(text)] on a string of code points below 256: blanks around, a
    sign, decimal digits with single underscores between them. *)
Module PyInt.

(** The blanks that [int] skips around the number, among the code points
    below 256 that a [string] holds: the ASCII blanks of C's [isspace] and,
    of the code points above 127, the two that are Unicode white space (NEL
    and the no-break space).  The separators 28 to 31 are white space for
    [str.strip] but not for [int]. *)
Definition is_space (c : ascii) : bool :=
  PyStr.in_range 9 13 c || (PyStr.code c =? 32)
  || (PyStr.code c =? 133) || (PyStr.code c =? 160).

Fixpoint lstrip (l : list ascii) : list ascii :=
  match l with
  | [] => []
  | c :: l' => if is_space c then lstrip l' else l
  end.

Definition strip (l : list ascii) : list ascii :=
  rev (lstrip (rev (lstrip l))).

Fixpoint digits (acc : Z) (after_digit : bool) (l : list ascii) : option Z :=
  match l with
  | [] => if after_digit then Some acc else None
  | c :: l' =>
      if PyStr.is_digit c
      then digits (10 * acc + Z.of_nat (PyStr.code c - 48))%Z true l'
      else if PyStr.is_char "_"%char c && after_digit then digits acc false l'
      else None
  end.

(** [int(text)].  [max_str_digits] is [sys.get_int_max_str_digits()], and 0
    where the interpreter has no such limit: a number of more digits is a
    [ValueError] like any other text that is not a number.  The interpreter
    counts the digits against the limit only when there are more than 640,
    the least limit that can be set. *)
Definition int (max_str_digits : nat) (text : string) : res Z :=
  let body := strip (PyStr.chars text) in
  let parsed :=
    match body with
    | c :: l' =>
        if PyStr.is_char "-"%char c then option_map Z.opp (digits 0 false l')
        else if PyStr.is_char "+"%char c then digits 0 false l'
        else digits 0 false body
    | [] => None
    end in
  match parsed with
  | Some z =>
      let digit_count := List.length (filter PyStr.is_digit body) in
      if (640 <? digit_count) && (0 <? max_str_digits)
         && (max_str_digits <? digit_count)
      then Raise ValueError
      else Ok z
  | None => Raise ValueError
  end.

End PyInt.

(* ------------------------------------------------------------------ *)
(** * [class RDSBackend] *)

Module RDSBackend.

Import Re.

(** What the backend takes from outside [models.py]: constants and helpers
    of [moto.rds.utils] and [moto.utilities.utils], the process environment,
    the EC2 backend, and the account's other regional backends. *)
Record externals : Type := {
  (** [moto.utilities.utils.ARN_PARTITION_REGEX] *)
  ARN_PARTITION_REGEX : regex;
  (** [ClusterEngine.list_cluster_engines()] *)
  list_cluster_engines : list string;
  (** [ClusterEngine.serverless_engines()] *)
  serverless_engines : list string;
  (** [DbInstanceEngine.valid_db_instance_engine()] *)
  valid_db_instance_engine : list string;
  (** [utils.valid_preferred_maintenance_window]: an error message, if any *)
  valid_preferred_maintenance_window :
    option string -> option string -> option string;
  (** the id of the default security group of the default VPC *)
  default_security_group_id : string;
  (** [os.environ.get] *)
  environ : string -> option string;
  (** [sys.get_int_max_str_digits()], 0 where there is no limit *)
  int_max_str_digits : nat;
  (** [find_cluster] when the ARN names another account or region *)
  foreign_find_cluster : string -> string -> string -> res unit;
  (** [find_db_from_id(...).remove_replica(...)] in another region *)
  foreign_remove_replica : string -> string -> string -> res unit
}.

(** ** The state monad of the methods *)

Definition M (A : Type) : Type := Backend.t -> res A * Backend.t.

Definition ret (A : Type) (a : A) : M A := fun b => (Ok a, b).
Definition raise (A : Type) (e : exn) : M A := fun b => (Raise e, b).
Definition lift (A : Type) (r : res A) : M A := fun b => (r, b).
Definition get_state : M Backend.t := fun b => (Ok b, b).
Definition modify (f : Backend.t -> Backend.t) : M unit := fun b => (Ok tt, f b).

Definition bind (A B : Type) (m : M A) (f : A -> M B) : M B :=
  fun b =>
    match m b with
    | (Ok a, b') => f a b'
    | (Raise e, b') => (Raise e, b')
    end.

Arguments raise {A} e.

Notation "x <- m ;; k" := (bind m (fun x => k))
  (at level 61, m at next level, right associativity).
Notation "m >> k" := (bind m (fun _ => k))
  (at level 61, right associativity).

(** ** Identifier validation *)

Definition is_letter (c : ascii) : bool := PyStr.is_lower c || PyStr.is_upper c.
Definition is_alnum (c : ascii) : bool := is_letter c || PyStr.is_digit c.
Definition is_hyphen (c : ascii) : bool := PyStr.is_char "-"%char c.
Definition is_idchar (c : ascii) : bool := is_alnum c || is_hyphen c.

(** ["^(?!.*--)([a-zA-Z]?[a-zA-Z0-9-]{0,61}[a-zA-Z0-9])$"] *)
Definition db_identifier_regex : regex :=
  Cat Bol
   (Cat (NegLook (Cat (Star dot) (lit "--")))
    (Cat (Cat (Opt (Cls is_letter))
          (Cat (Rep (Cls is_idchar) 0 61) (Cls is_alnum)))
         Eol)).

(** [_validate_db_identifier].  The [and] evaluates [db_identifier[0]] only
    after the pattern has matched. *)
Definition _validate_db_identifier (db_identifier : string) : res unit :=
  if re_match db_identifier_regex db_identifier then
    match PyStr.chars db_identifier with
    | [] => Raise IndexError
    | c :: _ => if PyStr.isalpha c then Ok tt else Raise InvalidDBInstanceIdentifier
    end
  else Raise InvalidDBInstanceIdentifier.

(** ** Filters *)

(** Modelled from the spec: [apply_filter] of [moto/rds/utils.py] is
    outside [models.py]; the specification describes the backend as
    resource dictionaries keyed by identifier and gives no further detail.
    For the single filter that [describe_db_instances] and
    [describe_db_clusters] build from an identifier, the helper keeps the
    entries one of whose attributes listed in the class's [FilterDef] is
    among the filter's values, in the order of the dictionary. *)
Definition apply_filter (V : Type) (attrs : list (V -> string))
    (values : list string) (resources : Dict.t V) : Dict.t V :=
  filter (fun kv => existsb (fun attr => PyStr.mem (attr (snd kv)) values) attrs)
         resources.

Definition db_instance_arn (b : Backend.t) (d : DBInstance.t) : string :=
  RDSBaseModel.arn_format b "db" d.(DBInstance.db_instance_identifier).

Definition db_cluster_arn (b : Backend.t) (c : DBCluster.t) : string :=
  RDSBaseModel.arn_format b "cluster" c.(DBCluster.db_cluster_identifier).

(** [describe_db_instances(db_instance_identifier)] without [filters]; the
    entries are returned with their keys, which stand for the identity of
    the objects. *)
Definition describe_db_instances (db_instance_identifier : option string)
    (b : Backend.t) : res (Dict.t DBInstance.t) :=
  if PyStr.truthy db_instance_identifier then
    let id := option_or db_instance_identifier "" in
    let databases :=
      apply_filter [db_instance_arn b; DBInstance.db_instance_identifier]
                   [id] b.(Backend.databases) in
    match databases with
    | [] => Raise (DBInstanceNotFoundError id)
    | _ :: _ => Ok databases
    end
  else Ok b.(Backend.databases).

(** [describe_db_clusters(cluster_identifier)] without [filters]. *)
Definition describe_db_clusters (cluster_identifier : option string)
    (b : Backend.t) : res (Dict.t DBCluster.t) :=
  if PyStr.truthy cluster_identifier then
    let id := option_or cluster_identifier "" in
    let clusters :=
      apply_filter [db_cluster_arn b; DBCluster.db_cluster_identifier]
                   [id] b.(Backend.clusters) in
    match clusters with
    | [] => Raise (DBClusterNotFoundError id)
    | _ :: _ => Ok clusters
    end
  else Ok b.(Backend.clusters).

(** [xs[0]] *)
Definition first (A : Type) (l : list A) : res A :=
  match l with
  | [] => Raise IndexError
  | x :: _ => Ok x
  end.

Section WithExternals.

Variable X : externals.

(** [self.arn_regex]: the pattern is the constant followed by the literal
    text, which is a concatenation as long as the constant has no
    alternation outside a group. *)
Definition arn_regex : regex :=
  Cat X.(ARN_PARTITION_REGEX)
   (Cat (lit ":rds:")
    (Cat (Star dot)
     (Cat (lit ":")
      (Cat (Star (Cls PyStr.is_digit))
       (Cat (lit ":")
        (Cat (alts [lit "db"; lit "cluster"; lit "es"; lit "og"; lit "pg";
                    lit "ri"; lit "secgrp"; lit "snapshot";
                    lit "cluster-snapshot"; lit "subgrp"]
                   (lit "db-proxy"))
         (Cat (lit ":")
          (Cat (Star dot) Eol)))))))).

(** [int(os.environ.get("MOTO_RDS_SNAPSHOT_LIMIT", "100"))] *)
Definition snapshot_limit : res Z :=
  PyInt.int X.(int_max_str_digits)
            (option_or (X.(environ) "MOTO_RDS_SNAPSHOT_LIMIT") "100").

(** ** [DBInstance] *)

Definition DBInstance_default_port : Dict.t Z :=
  [("aurora", 3306); ("aurora-mysql", 3306); ("aurora-postgresql", 5432);
   ("mysql", 3306); ("mariadb", 3306); ("postgres", 5432);
   ("oracle-ee", 1521); ("oracle-se2", 1521); ("oracle-se1", 1521);
   ("oracle-se", 1521); ("sqlserver-ee", 1433); ("sqlserver-ex", 1433);
   ("sqlserver-se", 1433); ("sqlserver-web", 1433)]%Z.

Definition storage_row (gp2 io1 standard : Z) : Dict.t Z :=
  [("gp2", gp2); ("io1", io1); ("standard", standard)].

Definition DBInstance_default_allocated_storage_table : Dict.t (Dict.t Z) :=
  [("aurora", storage_row 0 0 0);
   ("aurora-mysql", storage_row 20 100 10);
   ("aurora-postgresql", storage_row 20 100 10);
   ("mysql", storage_row 20 100 5);
   ("mariadb", storage_row 20 100 5);
   ("postgres", storage_row 20 100 5);
   ("oracle-ee", storage_row 20 100 10);
   ("oracle-se2", storage_row 20 100 10);
   ("oracle-se1", storage_row 20 100 10);
   ("oracle-se", storage_row 20 100 10);
   ("sqlserver-ee", storage_row 200 200 200);
   ("sqlserver-ex", storage_row 20 100 20);
   ("sqlserver-se", storage_row 200 200 200);
   ("sqlserver-web", storage_row 20 100 20)]%Z.

Definition DBInstance_default_allocated_storage (engine storage_type : string)
  : res Z :=
  res_bind (lookup DBInstance_default_allocated_storage_table engine)
           (fun row => lookup row storage_type).

Definition default_storage_type (A : Type) (iops : option A) : string :=
  match iops with None => "gp2" | Some _ => "io1" end.

Definition default_option_groups : Dict.t string :=
  [("MySQL", "default.mysql5.6"); ("mysql", "default.mysql5.6");
   ("postgres", "default.postgres9.3")].

Definition is_default_parameter_group (engine param_group_name : string) : bool :=
  PyStr.startswith param_group_name ("default." ++ PyStr.lower engine)%string.

(** [DBInstance.__init__] for a backend in state [b]. *)
Definition DBInstance_init (b : Backend.t) (kw : DBInstanceKwargs.t)
  : res DBInstance.t :=
  match kw.(DBInstanceKwargs.engine) with
  | None => Raise InvalidParameterValue
  | Some engine =>
  if negb (PyStr.mem engine X.(valid_db_instance_engine))
  then Raise InvalidParameterValue else
  let storage_type :=
    match kw.(DBInstanceKwargs.storage_type) with
    | Some s => s
    | None => default_storage_type kw.(DBInstanceKwargs.iops)
    end in
  res_bind
    (if truthy_Z kw.(DBInstanceKwargs.allocated_storage)
     then Ok (option_or kw.(DBInstanceKwargs.allocated_storage) 0%Z)
     else DBInstance_default_allocated_storage engine storage_type)
    (fun allocated_storage =>
  let max_allocated_storage :=
    if truthy_Z kw.(DBInstanceKwargs.max_allocated_storage)
    then option_or kw.(DBInstanceKwargs.max_allocated_storage) 0%Z
    else allocated_storage in
  if (max_allocated_storage <? allocated_storage)%Z
  then Raise InvalidParameterCombination else
  res_bind
    (match kw.(DBInstanceKwargs.port) with
     | Some p => Ok p
     | None => lookup DBInstance_default_port engine
     end)
    (fun port =>
  let subnet := kw.(DBInstanceKwargs.db_subnet_group_name) in
  if PyStr.truthy subnet
     && negb (Dict.mem (option_or subnet "") b.(Backend.subnet_groups))
  then Raise (DBSubnetGroupNotFoundError (option_or subnet "")) else
  let given_sgs := option_or kw.(DBInstanceKwargs.vpc_security_group_ids) [] in
  let vpc_security_group_ids :=
    match given_sgs with
    | [] => [X.(default_security_group_id)]
    | _ :: _ => given_sgs
    end in
  let preferred_maintenance_window :=
    PyStr.lower (option_or kw.(DBInstanceKwargs.preferred_maintenance_window)
                           "wed:06:38-wed:07:08") in
  let preferred_backup_window :=
    option_or kw.(DBInstanceKwargs.preferred_backup_window) "13:14-13:44" in
  match X.(valid_preferred_maintenance_window)
          (Some preferred_maintenance_window) (Some preferred_backup_window) with
  | Some _ => Raise (RDSClientError "InvalidParameterValue")
  | None =>
  let pg := kw.(DBInstanceKwargs.db_parameter_group_name) in
  if PyStr.truthy pg
     && negb (is_default_parameter_group engine (option_or pg ""))
     && negb (Dict.mem (option_or pg "") b.(Backend.db_parameter_groups))
  then Raise (DBParameterGroupNotFoundError (option_or pg "")) else
  let og := kw.(DBInstanceKwargs.option_group_name) in
  if PyStr.truthy og
     && negb (Dict.mem (option_or og "") b.(Backend.option_groups))
  then Raise (OptionGroupNotFoundFaultError (option_or og "")) else
  let option_group_name :=
    if negb (PyStr.truthy og) && Dict.mem engine default_option_groups
    then Dict.get engine default_option_groups
    else og in
  Ok {| DBInstance.status := "available";
        DBInstance.is_replica := false;
        DBInstance.replicas := [];
        DBInstance.engine := engine;
        DBInstance.iops := kw.(DBInstanceKwargs.iops);
        DBInstance.storage_type := storage_type;
        DBInstance.master_user_secret_status :=
          option_or kw.(DBInstanceKwargs.master_user_secret_status) "active";
        DBInstance.allocated_storage := allocated_storage;
        DBInstance._max_allocated_storage := max_allocated_storage;
        DBInstance.db_cluster_identifier :=
          kw.(DBInstanceKwargs.db_cluster_identifier);
        DBInstance.db_instance_identifier :=
          kw.(DBInstanceKwargs.db_instance_identifier);
        DBInstance.source_db_instance_identifier := None;
        DBInstance.port := port;
        DBInstance.copy_tags_to_snapshot :=
          truthy_bool kw.(DBInstanceKwargs.copy_tags_to_snapshot);
        DBInstance.multi_az := truthy_bool kw.(DBInstanceKwargs.multi_az);
        DBInstance.db_subnet_group_name := subnet;
        DBInstance.vpc_security_group_ids := vpc_security_group_ids;
        DBInstance.preferred_maintenance_window := preferred_maintenance_window;
        DBInstance.preferred_backup_window := preferred_backup_window;
        DBInstance.db_parameter_group_name := pg;
        DBInstance.option_group_name := option_group_name;
        DBInstance.option_group_supplied :=
          match og with Some _ => true | None => false end;
        DBInstance.tags :=
          TaggingMixin.coerce (Some (option_or kw.(DBInstanceKwargs.tags) []));
        DBInstance.deletion_protection :=
          truthy_bool kw.(DBInstanceKwargs.deletion_protection) |}
  end))
  end.

(** [DBInstance.update(db_kwargs)] for the keys modelled; none of their
    assignments can fail, so the order of the keys does not matter. *)
Definition DBInstance_update (kw : ModifyKwargs.t) (d : DBInstance.t)
  : DBInstance.t :=
  apply_opt kw.(ModifyKwargs.db_instance_identifier)
            DBInstance.set_db_instance_identifier
  (apply_opt kw.(ModifyKwargs.db_cluster_identifier)
             (fun v => DBInstance.set_db_cluster_identifier (Some v))
  (apply_opt kw.(ModifyKwargs.multi_az) DBInstance.set_multi_az
  (apply_opt kw.(ModifyKwargs.copy_tags_to_snapshot)
             DBInstance.set_copy_tags_to_snapshot
  (apply_opt kw.(ModifyKwargs.deletion_protection)
             DBInstance.set_deletion_protection
  (apply_opt kw.(ModifyKwargs.preferred_backup_window)
             DBInstance.set_preferred_backup_window
  (apply_opt kw.(ModifyKwargs.preferred_maintenance_window)
             DBInstance.set_preferred_maintenance_window
  (apply_opt kw.(ModifyKwargs.master_user_secret_status)
             DBInstance.set_master_user_secret_status
  (apply_opt kw.(ModifyKwargs.tags)
             (fun v => DBInstance.set_tags (TaggingMixin.coerce (Some v)))
   d)))))))).

(** ** Operations on DB instances and their snapshots *)

(** [create_db_instance] *)
Definition create_db_instance (db_kwargs : DBInstanceKwargs.t) : M DBInstance.t :=
  let database_id := db_kwargs.(DBInstanceKwargs.db_instance_identifier) in
  b <- get_state ;;
  if Dict.mem database_id b.(Backend.databases)
  then raise DBInstanceAlreadyExists else
  lift (_validate_db_identifier database_id) >>
  database <- lift (DBInstance_init b db_kwargs) ;;
  match database.(DBInstance.db_cluster_identifier) with
  | Some cluster_id =>
      match Dict.get cluster_id b.(Backend.clusters) with
      | Some cluster =>
          if PyStr.mem cluster.(DBCluster.engine) X.(serverless_engines)
             && String.eqb cluster.(DBCluster.engine_mode) "serverless"
          then raise InvalidParameterValue
          else if negb (String.eqb database.(DBInstance.engine)
                                   cluster.(DBCluster.engine))
          then raise (InvalidDBInstanceEngine database.(DBInstance.engine)
                                              cluster.(DBCluster.engine))
          else
            modify (fun s =>
              Backend.set_clusters
                (Dict.set cluster_id
                   (DBCluster.set_cluster_members
                      (cluster.(DBCluster.cluster_members) ++ [database_id])
                      cluster)
                   s.(Backend.clusters)) s)
      | None => ret tt
      end
  | None => ret tt
  end >>
  modify (fun s =>
    Backend.set_databases (Dict.set database_id database s.(Backend.databases)) s) >>
  ret database.

(** [create_db_snapshot].  [db_instance] is an identifier ([inl]) or an
    instance object ([inr]). *)
Definition create_db_snapshot (db_instance : string + DBInstance.t)
    (db_snapshot_identifier : string) (snapshot_type : string)
    (tags : option Tags) : M DBSnapshot.t :=
  b <- get_state ;;
  database <-
    match db_instance with
    | inl id =>
        match Dict.get id b.(Backend.databases) with
        | Some d => ret d
        | None => raise (DBInstanceNotFoundError id)
        end
    | inr d => ret d
    end ;;
  if Dict.mem db_snapshot_identifier b.(Backend.database_snapshots)
  then raise (DBSnapshotAlreadyExistsError db_snapshot_identifier) else
  limit <- lift snapshot_limit ;;
  if (limit <=? Z.of_nat (Dict.len b.(Backend.database_snapshots)))%Z
  then raise SnapshotQuotaExceededError else
  let tags0 := option_or tags [] in
  let tags1 :=
    match tags0 with
    | [] => if database.(DBInstance.copy_tags_to_snapshot)
            then database.(DBInstance.tags) else tags0
    | _ :: _ => tags0
    end in
  let snapshot :=
    {| DBSnapshot.snapshot_id := db_snapshot_identifier;
       DBSnapshot.snapshot_type := snapshot_type;
       DBSnapshot.tags := TaggingMixin.coerce (Some tags1);
       DBSnapshot.status := "available" |} in
  modify (fun s =>
    Backend.set_database_snapshots
      (Dict.set db_snapshot_identifier snapshot s.(Backend.database_snapshots)) s) >>
  ret snapshot.

(** [create_auto_snapshot] *)
Definition create_auto_snapshot (db_instance_identifier db_snapshot_identifier : string)
  : M DBSnapshot.t :=
  create_db_snapshot (inl db_instance_identifier) db_snapshot_identifier
                     "automated" None.

(** [del self.databases[key]] *)
Definition del_database (key : string) : M unit :=
  b <- get_state ;;
  if Dict.mem key b.(Backend.databases)
  then modify (Backend.set_databases (Dict.remove key b.(Backend.databases)))
  else raise (KeyError key).

(** Assignment through a reference to the instance stored under [key]. *)
Definition store_database (key : string) (d : DBInstance.t) : M unit :=
  modify (fun s => Backend.set_databases (Dict.set key d s.(Backend.databases)) s).

Fixpoint store_database_all (keys : list string) (d : DBInstance.t) : M unit :=
  match keys with
  | [] => ret tt
  | k :: ks => store_database k d >> store_database_all ks d
  end.

(** [modify_db_instance].  The instance found is stored under [k]; after a
    renaming it is stored under the new key, and still under [k] when [k]
    is not the key deleted, so every later assignment goes to both. *)
Definition modify_db_instance (db_instance_identifier : string)
    (db_kwargs : ModifyKwargs.t) : M DBInstance.t :=
  b <- get_state ;;
  found <- lift (res_bind (describe_db_instances (Some db_instance_identifier) b)
                          (@first _)) ;;
  let k := fst found in
  let database := snd found in
  renamed <-
    match db_kwargs.(ModifyKwargs.new_db_instance_identifier) with
    | Some new_id =>
        del_database db_instance_identifier >>
        store_database new_id database >>
        ret (if String.eqb k db_instance_identifier then [new_id] else [k; new_id],
             ModifyKwargs.mk None (Some new_id)
               db_kwargs.(ModifyKwargs.db_cluster_identifier)
               db_kwargs.(ModifyKwargs.multi_az)
               db_kwargs.(ModifyKwargs.copy_tags_to_snapshot)
               db_kwargs.(ModifyKwargs.deletion_protection)
               db_kwargs.(ModifyKwargs.preferred_backup_window)
               db_kwargs.(ModifyKwargs.preferred_maintenance_window)
               db_kwargs.(ModifyKwargs.rotate_master_user_password)
               db_kwargs.(ModifyKwargs.apply_immediately)
               db_kwargs.(ModifyKwargs.master_user_secret_status)
               db_kwargs.(ModifyKwargs.tags))
    | None => ret ([k], db_kwargs)
    end ;;
  let held := fst renamed in
  let kw := snd renamed in
  let preferred_backup_window := kw.(ModifyKwargs.preferred_backup_window) in
  let preferred_maintenance_window := kw.(ModifyKwargs.preferred_maintenance_window) in
  (if PyStr.truthy preferred_maintenance_window || PyStr.truthy preferred_backup_window
   then match X.(valid_preferred_maintenance_window)
                preferred_maintenance_window preferred_backup_window with
        | Some _ => raise (RDSClientError "InvalidParameterValue")
        | None => ret tt
        end
   else ret tt) >>
  let rotate := truthy_bool kw.(ModifyKwargs.rotate_master_user_password) in
  let apply := truthy_bool kw.(ModifyKwargs.apply_immediately) in
  let kw1 :=
    if rotate && apply
    then ModifyKwargs.mk kw.(ModifyKwargs.new_db_instance_identifier)
           kw.(ModifyKwargs.db_instance_identifier)
           kw.(ModifyKwargs.db_cluster_identifier)
           kw.(ModifyKwargs.multi_az)
           kw.(ModifyKwargs.copy_tags_to_snapshot)
           kw.(ModifyKwargs.deletion_protection)
           kw.(ModifyKwargs.preferred_backup_window)
           kw.(ModifyKwargs.preferred_maintenance_window)
           kw.(ModifyKwargs.rotate_master_user_password)
           kw.(ModifyKwargs.apply_immediately)
           (Some "rotating")
           kw.(ModifyKwargs.tags)
    else kw in
  (if rotate && negb apply
   then raise (RDSClientError "InvalidParameterCombination")
   else ret tt) >>
  let initial_state := DBInstance_update kw1 database in
  store_database_all held
    (DBInstance.set_master_user_secret_status "active" initial_state) >>
  ret initial_state.

(** [stop_db_instance] *)
Definition stop_db_instance (db_instance_identifier : string)
    (db_snapshot_identifier : option string) : M DBInstance.t :=
  lift (_validate_db_identifier db_instance_identifier) >>
  b <- get_state ;;
  found <- lift (res_bind (describe_db_instances (Some db_instance_identifier) b)
                          (@first _)) ;;
  let k := fst found in
  let database := snd found in
  if database.(DBInstance.is_replica)
     || (database.(DBInstance.multi_az)
         && PyStr.startswith (PyStr.lower database.(DBInstance.engine)) "sqlserver")
  then raise (InvalidDBClusterStateFaultError db_instance_identifier) else
  if negb (String.eqb database.(DBInstance.status) "available")
  then raise (InvalidDBInstanceStateError db_instance_identifier "stop") else
  (if PyStr.truthy db_snapshot_identifier
   then create_auto_snapshot db_instance_identifier
                             (option_or db_snapshot_identifier "") >> ret tt
   else ret tt) >>
  let stopped := DBInstance.set_status "stopped" database in
  store_database k stopped >>
  ret stopped.

(** [start_db_instance] *)
Definition start_db_instance (db_instance_identifier : string) : M DBInstance.t :=
  lift (_validate_db_identifier db_instance_identifier) >>
  b <- get_state ;;
  found <- lift (res_bind (describe_db_instances (Some db_instance_identifier) b)
                          (@first _)) ;;
  let k := fst found in
  let database := snd found in
  if negb (String.eqb database.(DBInstance.status) "stopped")
  then raise (InvalidDBInstanceStateError db_instance_identifier "start") else
  let started := DBInstance.set_status "available" database in
  store_database k started >>
  ret started.

(** [find_db_from_id(db_id).remove_replica(replica)], the use that
    [delete_db_instance] makes of [find_db_from_id]. *)
Definition remove_replica_of (db_id : string) (replica : DBInstance.t) : M unit :=
  b <- get_state ;;
  let local (db_name : string) : M unit :=
    found <- lift (res_bind (describe_db_instances (Some db_name) b) (@first _)) ;;
    match list_remove replica.(DBInstance.db_instance_identifier)
                      (snd found).(DBInstance.replicas) with
    | Some l => store_database (fst found) (DBInstance.set_replicas l (snd found))
    | None => raise ValueError
    end in
  if re_match arn_regex db_id then
    let arn_breakdown := PyStr.split ":"%char db_id in
    region <- lift (match py_index arn_breakdown 3 with
                    | Some r => Ok r | None => Raise IndexError end) ;;
    db_name <- lift (match py_index arn_breakdown (-1) with
                     | Some r => Ok r | None => Raise IndexError end) ;;
    if String.eqb region b.(Backend.region_name) then local db_name
    else lift (X.(foreign_remove_replica) region db_name
                 replica.(DBInstance.db_instance_identifier))
  else local db_id.

(** [delete_db_instance] *)
Definition delete_db_instance (db_instance_identifier : string)
    (db_snapshot_name : option string) : M DBInstance.t :=
  lift (_validate_db_identifier db_instance_identifier) >>
  b <- get_state ;;
  match Dict.get db_instance_identifier b.(Backend.databases) with
  | Some stored =>
      if stored.(DBInstance.deletion_protection)
      then raise InvalidParameterValue else
      (if PyStr.truthy db_snapshot_name
       then create_auto_snapshot db_instance_identifier
                                 (option_or db_snapshot_name "") >> ret tt
       else ret tt) >>
      modify (fun s =>
        Backend.set_databases
          (Dict.remove db_instance_identifier s.(Backend.databases)) s) >>
      let database := stored in
      (if database.(DBInstance.is_replica)
       then match database.(DBInstance.source_db_instance_identifier) with
            | Some source => remove_replica_of source database
            | None => raise AttributeError
            end
       else ret tt) >>
      s <- get_state ;;
      match database.(DBInstance.db_cluster_identifier) with
      | Some cluster_id =>
          match Dict.get cluster_id s.(Backend.clusters) with
          | Some cluster =>
              match list_remove db_instance_identifier
                                cluster.(DBCluster.cluster_members) with
              | Some l =>
                  modify (Backend.set_clusters
                            (Dict.set cluster_id
                               (DBCluster.set_cluster_members l cluster)
                               s.(Backend.clusters)))
              | None => raise ValueError
              end
          | None => ret tt
          end
      | None => ret tt
      end >>
      ret (DBInstance.set_status "deleting" database)
  | None => raise (DBInstanceNotFoundError db_instance_identifier)
  end.

(** ** [DBCluster] *)

Definition DBCluster_default_engine_version : Dict.t string :=
  [("aurora", "5.6.mysql_aurora.1.22.5");
   ("aurora-mysql", "5.7.mysql_aurora.2.07.2");
   ("aurora-postgresql", "12.7");
   ("mysql", "8.0.23");
   ("neptune", "1.3.2.1");
   ("postgres", "13.4")].

(** The table of [DBCluster.default_port]. *)
Definition DBCluster_default_port_table : Dict.t Z :=
  [("aurora", 3306); ("aurora-mysql", 3306); ("aurora-postgresql", 5432);
   ("mysql", 3306); ("neptune", 8182); ("postgres", 5432)]%Z.

Definition DBCluster_default_port (engine : string) : res Z :=
  lookup DBCluster_default_port_table engine.

Definition DBCluster_default_allocated_storage_table : Dict.t (Dict.t Z) :=
  [("aurora", storage_row 0 0 0);
   ("aurora-mysql", storage_row 20 100 10);
   ("aurora-postgresql", storage_row 20 100 10);
   ("mysql", storage_row 20 100 5);
   ("neptune", storage_row 0 0 0);
   ("postgres", storage_row 20 100 5)]%Z.

Definition DBCluster_default_allocated_storage (engine storage_type : string)
  : res Z :=
  res_bind (lookup DBCluster_default_allocated_storage_table engine)
           (fun row => lookup row storage_type).

(** The setter of [master_user_password]. *)
Definition check_master_user_password (val : option string) : res string :=
  match val with
  | None => Raise InvalidParameterValue
  | Some v =>
      if String.eqb v "" then Raise InvalidParameterValue
      else if String.length v <? 8 then Raise InvalidParameterValue
      else Ok v
  end.

(** [DBCluster.__init__] *)
Definition DBCluster_init (kw : DBClusterKwargs.t) : res DBCluster.t :=
  match kw.(DBClusterKwargs.engine) with
  | None => Raise InvalidParameterValue
  | Some engine =>
  if negb (PyStr.mem engine X.(list_cluster_engines))
  then Raise InvalidParameterValue else
  res_bind
    (if PyStr.truthy kw.(DBClusterKwargs.engine_version)
     then Ok (option_or kw.(DBClusterKwargs.engine_version) "")
     else lookup DBCluster_default_engine_version engine)
    (fun engine_version =>
  let engine_mode :=
    if PyStr.truthy kw.(DBClusterKwargs.engine_mode)
    then option_or kw.(DBClusterKwargs.engine_mode) "" else "provisioned" in
  let storage_type :=
    match kw.(DBClusterKwargs.storage_type) with
    | Some s => s
    | None => default_storage_type kw.(DBClusterKwargs.iops)
    end in
  res_bind
    (match kw.(DBClusterKwargs.allocated_storage) with
     | Some a => Ok a
     | None => DBCluster_default_allocated_storage engine storage_type
     end)
    (fun allocated_storage =>
  let master_username := kw.(DBClusterKwargs.master_username) in
  let global_cluster_identifier := kw.(DBClusterKwargs.global_cluster_identifier) in
  res_bind
    (if (negb (PyStr.truthy master_username)
         && PyStr.truthy global_cluster_identifier)
        || String.eqb engine "neptune"
     then Ok None
     else if negb (PyStr.truthy master_username)
     then Raise InvalidParameterValue
     else res_bind
            (check_master_user_password kw.(DBClusterKwargs.master_user_password))
            (fun v => Ok (Some v)))
    (fun master_user_password =>
  res_bind
    (match kw.(DBClusterKwargs.port) with
     | Some p => Ok p
     | None => DBCluster_default_port engine
     end)
    (fun port =>
  res_bind
    (if truthy_Z kw.(DBClusterKwargs.backtrack_window)
     then
       let backtrack := option_or kw.(DBClusterKwargs.backtrack_window) 0%Z in
       if String.eqb engine "aurora-mysql" then
         if ((0 <=? backtrack) && (backtrack <=? 259200))%Z
         then Ok backtrack else Raise InvalidParameterValue
       else Raise InvalidParameterValue
     else Ok 0%Z)
    (fun backtrack_window =>
  let iam_auth := truthy_bool kw.(DBClusterKwargs.enable_iam_database_authentication) in
  if iam_auth && negb (PyStr.startswith engine "aurora-")
  then Raise InvalidParameterCombination else
  Ok {| DBCluster.db_cluster_identifier := kw.(DBClusterKwargs.db_cluster_identifier);
        DBCluster.deletion_protection :=
          truthy_bool kw.(DBClusterKwargs.deletion_protection);
        DBCluster.engine := engine;
        DBCluster.engine_version := engine_version;
        DBCluster.engine_mode := engine_mode;
        DBCluster.iops := kw.(DBClusterKwargs.iops);
        DBCluster._status := "creating";
        DBCluster.copy_tags_to_snapshot :=
          truthy_bool kw.(DBClusterKwargs.copy_tags_to_snapshot);
        DBCluster.storage_type := storage_type;
        DBCluster.allocated_storage := allocated_storage;
        DBCluster.master_username := master_username;
        DBCluster.global_cluster_identifier := global_cluster_identifier;
        DBCluster._master_user_password := master_user_password;
        DBCluster.port := port;
        DBCluster.tags := TaggingMixin.coerce kw.(DBClusterKwargs.tags);
        DBCluster.cluster_members := [];
        DBCluster.replication_source_identifier :=
          kw.(DBClusterKwargs.replication_source_identifier);
        DBCluster.read_replica_identifiers := [];
        DBCluster.backtrack_window := backtrack_window;
        DBCluster.iam_auth := iam_auth |})))))
  end.

(** The getter of the property [status]: reading ["creating"] once turns
    the stored value into ["available"]. *)
Definition DBCluster_status (c : DBCluster.t) : string * DBCluster.t :=
  if String.eqb c.(DBCluster._status) "creating"
  then ("creating", DBCluster.set_status "available" c)
  else (c.(DBCluster._status), c).

(** ** Operations on DB clusters and their snapshots *)

Definition store_cluster (key : string) (c : DBCluster.t) : M unit :=
  modify (fun s => Backend.set_clusters (Dict.set key c s.(Backend.clusters)) s).

(** [find_cluster(cluster_arn).read_replica_identifiers.append(arn)], the
    use that [create_db_cluster] makes of [find_cluster].  The result is
    the key of the cluster changed, when it is one of this backend. *)
Definition append_read_replica (cluster_arn new_arn : string) : M (option string) :=
  b <- get_state ;;
  let arn_parts := PyStr.split ":"%char cluster_arn in
  region <- lift (match py_index arn_parts 3 with
                  | Some r => Ok r | None => Raise IndexError end) ;;
  account <- lift (match py_index arn_parts 4 with
                   | Some r => Ok r | None => Raise IndexError end) ;;
  if String.eqb account b.(Backend.account_id)
     && String.eqb region b.(Backend.region_name)
  then
    found <- lift (res_bind (describe_db_clusters (Some cluster_arn) b) (@first _)) ;;
    store_cluster (fst found)
      (DBCluster.set_read_replica_identifiers
         ((snd found).(DBCluster.read_replica_identifiers) ++ [new_arn])
         (snd found)) >>
    ret (Some (fst found))
  else
    lift (X.(foreign_find_cluster) account region cluster_arn) >>
    ret None.

(** [create_db_cluster].  Of the regional backends of the account only this
    one is part of the state; [is_writer], which the loop over them sets, is
    not modelled. *)
Definition create_db_cluster (kwargs : DBClusterKwargs.t) : M DBCluster.t :=
  let cluster_id := kwargs.(DBClusterKwargs.db_cluster_identifier) in
  cluster <- lift (DBCluster_init kwargs) ;;
  store_cluster cluster_id cluster >>
  b <- get_state ;;
  (if PyStr.truthy cluster.(DBCluster.global_cluster_identifier) then
     let gid := option_or cluster.(DBCluster.global_cluster_identifier) "" in
     match Dict.get gid b.(Backend.global_clusters) with
     | Some global_cluster =>
         modify (Backend.set_global_clusters
                   (Dict.set gid
                      (GlobalCluster.set_members
                         (global_cluster.(GlobalCluster.members) ++ [cluster_id])
                         global_cluster)
                      b.(Backend.global_clusters)))
     | None => ret tt
     end
   else ret tt) >>
  cluster1 <-
    (if PyStr.truthy cluster.(DBCluster.replication_source_identifier) then
       changed <- append_read_replica
                    (option_or cluster.(DBCluster.replication_source_identifier) "")
                    (db_cluster_arn b cluster) ;;
       match changed with
       | Some k =>
           if String.eqb k cluster_id
           then ret (DBCluster.set_read_replica_identifiers
                       (cluster.(DBCluster.read_replica_identifiers)
                        ++ [db_cluster_arn b cluster]) cluster)
           else ret cluster
       | None => ret cluster
       end
     else ret cluster) ;;
  let initial_state := cluster1 in
  store_cluster cluster_id (DBCluster.set_status "available" cluster1) >>
  ret initial_state.

(** [_create_db_cluster_snapshot] *)
Definition _create_db_cluster_snapshot (cluster : DBCluster.t)
    (db_snapshot_identifier snapshot_type : string) (tags : Tags)
  : M DBClusterSnapshot.t :=
  b <- get_state ;;
  if Dict.mem db_snapshot_identifier b.(Backend.cluster_snapshots)
  then raise (DBClusterSnapshotAlreadyExistsError db_snapshot_identifier) else
  limit <- lift snapshot_limit ;;
  if (limit <=? Z.of_nat (Dict.len b.(Backend.cluster_snapshots)))%Z
  then raise SnapshotQuotaExceededError else
  let snapshot :=
    {| DBClusterSnapshot.cluster := cluster;
       DBClusterSnapshot.snapshot_id := db_snapshot_identifier;
       DBClusterSnapshot.snapshot_type := snapshot_type;
       DBClusterSnapshot.tags := TaggingMixin.coerce (Some tags);
       DBClusterSnapshot.status := "available" |} in
  modify (fun s =>
    Backend.set_cluster_snapshots
      (Dict.set db_snapshot_identifier snapshot s.(Backend.cluster_snapshots)) s) >>
  ret snapshot.

(** [create_db_cluster_snapshot] *)
Definition create_db_cluster_snapshot (db_cluster_identifier db_snapshot_identifier
    snapshot_type : string) (tags : option Tags) : M DBClusterSnapshot.t :=
  b <- get_state ;;
  match Dict.get db_cluster_identifier b.(Backend.clusters) with
  | None => raise (DBClusterNotFoundError db_cluster_identifier)
  | Some cluster =>
      let tags0 := option_or tags [] in
      let tags1 := if cluster.(DBCluster.copy_tags_to_snapshot)
                   then tags0 ++ cluster.(DBCluster.tags) else tags0 in
      _create_db_cluster_snapshot cluster db_snapshot_identifier snapshot_type tags1
  end.

(** [create_auto_cluster_snapshot] *)
Definition create_auto_cluster_snapshot (db_cluster_identifier
    db_snapshot_identifier : string) : M DBClusterSnapshot.t :=
  create_db_cluster_snapshot db_cluster_identifier db_snapshot_identifier
                             "automated" None.

(** [remove_from_global_cluster]: every exception is swallowed. *)
Definition remove_from_global_cluster (global_cluster_identifier
    db_cluster_identifier : string) : M unit :=
  b <- get_state ;;
  match Dict.get global_cluster_identifier b.(Backend.global_clusters) with
  | None => ret tt
  | Some global_cluster =>
      match res_bind (describe_db_clusters (Some db_cluster_identifier) b) (@first _) with
      | Raise _ => ret tt
      | Ok found =>
          match list_remove (fst found) global_cluster.(GlobalCluster.members) with
          | None => ret tt
          | Some l =>
              modify (Backend.set_global_clusters
                        (Dict.set global_cluster_identifier
                           (GlobalCluster.set_members l global_cluster)
                           b.(Backend.global_clusters)))
          end
      end
  end.

(** [delete_db_cluster] *)
Definition delete_db_cluster (cluster_identifier : string)
    (snapshot_name : option string) : M DBCluster.t :=
  b <- get_state ;;
  match Dict.get cluster_identifier b.(Backend.clusters) with
  | Some cluster =>
      if cluster.(DBCluster.deletion_protection)
      then raise InvalidParameterValue else
      match cluster.(DBCluster.cluster_members) with
      | _ :: _ => raise DBClusterToBeDeletedHasActiveMembers
      | [] =>
          let global_id := if PyStr.truthy cluster.(DBCluster.global_cluster_identifier)
                           then option_or cluster.(DBCluster.global_cluster_identifier) ""
                           else "" in
          (if Dict.mem global_id b.(Backend.global_clusters)
           then remove_from_global_cluster global_id cluster_identifier
           else ret tt) >>
          (if PyStr.truthy snapshot_name
           then create_auto_cluster_snapshot cluster_identifier
                                             (option_or snapshot_name "") >> ret tt
           else ret tt) >>
          modify (fun s =>
            Backend.set_clusters (Dict.remove cluster_identifier s.(Backend.clusters)) s) >>
          ret cluster
      end
  | None => raise (DBClusterNotFoundError cluster_identifier)
  end.

(** [start_db_cluster] *)
Definition start_db_cluster (cluster_identifier : string) : M DBCluster.t :=
  b <- get_state ;;
  match Dict.get cluster_identifier b.(Backend.clusters) with
  | None => raise (DBClusterNotFoundError cluster_identifier)
  | Some cluster0 =>
      let (status, cluster) := DBCluster_status cluster0 in
      store_cluster cluster_identifier cluster >>
      if negb (String.eqb status "stopped")
      then raise InvalidDBClusterStateFault else
      let temp_state := DBCluster.set_status "started" cluster in
      store_cluster cluster_identifier (DBCluster.set_status "available" cluster) >>
      ret temp_state
  end.

(** [stop_db_cluster] *)
Definition stop_db_cluster (cluster_identifier : string) : M DBCluster.t :=
  b <- get_state ;;
  match Dict.get cluster_identifier b.(Backend.clusters) with
  | None => raise (DBClusterNotFoundError cluster_identifier)
  | Some cluster0 =>
      let (status, cluster) := DBCluster_status cluster0 in
      store_cluster cluster_identifier cluster >>
      if negb (PyStr.mem status ["available"])
      then raise InvalidDBClusterStateFault else
      let previous_state := cluster in
      store_cluster cluster_identifier (DBCluster.set_status "stopped" cluster) >>
      ret previous_state
  end.

(** ** Tagging by ARN *)

(** The classes that are keys of [self.resource_map]. *)
Inductive resource_class : Type :=
| ClsDBCluster
| ClsDBClusterParameterGroup
| ClsDBClusterSnapshot
| ClsDBInstance
| ClsDBParameterGroup
| ClsDBProxy
| ClsDBSecurityGroup
| ClsDBSnapshot
| ClsDBSubnetGroup
| ClsEventSubscription
| ClsExportTask
| ClsGlobalCluster
| ClsOptionGroup.

(** [self.resource_map], in the order of the dictionary literal. *)
Definition resource_map : list resource_class :=
  [ClsDBCluster; ClsDBClusterParameterGroup; ClsDBClusterSnapshot;
   ClsDBInstance; ClsDBParameterGroup; ClsDBProxy; ClsDBSecurityGroup;
   ClsDBSnapshot; ClsDBSubnetGroup; ClsEventSubscription; ClsExportTask;
   ClsGlobalCluster; ClsOptionGroup].

(** [getattr(resource_class, "resource_type", "")] *)
Definition class_resource_type (k : resource_class) : string :=
  match k with
  | ClsDBCluster => "cluster"
  | ClsDBClusterParameterGroup => "cluster-pg"
  | ClsDBClusterSnapshot => "cluster-snapshot"
  | ClsDBInstance => "db"
  | ClsDBParameterGroup => "pg"
  | ClsDBProxy => "db-proxy"
  | ClsDBSecurityGroup => "secgrp"
  | ClsDBSnapshot => "snapshot"
  | ClsDBSubnetGroup => "subgrp"
  | ClsEventSubscription => "es"
  | ClsExportTask => ""
  | ClsGlobalCluster => "global-cluster"
  | ClsOptionGroup => "og"
  end.

(** [self.resource_map[resource_class].get(key)] *)
Definition resources_get (k : resource_class) (key : string) (b : Backend.t)
  : option RDSBaseModel.resource :=
  match k with
  | ClsDBCluster =>
      option_map RDSBaseModel.IsDBCluster (Dict.get key b.(Backend.clusters))
  | ClsDBClusterParameterGroup =>
      option_map RDSBaseModel.IsDBClusterParameterGroup
                 (Dict.get key b.(Backend.db_cluster_parameter_groups))
  | ClsDBClusterSnapshot =>
      option_map RDSBaseModel.IsDBClusterSnapshot
                 (Dict.get key b.(Backend.cluster_snapshots))
  | ClsDBInstance =>
      option_map RDSBaseModel.IsDBInstance (Dict.get key b.(Backend.databases))
  | ClsDBParameterGroup =>
      option_map RDSBaseModel.IsDBParameterGroup
                 (Dict.get key b.(Backend.db_parameter_groups))
  | ClsDBProxy =>
      option_map RDSBaseModel.IsDBProxy (Dict.get key b.(Backend.db_proxies))
  | ClsDBSecurityGroup =>
      option_map RDSBaseModel.IsDBSecurityGroup
                 (Dict.get key b.(Backend.security_groups))
  | ClsDBSnapshot =>
      option_map RDSBaseModel.IsDBSnapshot
                 (Dict.get key b.(Backend.database_snapshots))
  | ClsDBSubnetGroup =>
      option_map RDSBaseModel.IsDBSubnetGroup
                 (Dict.get key b.(Backend.subnet_groups))
  | ClsEventSubscription =>
      option_map RDSBaseModel.IsEventSubscription
                 (Dict.get key b.(Backend.event_subscriptions))
  | ClsExportTask =>
      option_map RDSBaseModel.IsExportTask (Dict.get key b.(Backend.export_tasks))
  | ClsGlobalCluster =>
      option_map RDSBaseModel.IsGlobalCluster
                 (Dict.get key b.(Backend.global_clusters))
  | ClsOptionGroup =>
      option_map RDSBaseModel.IsOptionGroup (Dict.get key b.(Backend.option_groups))
  end.

(** Assignment to the [tags] of the object stored under [key]. *)
Definition assign_at (V : Type) (key : string) (v : Tags)
    (set : Tags -> V -> V) (d : Dict.t V) : Dict.t V :=
  match Dict.get key d with
  | Some x => Dict.set key (set v x) d
  | None => d
  end.

Definition assign_tags (k : resource_class) (key : string) (v : Tags)
    (b : Backend.t) : Backend.t :=
  let at_key (V : Type) := @assign_at V key v in
  match k with
  | ClsDBCluster =>
      Backend.set_clusters (at_key _ DBCluster.set_tags b.(Backend.clusters)) b
  | ClsDBClusterParameterGroup =>
      Backend.set_db_cluster_parameter_groups
        (at_key _ DBClusterParameterGroup.set_tags
                b.(Backend.db_cluster_parameter_groups)) b
  | ClsDBClusterSnapshot =>
      Backend.set_cluster_snapshots
        (at_key _ DBClusterSnapshot.set_tags b.(Backend.cluster_snapshots)) b
  | ClsDBInstance =>
      Backend.set_databases (at_key _ DBInstance.set_tags b.(Backend.databases)) b
  | ClsDBParameterGroup =>
      Backend.set_db_parameter_groups
        (at_key _ DBParameterGroup.set_tags b.(Backend.db_parameter_groups)) b
  | ClsDBProxy =>
      Backend.set_db_proxies (at_key _ DBProxy.set_tags b.(Backend.db_proxies)) b
  | ClsDBSecurityGroup =>
      Backend.set_security_groups
        (at_key _ DBSecurityGroup.set_tags b.(Backend.security_groups)) b
  | ClsDBSnapshot =>
      Backend.set_database_snapshots
        (at_key _ DBSnapshot.set_tags b.(Backend.database_snapshots)) b
  | ClsDBSubnetGroup =>
      Backend.set_subnet_groups
        (at_key _ DBSubnetGroup.set_tags b.(Backend.subnet_groups)) b
  | ClsEventSubscription =>
      Backend.set_event_subscriptions
        (at_key _ EventSubscription.set_tags b.(Backend.event_subscriptions)) b
  | ClsExportTask =>
      Backend.set_export_tasks (at_key _ ExportTask.set_tags b.(Backend.export_tasks)) b
  | ClsGlobalCluster =>
      Backend.set_global_clusters
        (at_key _ GlobalCluster.set_tags b.(Backend.global_clusters)) b
  | ClsOptionGroup =>
      Backend.set_option_groups (at_key _ OptionGroup.set_tags b.(Backend.option_groups)) b
  end.

(** [_find_resource]: the object found, as its class and its key, or
    [None]. *)
Definition _find_resource (resource_type resource_name : string) (b : Backend.t)
  : option (resource_class * string) :=
  match find (fun k => String.eqb resource_type (class_resource_type k)
                       && is_some (resources_get k resource_name b))
             resource_map with
  | Some k => Some (k, resource_name)
  | None =>
      if String.eqb resource_type "db-proxy" then
        match find (fun kv =>
                      PyStr.endswith
                        (RDSBaseModel.arn_format b "db-proxy" (snd kv).(DBProxy.unique_id))
                        resource_name)
                   b.(Backend.db_proxies) with
        | Some kv => Some (ClsDBProxy, fst kv)
        | None => None
        end
      else None
  end.

(** [resource.get_tags()] of the object found. *)
Definition tags_of (h : resource_class * string) (b : Backend.t) : Tags :=
  match resources_get (fst h) (snd h) b with
  | Some r => RDSBaseModel.get_tags r
  | None => []
  end.

(** The last two parts of the ARN: its resource type and name. *)
Definition arn_type_and_name (arn : string) : res (string * string) :=
  let arn_breakdown := PyStr.split ":"%char arn in
  let n := Z.of_nat (List.length arn_breakdown) in
  match py_index arn_breakdown (n - 2), py_index arn_breakdown (n - 1) with
  | Some resource_type, Some resource_name => Ok (resource_type, resource_name)
  | _, _ => Raise IndexError
  end.

(** [arn_breakdown[-2]] and [arn_breakdown[-1]], as [add_tags_to_resource]
    writes them. *)
Definition arn_type_and_name_neg (arn : string) : res (string * string) :=
  let arn_breakdown := PyStr.split ":"%char arn in
  match py_index arn_breakdown (-2), py_index arn_breakdown (-1) with
  | Some resource_type, Some resource_name => Ok (resource_type, resource_name)
  | _, _ => Raise IndexError
  end.

(** [list_tags_for_resource] *)
Definition list_tags_for_resource (arn : string) : M Tags :=
  if re_match arn_regex arn then
    tn <- lift (arn_type_and_name arn) ;;
    b <- get_state ;;
    match _find_resource (fst tn) (snd tn) b with
    | Some h => ret (tags_of h b)
    | None => ret []
    end
  else raise (RDSClientError "InvalidParameterValue").

(** [remove_tags_from_resource] *)
Definition remove_tags_from_resource (arn : string) (tag_keys : list string)
  : M unit :=
  if re_match arn_regex arn then
    tn <- lift (arn_type_and_name arn) ;;
    b <- get_state ;;
    match _find_resource (fst tn) (snd tn) b with
    | Some h =>
        modify (assign_tags (fst h) (snd h)
                  (TaggingMixin.remove_tags (tags_of h b) tag_keys))
    | None => ret tt
    end
  else raise (RDSClientError "InvalidParameterValue").

(** [add_tags_to_resource] *)
Definition add_tags_to_resource (arn : string) (tags : Tags) : M Tags :=
  if re_match arn_regex arn then
    tn <- lift (arn_type_and_name_neg arn) ;;
    b <- get_state ;;
    match _find_resource (fst tn) (snd tn) b with
    | Some h =>
        let v := TaggingMixin.add_tags (tags_of h b) tags in
        modify (assign_tags (fst h) (snd h) v) >>
        ret v
    | None => ret []
    end
  else raise (RDSClientError "InvalidParameterValue").

End WithExternals.

End RDSBackend.

(* ------------------------------------------------------------------ *)
(** * Concrete parameters and states

    Values used where a statement is evaluated on a concrete input. *)

Module Sample.

Import RDSBackend.

Definition X : externals :=
  {| ARN_PARTITION_REGEX :=
       Re.Cat Re.Bol
         (Re.Cat (Re.lit "arn:")
                 (Re.alts [Re.lit "aws-cn"; Re.lit "aws-us-gov"] (Re.lit "aws")));
     list_cluster_engines :=
       ["aurora-mysql"; "aurora-postgresql"; "mysql"; "neptune"; "postgres"];
     serverless_engines := ["aurora-mysql"; "aurora-postgresql"];
     valid_db_instance_engine :=
       ["aurora-mysql"; "aurora-postgresql"; "mariadb"; "mysql"; "neptune";
        "oracle-ee"; "oracle-se2"; "postgres"; "sqlserver-ee"; "sqlserver-ex";
        "sqlserver-se"; "sqlserver-web"];
     valid_preferred_maintenance_window := fun _ _ => None;
     default_security_group_id := "sg-default";
     environ := fun _ => None;
     int_max_str_digits := 4300;
     foreign_find_cluster := fun _ _ arn => Raise (DBClusterNotFoundError arn);
     foreign_remove_replica := fun _ _ _ => Ok tt |}.

(** The same, with [MOTO_RDS_SNAPSHOT_LIMIT=0] in the environment. *)
Definition X_limit0 : externals :=
  {| ARN_PARTITION_REGEX := X.(ARN_PARTITION_REGEX);
     list_cluster_engines := X.(list_cluster_engines);
     serverless_engines := X.(serverless_engines);
     valid_db_instance_engine := X.(valid_db_instance_engine);
     valid_preferred_maintenance_window := X.(valid_preferred_maintenance_window);
     default_security_group_id := X.(default_security_group_id);
     environ := fun name =>
       if String.eqb name "MOTO_RDS_SNAPSHOT_LIMIT" then Some "0" else None;
     int_max_str_digits := X.(int_max_str_digits);
     foreign_find_cluster := X.(foreign_find_cluster);
     foreign_remove_replica := X.(foreign_remove_replica) |}.

(** A backend as [RDSBackend.__init__] leaves it. *)
Definition empty : Backend.t :=
  {| Backend.region_name := "us-east-1";
     Backend.account_id := "123456789012";
     Backend.partition := "aws";
     Backend.clusters := [];
     Backend.global_clusters := [];
     Backend.databases := [];
     Backend.database_snapshots := [];
     Backend.cluster_snapshots := [];
     Backend.export_tasks := [];
     Backend.event_subscriptions := [];
     Backend.db_parameter_groups := [];
     Backend.db_cluster_parameter_groups := [];
     Backend.option_groups := [];
     Backend.security_groups := [];
     Backend.subnet_groups := [];
     Backend.db_proxies := [] |}.

(** [{"db_instance_identifier": id, "engine": engine,
      "db_cluster_identifier": cluster}] *)
Definition instance_kwargs (id engine : string) (cluster : option string)
  : DBInstanceKwargs.t :=
  {| DBInstanceKwargs.db_instance_identifier := id;
     DBInstanceKwargs.engine := Some engine;
     DBInstanceKwargs.port := None;
     DBInstanceKwargs.allocated_storage := None;
     DBInstanceKwargs.max_allocated_storage := None;
     DBInstanceKwargs.db_subnet_group_name := None;
     DBInstanceKwargs.db_cluster_identifier := cluster;
     DBInstanceKwargs.db_parameter_group_name := None;
     DBInstanceKwargs.copy_tags_to_snapshot := None;
     DBInstanceKwargs.iops := None;
     DBInstanceKwargs.multi_az := None;
     DBInstanceKwargs.preferred_backup_window := None;
     DBInstanceKwargs.preferred_maintenance_window := None;
     DBInstanceKwargs.storage_type := None;
     DBInstanceKwargs.tags := None;
     DBInstanceKwargs.vpc_security_group_ids := None;
     DBInstanceKwargs.deletion_protection := None;
     DBInstanceKwargs.option_group_name := None;
     DBInstanceKwargs.master_user_secret_status := None |}.

(** [{"db_cluster_identifier": id, "engine": engine, "master_username":
      "admin", "master_user_password": "password1",
      "deletion_protection": protection}] *)
Definition cluster_kwargs (id engine : string) (protection : option bool)
  : DBClusterKwargs.t :=
  {| DBClusterKwargs.db_cluster_identifier := id;
     DBClusterKwargs.deletion_protection := protection;
     DBClusterKwargs.engine := Some engine;
     DBClusterKwargs.engine_version := None;
     DBClusterKwargs.engine_mode := None;
     DBClusterKwargs.iops := None;
     DBClusterKwargs.copy_tags_to_snapshot := None;
     DBClusterKwargs.storage_type := None;
     DBClusterKwargs.allocated_storage := None;
     DBClusterKwargs.master_username := Some "admin";
     DBClusterKwargs.global_cluster_identifier := None;
     DBClusterKwargs.master_user_password := Some "password1";
     DBClusterKwargs.port := None;
     DBClusterKwargs.tags := None;
     DBClusterKwargs.replication_source_identifier := None;
     DBClusterKwargs.backtrack_window := None;
     DBClusterKwargs.enable_iam_database_authentication := None |}.

(** [{"new_db_instance_identifier": new_id}] *)
Definition rename_kwargs (new_id : string) : ModifyKwargs.t :=
  {| ModifyKwargs.new_db_instance_identifier := Some new_id;
     ModifyKwargs.db_instance_identifier := None;
     ModifyKwargs.db_cluster_identifier := None;
     ModifyKwargs.multi_az := None;
     ModifyKwargs.copy_tags_to_snapshot := None;
     ModifyKwargs.deletion_protection := None;
     ModifyKwargs.preferred_backup_window := None;
     ModifyKwargs.preferred_maintenance_window := None;
     ModifyKwargs.rotate_master_user_password := None;
     ModifyKwargs.apply_immediately := None;
     ModifyKwargs.master_user_secret_status := None;
     ModifyKwargs.tags := None |}.

(** The state a method leaves behind. *)
Definition after (A : Type) (m : M A) (b : Backend.t) : Backend.t := snd (m b).

(** One MySQL cluster ["c1"] holding the instance ["db1"]. *)
Definition cluster_with_member (protection : option bool) : Backend.t :=
  after (create_db_instance X (instance_kwargs "db1" "mysql" (Some "c1")))
    (after (create_db_cluster X (cluster_kwargs "c1" "mysql" protection)) empty).

(** The same after ["db1"] has been renamed to [new_id]. *)
Definition renamed (new_id : string) : Backend.t :=
  after (modify_db_instance X "db1" (rename_kwargs new_id))
        (cluster_with_member None).

End Sample.

(* ------------------------------------------------------------------ *)
(** * The properties in the words of the specification *)

Module Stated.

Import RDSBackend.

(** A list of characters has two hyphens in a row. *)
Fixpoint has_double_hyphen (l : list ascii) : bool :=
  match l with
  | [] => false
  | c :: t =>
      (is_hyphen c && match t with d :: _ => is_hyphen d | [] => false end)
      || has_double_hyphen t
  end.

(** The last character of a list satisfies [p]. *)
Definition ends_with (p : ascii -> bool) (l : list ascii) : bool :=
  match rev l with
  | c :: _ => p c
  | [] => false
  end.

(** The constraint on DB instance identifiers: 1 to 63 letters, digits or
    hyphens, the first a letter, the last not a hyphen, no two hyphens in a
    row. *)
Definition valid_db_identifier (s : string) : bool :=
  let l := PyStr.chars s in
  (1 <=? List.length l) && (List.length l <=? 63)
  && forallb is_idchar l
  && match l with c :: _ => is_letter c | [] => false end
  && negb (ends_with is_hyphen l)
  && negb (has_double_hyphen l).

Definition ends_with_newline (s : string) : bool :=
  ends_with (fun c => Ascii.eqb c Re.newline) (PyStr.chars s).

(** Every identifier in the member list of a cluster is a key of
    [databases]. *)
Definition members_exist (b : Backend.t) : bool :=
  forallb (fun kc =>
             forallb (fun m => Dict.mem m b.(Backend.databases))
                     (snd kc).(DBCluster.cluster_members))
          b.(Backend.clusters).

(** The dictionary [databases] has no key twice and holds every instance
    under its own identifier. *)
Definition databases_keyed (b : Backend.t) : Prop :=
  Dict.wf b.(Backend.databases)
  /\ forall k d, In (k, d) b.(Backend.databases) ->
                 d.(DBInstance.db_instance_identifier) = k.

(** The resources stored in the backend, class by class. *)
Definition stored_resources (b : Backend.t) : list RDSBaseModel.resource :=
  map RDSBaseModel.IsDBCluster (Dict.values b.(Backend.clusters))
  ++ map RDSBaseModel.IsDBClusterParameterGroup
         (Dict.values b.(Backend.db_cluster_parameter_groups))
  ++ map RDSBaseModel.IsDBClusterSnapshot (Dict.values b.(Backend.cluster_snapshots))
  ++ map RDSBaseModel.IsDBInstance (Dict.values b.(Backend.databases))
  ++ map RDSBaseModel.IsDBParameterGroup (Dict.values b.(Backend.db_parameter_groups))
  ++ map RDSBaseModel.IsDBProxy (Dict.values b.(Backend.db_proxies))
  ++ map RDSBaseModel.IsDBSecurityGroup (Dict.values b.(Backend.security_groups))
  ++ map RDSBaseModel.IsDBSnapshot (Dict.values b.(Backend.database_snapshots))
  ++ map RDSBaseModel.IsDBSubnetGroup (Dict.values b.(Backend.subnet_groups))
  ++ map RDSBaseModel.IsEventSubscription
         (Dict.values b.(Backend.event_subscriptions))
  ++ map RDSBaseModel.IsExportTask (Dict.values b.(Backend.export_tasks))
  ++ map RDSBaseModel.IsGlobalCluster (Dict.values b.(Backend.global_clusters))
  ++ map RDSBaseModel.IsOptionGroup (Dict.values b.(Backend.option_groups)).

(** An ARN names a resource that exists: it is the [arn] of a resource
    stored in the backend. *)
Definition names_stored_resource (b : Backend.t) (arn : string) : bool :=
  existsb (fun r => match RDSBaseModel.arn b r with
                    | Ok a => String.eqb a arn
                    | Raise _ => false
                    end)
          (stored_resources b).

(** The ARN of a stored proxy ends with [rname]. *)
Definition proxy_arn_ends_with (b : Backend.t) (rname : string)
    (kv : string * DBProxy.t) : bool :=
  match RDSBaseModel.arn b (RDSBaseModel.IsDBProxy (snd kv)) with
  | Ok a => PyStr.endswith a rname
  | Raise _ => false
  end.

(** The stored resources that a resource type and a name stand for when
    partition, region and account are left aside: the resources of the
    class with that resource type stored under the name and, for the type
    ["db-proxy"], the proxies whose ARN ends with the name. *)
Definition resources_named (rtype rname : string) (b : Backend.t)
  : list RDSBaseModel.resource :=
  flat_map (fun k =>
              if String.eqb (class_resource_type k) rtype
              then match resources_get k rname b with
                   | Some r => [r]
                   | None => []
                   end
              else [])
           resource_map
  ++ (if String.eqb rtype "db-proxy"
      then map (fun kv => RDSBaseModel.IsDBProxy (snd kv))
               (filter (proxy_arn_ends_with b rname) b.(Backend.db_proxies))
      else []).

(** The member lists are in step with the instances: no cluster key
    twice, no member twice in a list, and every member of the cluster stored
    under [k] is an instance that names [k] as its cluster. *)
Definition cluster_members_wf (b : Backend.t) : Prop :=
  Dict.wf b.(Backend.clusters)
  /\ forall k c, In (k, c) b.(Backend.clusters) ->
       NoDup c.(DBCluster.cluster_members)
       /\ forall m, In m c.(DBCluster.cluster_members) ->
            exists d, Dict.get m b.(Backend.databases) = Some d
                      /\ d.(DBInstance.db_cluster_identifier) = Some k.

End Stated.

(* ------------------------------------------------------------------ *)
(** * The identifier pattern read directly

    What the matcher computes on [db_identifier_regex], written as
    recursive functions on the text; [re_match_identifier] below relates
    the two. *)

Module Pattern.

Import RDSBackend.

(** [[a-zA-Z0-9]$]: one letter or digit, then the end of the text. *)
Definition tail_ok (l : list ascii) : bool :=
  match l with
  | [] => false
  | x :: l' => is_alnum x && Re.at_eol l'
  end.

(** [[a-zA-Z0-9-]{0,hi}[a-zA-Z0-9]$] *)
Fixpoint body (hi : nat) (l : list ascii) : bool :=
  match hi with
  | O => tail_ok l
  | S h =>
      match l with
      | x :: l' => is_idchar x && body h l'
      | [] => false
      end || tail_ok l
  end.

Definition hyphen_next (l : list ascii) : bool :=
  match l with d :: _ => is_hyphen d | [] => false end.

(** [.*--]: two hyphens in a row before the first newline. *)
Fixpoint line_has_dd (l : list ascii) : bool :=
  match l with
  | [] => false
  | c :: t =>
      (negb (Ascii.eqb c Re.newline) && line_has_dd t)
      || (is_hyphen c && hyphen_next t)
  end.

(** The continuations of the matcher at [[a-zA-Z0-9]$] and at [--]. *)
Definition k_tail : Re.cfg -> bool :=
  fun c2 => Re.matchk (Re.Cls is_alnum) c2
              (fun c3 => Re.matchk Re.Eol c3 (fun _ => true)).

Definition k_dd : Re.cfg -> bool :=
  fun c' => Re.matchk (Re.lit "--") c' (fun _ => true).

End Pattern.

(* ------------------------------------------------------------------ *)
(** * Further methods of [class RDSBackend]

    Merging of tag lists, snapshot identifiers and snapshot ARNs, deletion
    and copying of snapshots, read replicas, modification of clusters, and
    option and subnet groups. *)

(** Assignments to further attributes of a [DBCluster]. *)
Module DBClusterAttr.

Import DBCluster.

Definition set_db_cluster_identifier (v : string) (x : t) : t :=
  mk v (x.(deletion_protection)) (x.(engine)) (x.(engine_version))
    (x.(engine_mode)) (x.(iops)) (x.(_status)) (x.(copy_tags_to_snapshot))
    (x.(storage_type)) (x.(allocated_storage)) (x.(master_username))
    (x.(global_cluster_identifier)) (x.(_master_user_password)) (x.(port))
    (x.(tags)) (x.(cluster_members)) (x.(replication_source_identifier))
    (x.(read_replica_identifiers)) (x.(backtrack_window)) (x.(iam_auth)).

Definition set_deletion_protection (v : bool) (x : t) : t :=
  mk (x.(db_cluster_identifier)) v (x.(engine)) (x.(engine_version))
    (x.(engine_mode)) (x.(iops)) (x.(_status)) (x.(copy_tags_to_snapshot))
    (x.(storage_type)) (x.(allocated_storage)) (x.(master_username))
    (x.(global_cluster_identifier)) (x.(_master_user_password)) (x.(port))
    (x.(tags)) (x.(cluster_members)) (x.(replication_source_identifier))
    (x.(read_replica_identifiers)) (x.(backtrack_window)) (x.(iam_auth)).


Definition set_copy_tags_to_snapshot (v : bool) (x : t) : t :=
  mk (x.(db_cluster_identifier)) (x.(deletion_protection)) (x.(engine))
    (x.(engine_version)) (x.(engine_mode)) (x.(iops)) (x.(_status)) v
    (x.(storage_type)) (x.(allocated_storage)) (x.(master_username))
    (x.(global_cluster_identifier)) (x.(_master_user_password)) (x.(port))
    (x.(tags)) (x.(cluster_members)) (x.(replication_source_identifier))
    (x.(read_replica_identifiers)) (x.(backtrack_window)) (x.(iam_auth)).


End DBClusterAttr.

(** Assignments to further attributes of a [DBInstance]. *)
Module DBInstanceAttr.

Import DBInstance.



End DBInstanceAttr.

(** The [kwargs] of [modify_db_cluster]. *)
Module ModifyClusterKwargs.

Record t : Type := mk {
  db_cluster_identifier : string;
  new_db_cluster_identifier : option string;
  deletion_protection : option bool;
  engine_version : option string;
  port : option Z;
  copy_tags_to_snapshot : option bool;
  rotate_master_user_password : option bool;
  apply_immediately : option bool
}.

End ModifyClusterKwargs.

(** The [db_kwargs] of [create_db_instance_read_replica]. *)
Module ReplicaKwargs.

Record t : Type := mk {
  db_instance_identifier : string;
  source_db_instance_identifier : string;
  multi_az : option bool;
  copy_tags_to_snapshot : option bool;
  deletion_protection : option bool;
  tags : option Tags
}.

End ReplicaKwargs.

(** The [option_group_kwargs] of [create_option_group], i.e. the parameters
    of [OptionGroup.__init__]. *)
Module OptionGroupKwargs.

Record t : Type := mk {
  option_group_name : string;
  engine_name : string;
  major_engine_version : string;
  option_group_description : option string
}.

End OptionGroupKwargs.

(** Exception classes of [moto/rds/exceptions.py] that only the methods of
    this part raise. *)
Inductive exn_more : Type :=
| DBClusterSnapshotNotFoundError (snapshot_identifier : string)
| DBSnapshotNotFoundError (snapshot_identifier : string)
| InvalidDBSnapshotIdentifier (snapshot_identifier parameter_name : string).

(** The outcome of a method that can raise one of them. *)
Inductive outcome (A : Type) : Type :=
| Returned (a : A)
| Raised (e : exn)
| RaisedMore (e : exn_more).

Arguments Returned {A} a.
Arguments Raised {A} e.
Arguments RaisedMore {A} e.

Definition outcome_of (A : Type) (r : res A) : outcome A :=
  match r with
  | Ok a => Returned a
  | Raise e => Raised e
  end.

Module RDSMethods.

Import Re RDSBackend.

(** ** Tags *)

(** [{d["Key"]: d["Value"] for d in tags}]: a key that comes again keeps
    its place and takes the later value. *)
Definition tags_dict (tags : Tags) : Dict.t string :=
  fold_left (fun d tag => Dict.set (TaggingMixin.Key tag) (TaggingMixin.Value tag) d)
            tags [].

(** [d.update(other)] *)
Definition dict_update (V : Type) (d other : Dict.t V) : Dict.t V :=
  fold_left (fun acc kv => Dict.set (fst kv) (snd kv) acc) other d.

(** [_merge_tags] *)
Definition _merge_tags (old_tags new_tags : Tags) : Tags :=
  let tags_dict0 := dict_update [] (tags_dict old_tags) in
  let tags_dict1 := dict_update tags_dict0 (tags_dict new_tags) in
  map (fun kv => (fst kv, snd kv)) tags_dict1.

(** ** Snapshot identifiers and snapshot ARNs *)

(** ["^(?!.*--)([a-zA-Z]?[a-zA-Z0-9-]{0,253}[a-zA-Z0-9])$"] *)
Definition db_snapshot_identifier_regex : regex :=
  Cat Bol
   (Cat (NegLook (Cat (Star dot) (lit "--")))
    (Cat (Cat (Opt (Cls is_letter))
          (Cat (Rep (Cls is_idchar) 0 253) (Cls is_alnum)))
         Eol)).

(** [validate_db_snapshot_identifier] *)
Definition validate_db_snapshot_identifier (db_snapshot_identifier
    parameter_name : string) : outcome unit :=
  if re_match db_snapshot_identifier_regex db_snapshot_identifier then
    match PyStr.chars db_snapshot_identifier with
    | [] => Raised IndexError
    | c :: _ =>
        if PyStr.isalpha c then Returned tt
        else RaisedMore (InvalidDBSnapshotIdentifier db_snapshot_identifier
                                                     parameter_name)
    end
  else RaisedMore (InvalidDBSnapshotIdentifier db_snapshot_identifier
                                               parameter_name).

(** [extract_snapshot_name_from_arn]: unpacking the slice [[3:7]] needs
    exactly four parts. *)
Definition extract_snapshot_name_from_arn (snapshot_arn : string) (b : Backend.t)
  : res string :=
  let arn_breakdown := PyStr.split ":"%char snapshot_arn in
  match firstn 4 (skipn 3 arn_breakdown) with
  | [region_name; account_id; resource_type; snapshot_name] =>
      if negb (String.eqb resource_type "snapshot")
      then Raise InvalidParameterValue
      else if negb (String.eqb region_name b.(Backend.region_name))
              || negb (String.eqb account_id b.(Backend.account_id))
      then Raise NotImplementedError
      else Ok snapshot_name
  | _ => Raise ValueError
  end.

(** ** Deleting and copying snapshots *)

(** [delete_db_snapshot] *)
Definition delete_db_snapshot (db_snapshot_identifier : string) (b : Backend.t)
  : outcome DBSnapshot.t * Backend.t :=
  match Dict.get db_snapshot_identifier b.(Backend.database_snapshots) with
  | None => (RaisedMore (DBSnapshotNotFoundError db_snapshot_identifier), b)
  | Some snapshot =>
      (Returned snapshot,
       Backend.set_database_snapshots
         (Dict.remove db_snapshot_identifier b.(Backend.database_snapshots)) b)
  end.

(** [delete_db_cluster_snapshot] *)
Definition delete_db_cluster_snapshot (db_snapshot_identifier : string)
    (b : Backend.t) : outcome DBClusterSnapshot.t * Backend.t :=
  match Dict.get db_snapshot_identifier b.(Backend.cluster_snapshots) with
  | None => (RaisedMore (DBClusterSnapshotNotFoundError db_snapshot_identifier), b)
  | Some snapshot =>
      (Returned snapshot,
       Backend.set_cluster_snapshots
         (Dict.remove db_snapshot_identifier b.(Backend.cluster_snapshots)) b)
  end.

(** ** Option groups *)

Definition valid_option_group_engines : Dict.t (list string) :=
  [("mariadb", ["10.0"; "10.1"; "10.2"; "10.3"; "10.4"; "10.5"; "10.6"]);
   ("mysql", ["5.5"; "5.6"; "5.7"; "8.0"]);
   ("oracle-ee", ["19"]);
   ("oracle-ee-cdb", ["19"; "21"]);
   ("oracle-se", []);
   ("oracle-se1", []);
   ("oracle-se2", ["19"]);
   ("oracle-se2-cdb", ["19"; "21"]);
   ("postgres", ["10"; "11"; "12"; "13"]);
   ("sqlserver-ee", ["11.00"; "12.00"; "13.00"; "14.00"; "15.00"]);
   ("sqlserver-ex", ["11.00"; "12.00"; "13.00"; "14.00"; "15.00"]);
   ("sqlserver-se", ["11.00"; "12.00"; "13.00"; "14.00"; "15.00"]);
   ("sqlserver-web", ["11.00"; "12.00"; "13.00"; "14.00"; "15.00"])].

(** [create_option_group] *)
Definition create_option_group (option_group_kwargs : OptionGroupKwargs.t)
  : M OptionGroup.t :=
  let option_group_id := option_group_kwargs.(OptionGroupKwargs.option_group_name) in
  let engine_name := option_group_kwargs.(OptionGroupKwargs.engine_name) in
  b <- get_state ;;
  if Dict.mem option_group_id b.(Backend.option_groups)
  then raise (RDSClientError "OptionGroupAlreadyExistsFault") else
  if negb (PyStr.truthy option_group_kwargs.(OptionGroupKwargs.option_group_description))
  then raise (RDSClientError "InvalidParameterValue") else
  if negb (Dict.mem engine_name valid_option_group_engines)
  then raise (RDSClientError "InvalidParameterValue") else
  versions <- lift (lookup valid_option_group_engines engine_name) ;;
  if negb (PyStr.mem option_group_kwargs.(OptionGroupKwargs.major_engine_version)
                     versions)
  then raise (RDSClientError "InvalidParameterCombination") else
  let option_group :=
    {| OptionGroup._name := option_group_id;
       OptionGroup.engine_name := engine_name;
       OptionGroup.major_engine_version :=
         option_group_kwargs.(OptionGroupKwargs.major_engine_version);
       OptionGroup.tags := TaggingMixin.coerce (Some []) |} in
  modify (fun s =>
    Backend.set_option_groups
      (Dict.set option_group_id option_group s.(Backend.option_groups)) s) >>
  ret option_group.

(** [delete_option_group] *)
Definition delete_option_group (option_group_name : string) : M OptionGroup.t :=
  b <- get_state ;;
  match Dict.get option_group_name b.(Backend.option_groups) with
  | Some option_group =>
      modify (Backend.set_option_groups
                (Dict.remove option_group_name b.(Backend.option_groups))) >>
      ret option_group
  | None => raise (OptionGroupNotFoundFaultError option_group_name)
  end.

(** ** Subnet groups *)

(** [create_subnet_group]; a subnet is kept by its identifier, and
    [DBSubnetGroup.__init__] reads [subnets[0]]. *)
Definition create_subnet_group (subnet_name description : string)
    (subnets : list string) (tags : option Tags) : M DBSubnetGroup.t :=
  lift (first subnets) >>
  let subnet_group :=
    {| DBSubnetGroup.subnet_name := subnet_name;
       DBSubnetGroup.tags := TaggingMixin.coerce tags |} in
  modify (fun s =>
    Backend.set_subnet_groups
      (Dict.set subnet_name subnet_group s.(Backend.subnet_groups)) s) >>
  ret subnet_group.

(** [describe_db_subnet_groups] *)
Definition describe_db_subnet_groups (subnet_group_name : string) (b : Backend.t)
  : res (list DBSubnetGroup.t) :=
  if negb (String.eqb subnet_group_name "") then
    match Dict.get subnet_group_name b.(Backend.subnet_groups) with
    | Some subnet_group => Ok [subnet_group]
    | None => Raise (DBSubnetGroupNotFoundError subnet_group_name)
    end
  else Ok (Dict.values b.(Backend.subnet_groups)).

(** [modify_db_subnet_group]: the group is popped from the dictionary; an
    object is never false, so the test after the [pop] never raises, and
    nothing stores the group again. *)
Definition modify_db_subnet_group (subnet_name : string)
    (description : option string) (subnets : list string) : M DBSubnetGroup.t :=
  b <- get_state ;;
  match Dict.get subnet_name b.(Backend.subnet_groups) with
  | None => raise (KeyError subnet_name)
  | Some subnet_group =>
      modify (Backend.set_subnet_groups
                (Dict.remove subnet_name b.(Backend.subnet_groups))) >>
      ret {| DBSubnetGroup.subnet_name := subnet_name;
             DBSubnetGroup.tags := subnet_group.(DBSubnetGroup.tags) |}
  end.

(** [delete_subnet_group] *)
Definition delete_subnet_group (subnet_name : string) : M DBSubnetGroup.t :=
  b <- get_state ;;
  match Dict.get subnet_name b.(Backend.subnet_groups) with
  | Some subnet_group =>
      modify (Backend.set_subnet_groups
                (Dict.remove subnet_name b.(Backend.subnet_groups))) >>
      ret subnet_group
  | None => raise (DBSubnetGroupNotFoundError subnet_name)
  end.

(** ** Modifying a cluster *)



(** [copy_db_cluster_snapshot] *)
Definition copy_db_cluster_snapshot (X : externals)
    (source_snapshot_identifier target_snapshot_identifier : string)
    (tags : option Tags) (b : Backend.t)
  : outcome DBClusterSnapshot.t * Backend.t :=
  match Dict.get source_snapshot_identifier b.(Backend.cluster_snapshots) with
  | None =>
      (RaisedMore (DBClusterSnapshotNotFoundError source_snapshot_identifier), b)
  | Some source_snapshot =>
      let tags1 :=
        match tags with
        | None => source_snapshot.(DBClusterSnapshot.tags)
        | Some new_tags => _merge_tags source_snapshot.(DBClusterSnapshot.tags) new_tags
        end in
      let (r, b') :=
        _create_db_cluster_snapshot X source_snapshot.(DBClusterSnapshot.cluster)
          target_snapshot_identifier "manual" tags1 b in
      (outcome_of r, b')
  end.

(** ** Read replicas *)

Section WithOtherRegions.

Variable X : externals.

(** [rds_backends[account_id][region].describe_db_instances(db_name)[0]]
    for a region other than the backend's own. *)
Variable foreign_db_instance : string -> string -> res DBInstance.t.




End WithOtherRegions.

End RDSMethods.

(** The properties of the further methods, in words. *)
Module StatedMore.

Import RDSBackend.

(** The value of the last tag of [l] with key [k]. *)
Definition last_value (k : string) (l : Tags) : option string :=
  Dict.get k (rev l).

(** The constraint on an identifier of at most [n] characters: 1 to [n]
    letters, digits or hyphens, the first a letter, the last not a hyphen,
    no two hyphens in a row. *)
Definition valid_identifier (n : nat) (l : list ascii) : bool :=
  (1 <=? List.length l) && (List.length l <=? n)
  && forallb is_idchar l
  && match l with c :: _ => is_letter c | [] => false end
  && negb (Stated.ends_with is_hyphen l)
  && negb (Stated.has_double_hyphen l).

(** The constraint on snapshot identifiers, with 255 characters at most. *)
Definition valid_db_snapshot_identifier (s : string) : bool :=
  valid_identifier 255 (PyStr.chars s).

(** What the matcher computes on an identifier pattern whose repetition is
    bounded by [hi], in the functions of [Pattern]. *)
Definition matches_identifier (hi : nat) (l : list ascii) : bool :=
  negb (Pattern.line_has_dd l)
  && (match l with
      | x :: l' => is_letter x && Pattern.body hi l'
      | [] => false
      end || Pattern.body hi l).

(** The text has no colon. *)
Definition no_colon (s : string) : Prop := ~ In ":"%char (PyStr.chars s).

(** The backend after the cluster named by a new instance, if it is
    stored, has taken the identifier of the instance into its member
    list. *)
Definition with_member (id : string) (cluster_id : option string) (b : Backend.t)
  : Backend.t :=
  match cluster_id with
  | Some cid =>
      match Dict.get cid b.(Backend.clusters) with
      | Some c =>
          Backend.set_clusters
            (Dict.set cid
               (DBCluster.set_cluster_members
                  (c.(DBCluster.cluster_members) ++ [id]) c)
               b.(Backend.clusters)) b
      | None => b
      end
  | None => b
  end.

End StatedMore.

(** Further sample arguments. *)
Module SampleMore.

(** [{"db_cluster_identifier": id, "engine": "mysql", "master_username":
      "admin", "master_user_password": "password1",
      "replication_source_identifier": source}] *)
Definition replica_cluster_kwargs (id source : string) : DBClusterKwargs.t :=
  {| DBClusterKwargs.db_cluster_identifier := id;
     DBClusterKwargs.deletion_protection := None;
     DBClusterKwargs.engine := Some "mysql";
     DBClusterKwargs.engine_version := None;
     DBClusterKwargs.engine_mode := None;
     DBClusterKwargs.iops := None;
     DBClusterKwargs.copy_tags_to_snapshot := None;
     DBClusterKwargs.storage_type := None;
     DBClusterKwargs.allocated_storage := None;
     DBClusterKwargs.master_username := Some "admin";
     DBClusterKwargs.global_cluster_identifier := None;
     DBClusterKwargs.master_user_password := Some "password1";
     DBClusterKwargs.port := None;
     DBClusterKwargs.tags := None;
     DBClusterKwargs.replication_source_identifier := Some source;
     DBClusterKwargs.backtrack_window := None;
     DBClusterKwargs.enable_iam_database_authentication := None |}.

(** The backend after [create_db_cluster] has raised for the cluster
    ["c2"], whose replication source is not stored: the cluster has been
    stored before the source is looked up. *)
Definition half_created : Backend.t :=
  Sample.after
    (RDSBackend.create_db_cluster Sample.X
       (replica_cluster_kwargs "c2"
          "arn:aws:rds:us-east-1:123456789012:cluster:c9"))
    Sample.empty.

End SampleMore.

(* ------------------------------------------------------------------ *)
(** * Basic facts *)

Lemma mem_In (x : string) (l : list string) :
  PyStr.mem x l = true <-> In x l.
Proof.
  unfold PyStr.mem. rewrite existsb_exists. split.
  - intros [y [Hy He]]. apply String.eqb_eq in He. now subst.
  - intros H. exists x. split; [assumption | apply String.eqb_refl].
Qed.

Lemma mem_false_In (x : string) (l : list string) :
  PyStr.mem x l = false <-> ~ In x l.
Proof.
  rewrite <- mem_In. destruct (PyStr.mem x l); split; congruence.
Qed.

Lemma coerce_Some (l : Tags) : TaggingMixin.coerce (Some l) = l.
Proof.
  unfold TaggingMixin.coerce, TaggingMixin.Key, TaggingMixin.Value.
  induction l as [|[k v] l IH]; simpl; [reflexivity | now rewrite IH].
Qed.

Lemma get_set_tags (v : Tags) (r : RDSBaseModel.resource) :
  RDSBaseModel.get_tags (RDSBaseModel.set_tags v r) = v.
Proof. destruct r; reflexivity. Qed.

Lemma set_set_tags (v w : Tags) (r : RDSBaseModel.resource) :
  RDSBaseModel.set_tags v (RDSBaseModel.set_tags w r) = RDSBaseModel.set_tags v r.
Proof. destruct r; reflexivity. Qed.

(** ** Tag lists *)

Section TagLists.

Variable keys : list string.

Let fresh (tag_set : Tag) : bool := negb (PyStr.mem (TaggingMixin.Key tag_set) keys).

Lemma fresh_spec (t : Tag) : fresh t = true <-> ~ In (fst t) keys.
Proof.
  unfold fresh, TaggingMixin.Key. rewrite negb_true_iff. apply mem_false_In.
Qed.

Lemma filter_fresh_keys (l : Tags) (k : string) :
  In k (map fst (filter fresh l)) -> In k (map fst l) /\ ~ In k keys.
Proof.
  rewrite !in_map_iff. intros [t [Hk Ht]]. apply filter_In in Ht.
  destruct Ht as [Ht Hf]. apply fresh_spec in Hf. subst k.
  split; [exists t; auto | assumption].
Qed.

Lemma filter_fresh_NoDup (l : Tags) :
  NoDup (map fst l) -> NoDup (map fst (filter fresh l)).
Proof.
  induction l as [|t l IH]; simpl; intros H; [constructor|].
  inversion H as [|? ? Hn Hd]; subst.
  destruct (fresh t); simpl; [|now apply IH].
  constructor; [|now apply IH].
  intros Hin. apply filter_fresh_keys in Hin. tauto.
Qed.

Lemma filter_fresh_none (l : Tags) :
  (forall t, In t l -> In (fst t) keys) -> filter fresh l = [].
Proof.
  induction l as [|t l IH]; simpl; intros H; [reflexivity|].
  destruct (fresh t) eqn:E.
  - apply fresh_spec in E. exfalso. apply E, H. now left.
  - apply IH. intros u Hu. apply H. now right.
Qed.

Lemma filter_fresh_idem (l : Tags) : filter fresh (filter fresh l) = filter fresh l.
Proof.
  induction l as [|t l IH]; simpl; [reflexivity|].
  destruct (fresh t) eqn:E; simpl; [rewrite E, IH|]; auto.
Qed.

End TagLists.

Lemma NoDup_keys_value (l : Tags) (k v v' : string) :
  NoDup (map fst l) -> In (k, v) l -> In (k, v') l -> v' = v.
Proof.
  induction l as [|[k0 v0] l IH]; simpl; intros Hd H1 H2; [contradiction|].
  inversion Hd as [|? ? Hn Hd']; subst.
  destruct H1 as [H1|H1], H2 as [H2|H2].
  - congruence.
  - inversion H1; subst. exfalso. apply Hn. apply in_map_iff. now exists (k, v').
  - inversion H2; subst. exfalso. apply Hn. apply in_map_iff. now exists (k, v).
  - now apply IH.
Qed.

Lemma add_tags_unfold (old new : Tags) :
  TaggingMixin.add_tags old new =
  filter (fun t => negb (PyStr.mem (TaggingMixin.Key t) (map TaggingMixin.Key new))) old
  ++ new.
Proof. unfold TaggingMixin.add_tags. apply coerce_Some. Qed.

(* ------------------------------------------------------------------ *)
(** * Tagging *)

(** C8, as amended.  For a resource of any class and new tags with
    pairwise-distinct keys, [add_tags] leaves the list it returns in the
    resource; in that list every new key carries its new value and no
    other, every earlier tag whose key is not a new one is kept, no key
    occurs twice provided none did before, and a second [add_tags] with the
    same tags changes nothing. *)
Theorem add_tags_spec (r : RDSBaseModel.resource) (tags : Tags) :
  NoDup (map TaggingMixin.Key tags) ->
  let r' := fst (RDSBaseModel.add_tags tags r) in
  let out := snd (RDSBaseModel.add_tags tags r) in
  RDSBaseModel.get_tags r' = out
  /\ (forall k v, In (k, v) tags ->
        In (k, v) out /\ forall v', In (k, v') out -> v' = v)
  /\ (forall k v, In (k, v) (RDSBaseModel.get_tags r) ->
        ~ In k (map TaggingMixin.Key tags) -> In (k, v) out)
  /\ (NoDup (map TaggingMixin.Key (RDSBaseModel.get_tags r)) ->
        NoDup (map TaggingMixin.Key out))
  /\ RDSBaseModel.add_tags tags r' = (r', out).
Proof.
  intros Hnew. unfold RDSBaseModel.add_tags. cbn [fst snd].
  set (old := RDSBaseModel.get_tags r).
  rewrite get_set_tags, add_tags_unfold.
  set (keys := map TaggingMixin.Key tags).
  set (keep := filter _ old).
  assert (Hkeep : forall k v, In (k, v) keep -> ~ In k keys).
  { intros k v H. apply filter_In in H. destruct H as [_ H].
    apply (fresh_spec keys (k, v)) in H. exact H. }
  repeat split.
  - apply in_or_app. now right.
  - intros v' H'. apply in_app_or in H'. destruct H' as [H'|H'].
    + exfalso. apply (Hkeep _ _ H'). apply in_map_iff. now exists (k, v).
    + eapply NoDup_keys_value; eauto.
  - intros k v Hin Hk. apply in_or_app. left. apply filter_In. split; [exact Hin|].
    apply (fresh_spec keys (k, v)). exact Hk.
  - intros Hold. unfold TaggingMixin.Key in *. rewrite map_app.
    apply NoDup_app.
    + now apply filter_fresh_NoDup.
    + exact Hnew.
    + intros k Hk Hk'. apply filter_fresh_keys in Hk. tauto.
  - rewrite set_set_tags, add_tags_unfold. fold keys.
    assert (E : filter (fun t => negb (PyStr.mem (TaggingMixin.Key t) keys))
                       (keep ++ tags) = keep).
    { rewrite filter_app. unfold keep.
      rewrite (filter_fresh_idem keys old).
      rewrite (filter_fresh_none keys tags); [apply app_nil_r|].
      intros t Ht. apply in_map_iff. now exists t. }
    rewrite E. reflexivity.
Qed.

(** The hypothesis and the conclusion of [add_tags_spec] on a security
    group tagged [env=dev] that receives [env=prod] and [team=db]. *)
Lemma add_tags_spec_witness :
  let r := RDSBaseModel.IsDBSecurityGroup
             {| DBSecurityGroup.group_name := "sg1";
                DBSecurityGroup.tags := [("env", "dev"); ("owner", "ann")] |} in
  let tags := [("env", "prod"); ("team", "db")] in
  NoDup (map TaggingMixin.Key tags)
  /\ snd (RDSBaseModel.add_tags tags r)
     = [("owner", "ann"); ("env", "prod"); ("team", "db")]
  /\ RDSBaseModel.add_tags tags (fst (RDSBaseModel.add_tags tags r))
     = (fst (RDSBaseModel.add_tags tags r), snd (RDSBaseModel.add_tags tags r)).
Proof.
  intros r tags.
  assert (Hd : NoDup (map TaggingMixin.Key tags)).
  { repeat constructor; simpl; intuition discriminate. }
  split; [exact Hd|]. split; [reflexivity|].
  exact (proj2 (proj2 (proj2 (proj2 (add_tags_spec r tags Hd))))).
Defined.

(** C8 as stated fails: on a resource that already carries a key twice,
    [add_tags] with distinct new keys returns a list with that key twice. *)
Lemma add_tags_keeps_repeated_key :
  let r := RDSBaseModel.IsDBSecurityGroup
             {| DBSecurityGroup.group_name := "sg1";
                DBSecurityGroup.tags := [("env", "dev"); ("env", "test")] |} in
  let tags := [("team", "db")] in
  NoDup (map TaggingMixin.Key tags)
  /\ snd (RDSBaseModel.add_tags tags r)
     = [("env", "dev"); ("env", "test"); ("team", "db")]
  /\ ~ NoDup (map TaggingMixin.Key (snd (RDSBaseModel.add_tags tags r))).
Proof.
  intros r tags. split; [|split].
  - repeat constructor. simpl. tauto.
  - reflexivity.
  - intros H. inversion H as [|? ? Hn _]; subst. apply Hn. now left.
Qed.

(* ------------------------------------------------------------------ *)
(** * Dictionaries *)

Section DictFacts.

Variable V : Type.
Implicit Types (d : Dict.t V) (k : string) (v : V).

Lemma get_set_same d k v : Dict.get k (Dict.set k v d) = Some v.
Proof.
  induction d as [|[k' v'] d IH]; simpl.
  - now rewrite String.eqb_refl.
  - destruct (String.eqb k' k) eqn:E; simpl.
    + now rewrite String.eqb_refl.
    + now rewrite E.
Qed.

Lemma get_set_other d k k' v :
  k' <> k -> Dict.get k' (Dict.set k v d) = Dict.get k' d.
Proof.
  intros Hne. induction d as [|[k0 v0] d IH]; simpl.
  - destruct (String.eqb k k') eqn:E; [apply String.eqb_eq in E; congruence | reflexivity].
  - destruct (String.eqb k0 k) eqn:E; simpl.
    + apply String.eqb_eq in E. subst k0.
      destruct (String.eqb k k') eqn:E'; [apply String.eqb_eq in E'; congruence | reflexivity].
    + destruct (String.eqb k0 k'); [reflexivity | exact IH].
Qed.

Lemma get_remove_same d k : Dict.get k (Dict.remove k d) = None.
Proof.
  induction d as [|[k' v'] d IH]; simpl; [reflexivity|].
  destruct (String.eqb k' k) eqn:E; simpl; [exact IH | now rewrite E].
Qed.

Lemma get_remove_other d k k' :
  k' <> k -> Dict.get k' (Dict.remove k d) = Dict.get k' d.
Proof.
  intros Hne. induction d as [|[k0 v0] d IH]; simpl; [reflexivity|].
  destruct (String.eqb k0 k) eqn:E; simpl.
  - apply String.eqb_eq in E. subst k0.
    destruct (String.eqb k k') eqn:E'; [apply String.eqb_eq in E'; congruence | exact IH].
  - destruct (String.eqb k0 k'); [reflexivity | exact IH].
Qed.

Lemma mem_get d k : Dict.mem k d = true <-> exists v, Dict.get k d = Some v.
Proof.
  unfold Dict.mem. destruct (Dict.get k d) as [v|]; split.
  - intros _. now exists v.
  - reflexivity.
  - discriminate.
  - intros [v H]. discriminate.
Qed.

Lemma get_In d k v : Dict.get k d = Some v -> In (k, v) d.
Proof.
  induction d as [|[k' v'] d IH]; simpl; [discriminate|].
  destruct (String.eqb k' k) eqn:E.
  - apply String.eqb_eq in E. intros H. inversion H. subst. now left.
  - intros H. right. now apply IH.
Qed.

End DictFacts.

(* ------------------------------------------------------------------ *)
(** * ARNs *)

(** C1, as amended.  For a resource of any class that has a resource type
    and a name, [arn] is the string
    [arn:<partition>:rds:<region>:<account>:<type>:<name>] built from the
    backend's partition, region and account id, except for a global
    cluster, whose [arn] is that string with every occurrence of the
    region removed. *)
Theorem arn_spec (b : Backend.t) (r : RDSBaseModel.resource) (rtype rname : string) :
  RDSBaseModel.resource_type r = Ok rtype ->
  RDSBaseModel.name r = Ok rname ->
  let full :=
    ("arn:" ++ b.(Backend.partition) ++ ":rds:" ++ b.(Backend.region_name) ++ ":"
     ++ b.(Backend.account_id) ++ ":" ++ rtype ++ ":" ++ rname)%string in
  match r with
  | RDSBaseModel.IsGlobalCluster _ =>
      RDSBaseModel.arn b r = Ok (PyStr.replace full b.(Backend.region_name) "")
  | _ => RDSBaseModel.arn b r = Ok full
  end.
Proof.
  intros Ht Hn full.
  destruct r; unfold RDSBaseModel.arn, RDSBaseModel.base_arn;
    rewrite Ht, Hn; reflexivity.
Qed.

(** [arn_spec] on a subnet group and on a global cluster of a backend in
    [us-east-1]. *)
Lemma arn_spec_witness :
  RDSBaseModel.arn Sample.empty
    (RDSBaseModel.IsDBSubnetGroup
       {| DBSubnetGroup.subnet_name := "sn1"; DBSubnetGroup.tags := [] |})
  = Ok "arn:aws:rds:us-east-1:123456789012:subgrp:sn1"
  /\ RDSBaseModel.arn Sample.empty
       (RDSBaseModel.IsGlobalCluster
          {| GlobalCluster.global_cluster_identifier := "g1";
             GlobalCluster.engine := "aurora-mysql";
             GlobalCluster.deletion_protection := false;
             GlobalCluster.members := [];
             GlobalCluster.tags := [] |})
     = Ok "arn:aws:rds::123456789012:global-cluster:g1".
Proof.
  split.
  - exact (arn_spec Sample.empty
             (RDSBaseModel.IsDBSubnetGroup
                {| DBSubnetGroup.subnet_name := "sn1"; DBSubnetGroup.tags := [] |})
             eq_refl eq_refl).
  - exact (arn_spec Sample.empty
             (RDSBaseModel.IsGlobalCluster
                {| GlobalCluster.global_cluster_identifier := "g1";
                   GlobalCluster.engine := "aurora-mysql";
                   GlobalCluster.deletion_protection := false;
                   GlobalCluster.members := [];
                   GlobalCluster.tags := [] |})
             eq_refl eq_refl).
Defined.

(** C1 as stated fails on a global cluster: its [arn] is not the string
    with the backend's region in it. *)
Lemma global_cluster_arn_has_no_region :
  let g := RDSBaseModel.IsGlobalCluster
             {| GlobalCluster.global_cluster_identifier := "g1";
                GlobalCluster.engine := "aurora-mysql";
                GlobalCluster.deletion_protection := false;
                GlobalCluster.members := [];
                GlobalCluster.tags := [] |} in
  RDSBaseModel.resource_type g = Ok "global-cluster"
  /\ RDSBaseModel.name g = Ok "g1"
  /\ RDSBaseModel.arn Sample.empty g = Ok "arn:aws:rds::123456789012:global-cluster:g1"
  /\ RDSBaseModel.arn Sample.empty g
     <> Ok "arn:aws:rds:us-east-1:123456789012:global-cluster:g1".
Proof.
  intros g. repeat split. discriminate.
Qed.

(* ------------------------------------------------------------------ *)
(** * DB clusters *)

(** Case analysis on the innermost test of a hypothesis. *)
Ltac break_in H :=
  match type of H with
  | context [match ?x with _ => _ end] =>
      match x with
      | context [match _ with _ => _ end] => fail 1
      | _ => destruct x eqn:?
      end
  end.

Ltac unfold_monad :=
  unfold RDSBackend.bind, RDSBackend.lift, RDSBackend.ret, RDSBackend.raise,
    RDSBackend.modify, RDSBackend.get_state in *.

Lemma DBCluster_init_ok X kw c :
  RDSBackend.DBCluster_init X kw = Ok c ->
  exists engine,
    kw.(DBClusterKwargs.engine) = Some engine
    /\ In engine X.(RDSBackend.list_cluster_engines)
    /\ c.(DBCluster.engine) = engine
    /\ c.(DBCluster._status) = "creating"
    /\ c.(DBCluster.cluster_members) = []
    /\ c.(DBCluster.db_cluster_identifier) = kw.(DBClusterKwargs.db_cluster_identifier)
    /\ c.(DBCluster.deletion_protection)
       = truthy_bool kw.(DBClusterKwargs.deletion_protection)
    /\ match kw.(DBClusterKwargs.port) with
       | Some p => c.(DBCluster.port) = p
       | None => RDSBackend.DBCluster_default_port engine = Ok c.(DBCluster.port)
       end.
Proof.
  unfold RDSBackend.DBCluster_init, res_bind. intros H.
  repeat (break_in H; try discriminate).
  all: inversion H; subst; clear H; cbn.
  all: eexists; repeat split; try eassumption; try reflexivity.
  all: apply mem_In; now apply negb_false_iff.
Qed.

(** What a successful [create_db_cluster] returns and stores. *)
Lemma create_db_cluster_ok X kw b c b' :
  RDSBackend.create_db_cluster X kw b = (Ok c, b') ->
  exists cluster,
    RDSBackend.DBCluster_init X kw = Ok cluster
    /\ (c = cluster
        \/ exists l, c = DBCluster.set_read_replica_identifiers l cluster)
    /\ Dict.get kw.(DBClusterKwargs.db_cluster_identifier) b'.(Backend.clusters)
       = Some (DBCluster.set_status "available" c).
Proof.
  unfold RDSBackend.create_db_cluster, RDSBackend.store_cluster. unfold_monad.
  intros H.
  destruct (RDSBackend.DBCluster_init X kw) as [cluster|] eqn:Hi; [|discriminate].
  exists cluster. split; [reflexivity|].
  repeat (break_in H; try discriminate).
  all: repeat match goal with
         | E : (_, _) = (_, _) |- _ => inversion E; subst; clear E
         end.
  all: split; [eauto | cbn; apply get_set_same].
Qed.



(** C9.  The cluster that a successful [create_db_cluster] returns reads
    as ["creating"] and is otherwise the cluster stored, whose status is
    ["available"]; the cluster that a successful [start_db_cluster] returns
    reads as ["started"] and is otherwise the cluster stored, whose status
    is ["available"]. *)
Theorem cluster_status_of_returned_copy X :
  (forall kw b c b',
      RDSBackend.create_db_cluster X kw b = (Ok c, b') ->
      fst (RDSBackend.DBCluster_status c) = "creating"
      /\ exists stored,
           Dict.get kw.(DBClusterKwargs.db_cluster_identifier) b'.(Backend.clusters)
           = Some stored
           /\ stored = DBCluster.set_status "available" c
           /\ fst (RDSBackend.DBCluster_status stored) = "available")
  /\ (forall id b c b',
        RDSBackend.start_db_cluster id b = (Ok c, b') ->
        fst (RDSBackend.DBCluster_status c) = "started"
        /\ exists stored,
             Dict.get id b'.(Backend.clusters) = Some stored
             /\ stored = DBCluster.set_status "available" c
             /\ fst (RDSBackend.DBCluster_status stored) = "available").
Proof.
  split.
  - intros kw b c b' H.
    destruct (create_db_cluster_ok _ _ _ H) as [cluster [Hi [Hc Hs]]].
    destruct (DBCluster_init_ok _ _ Hi) as [engine [_ [_ [_ [Hst _]]]]].
    assert (Hcs : c.(DBCluster._status) = "creating").
    { destruct Hc as [->|[l ->]]; exact Hst. }
    split.
    + unfold RDSBackend.DBCluster_status. now rewrite Hcs.
    + eexists. split; [exact Hs|]. split; reflexivity.
  - intros id b c b'.
    unfold RDSBackend.start_db_cluster, RDSBackend.store_cluster,
      RDSBackend.DBCluster_status. unfold_monad.
    intros H.
    repeat (break_in H; try discriminate).
    all: repeat match goal with
           | E : (_, _) = (_, _) |- _ => inversion E; subst; clear E
           end.
    all: try discriminate.
    all: split; [reflexivity|].
    all: eexists; split; [cbn; apply get_set_same|]; split; reflexivity.
Qed.

(** [cluster_status_of_returned_copy] on a cluster that is created, then
    stopped, then started. *)
Lemma cluster_status_of_returned_copy_witness :
  exists c b1 s b3,
    RDSBackend.create_db_cluster Sample.X
      (Sample.cluster_kwargs "c1" "mysql" None) Sample.empty = (Ok c, b1)
    /\ fst (RDSBackend.DBCluster_status c) = "creating"
    /\ RDSBackend.start_db_cluster "c1"
         (Sample.after (RDSBackend.stop_db_cluster "c1") b1) = (Ok s, b3)
    /\ fst (RDSBackend.DBCluster_status s) = "started".
Proof.
  destruct (RDSBackend.create_db_cluster Sample.X
              (Sample.cluster_kwargs "c1" "mysql" None) Sample.empty)
    as [[c|e] b1] eqn:E; [|vm_compute in E; discriminate].
  destruct (RDSBackend.start_db_cluster "c1"
              (Sample.after (RDSBackend.stop_db_cluster "c1") b1))
    as [[s|e] b3] eqn:E'.
  - exists c, b1, s, b3.
    split; [reflexivity|].
    split; [exact (proj1 (proj1 (cluster_status_of_returned_copy Sample.X) _ _ _ _ E))|].
    split; [exact E'|].
    exact (proj1 (proj2 (cluster_status_of_returned_copy Sample.X) _ _ _ _ E')).
  - vm_compute in E. inversion E; subst. vm_compute in E'. discriminate.
Defined.

Lemma remove_from_global_cluster_clusters gid id b :
  exists b',
    RDSBackend.remove_from_global_cluster gid id b = (Ok tt, b')
    /\ b'.(Backend.clusters) = b.(Backend.clusters)
    /\ b'.(Backend.cluster_snapshots) = b.(Backend.cluster_snapshots).
Proof.
  unfold RDSBackend.remove_from_global_cluster. unfold_monad.
  destruct (Dict.get gid (Backend.global_clusters b)); [|eauto].
  destruct (res_bind _ _); [|eauto].
  destruct (list_remove _ _); eauto.
Qed.

Lemma create_db_cluster_snapshot_clusters X id snap ty tags b r b' :
  RDSBackend.create_db_cluster_snapshot X id snap ty tags b = (r, b') ->
  b'.(Backend.clusters) = b.(Backend.clusters).
Proof.
  unfold RDSBackend.create_db_cluster_snapshot,
    RDSBackend._create_db_cluster_snapshot. unfold_monad.
  intros H.
  repeat (break_in H; try discriminate).
  all: repeat match goal with
         | E : (_, _) = (_, _) |- _ => inversion E; subst; clear E
         end.
  all: reflexivity.
Qed.

(** The outcomes of [delete_db_cluster] on a cluster that is stored. *)
Lemma delete_db_cluster_cases X id snap b cluster :
  Dict.get id b.(Backend.clusters) = Some cluster ->
  let out := RDSBackend.delete_db_cluster X id snap b in
  (cluster.(DBCluster.deletion_protection) = true
   /\ out = (Raise InvalidParameterValue, b))
  \/ (cluster.(DBCluster.deletion_protection) = false
      /\ cluster.(DBCluster.cluster_members) <> []
      /\ out = (Raise DBClusterToBeDeletedHasActiveMembers, b))
  \/ (cluster.(DBCluster.deletion_protection) = false
      /\ cluster.(DBCluster.cluster_members) = []
      /\ exists b2,
           b2.(Backend.clusters) = b.(Backend.clusters)
           /\ ((exists e, PyStr.truthy snap = true /\ out = (Raise e, b2))
               \/ out = (Ok cluster,
                         Backend.set_clusters
                           (Dict.remove id b2.(Backend.clusters)) b2))
           /\ (PyStr.truthy snap = false -> fst out = Ok cluster)).
Proof.
  intros Hget out.
  assert (Hout : out = RDSBackend.delete_db_cluster X id snap b) by reflexivity.
  clearbody out.
  unfold RDSBackend.delete_db_cluster, RDSBackend.create_auto_cluster_snapshot in Hout.
  unfold RDSBackend.bind at 1, RDSBackend.get_state in Hout. rewrite Hget in Hout.
  destruct (DBCluster.deletion_protection cluster) eqn:Hp.
  { left. split; [reflexivity | exact Hout]. }
  right.
  destruct (DBCluster.cluster_members cluster) as [|m ms] eqn:Hm.
  2:{ left. split; [reflexivity|]. split; [discriminate | exact Hout]. }
  right. split; [reflexivity|]. split; [reflexivity|].
  set (gid := if PyStr.truthy _ then _ else _) in Hout.
  assert (Hg : exists b1,
             (if Dict.mem gid (Backend.global_clusters b)
              then RDSBackend.remove_from_global_cluster gid id
              else RDSBackend.ret tt) b = (Ok tt, b1)
             /\ b1.(Backend.clusters) = b.(Backend.clusters)).
  { destruct (Dict.mem gid (Backend.global_clusters b)).
    - destruct (remove_from_global_cluster_clusters gid id b) as [b1 [E [Hc _]]].
      eauto.
    - exists b. split; reflexivity. }
  destruct Hg as [b1 [Hg Hc1]].
  unfold RDSBackend.bind at 1 in Hout. rewrite Hg in Hout.
  destruct (PyStr.truthy snap) eqn:Hs.
  - unfold RDSBackend.bind at 1 in Hout. unfold RDSBackend.bind at 1 in Hout.
    destruct (RDSBackend.create_db_cluster_snapshot X id (option_or snap "")
                "automated" None b1) as [[sn|e0] b2] eqn:Esn;
      pose proof (create_db_cluster_snapshot_clusters _ _ _ _ _ _ Esn) as Hc2;
      unfold_monad; exists b2; (split; [congruence|]); (split; [|discriminate]).
    + right. exact Hout.
    + left. exists e0. split; [reflexivity | exact Hout].
  - unfold_monad. exists b1. split; [exact Hc1|].
    split; [right; exact Hout | intros _; now rewrite Hout].
Qed.

(** C6, as amended.  For a cluster stored under the identifier given,
    [delete_db_cluster] raises [InvalidParameterValue] when deletion
    protection is on, and [DBClusterToBeDeletedHasActiveMembers] when it is
    off and the cluster has members; in both cases the backend is left as it
    was.  Whenever the call raises, the cluster is still stored unchanged;
    when it succeeds, which it does for an unprotected cluster without
    members when no snapshot is asked for, the cluster is returned and its
    key is removed from [clusters]. *)
Theorem delete_db_cluster_spec X id snap b cluster :
  Dict.get id b.(Backend.clusters) = Some cluster ->
  (cluster.(DBCluster.deletion_protection) = true ->
   RDSBackend.delete_db_cluster X id snap b = (Raise InvalidParameterValue, b))
  /\ (cluster.(DBCluster.deletion_protection) = false ->
      cluster.(DBCluster.cluster_members) <> [] ->
      RDSBackend.delete_db_cluster X id snap b
      = (Raise DBClusterToBeDeletedHasActiveMembers, b))
  /\ (forall e b',
        RDSBackend.delete_db_cluster X id snap b = (Raise e, b') ->
        Dict.get id b'.(Backend.clusters) = Some cluster)
  /\ (forall c b',
        RDSBackend.delete_db_cluster X id snap b = (Ok c, b') ->
        c = cluster
        /\ b'.(Backend.clusters) = Dict.remove id b.(Backend.clusters)
        /\ Dict.get id b'.(Backend.clusters) = None)
  /\ (cluster.(DBCluster.deletion_protection) = false ->
      cluster.(DBCluster.cluster_members) = [] ->
      PyStr.truthy snap = false ->
      fst (RDSBackend.delete_db_cluster X id snap b) = Ok cluster).
Proof.
  intros Hget.
  pose proof (delete_db_cluster_cases X id snap b Hget) as Hc. cbv zeta in Hc.
  destruct Hc as [[Hp Ho]|[[Hp [Hm Ho]]|[Hp [Hm [b2 [Hc2 [Ho Hok]]]]]]].
  - rewrite Ho. repeat split; congruence.
  - rewrite Ho. repeat split; congruence.
  - split; [congruence|]. split; [congruence|].
    destruct Ho as [[e [Hs Ho]]|Ho]; rewrite Ho in *.
    + split; [|split; [discriminate|]].
      * intros e' b' H. inversion H; subst. now rewrite Hc2.
      * intros _ _ Hs'. congruence.
    + split; [discriminate|]. split; [|intros; reflexivity].
      intros c b' H. inversion H; subst. cbn. rewrite Hc2.
      split; [reflexivity|]. split; [reflexivity | apply get_remove_same].
Qed.

(** [delete_db_cluster_spec] on a protected cluster and on an unprotected
    cluster without members. *)
Lemma delete_db_cluster_spec_witness :
  (exists cluster,
     Dict.get "c1" (Sample.cluster_with_member (Some true)).(Backend.clusters)
     = Some cluster
     /\ cluster.(DBCluster.deletion_protection) = true
     /\ RDSBackend.delete_db_cluster Sample.X "c1" None
          (Sample.cluster_with_member (Some true))
        = (Raise InvalidParameterValue, Sample.cluster_with_member (Some true)))
  /\ (exists cluster b1,
        RDSBackend.create_db_cluster Sample.X
          (Sample.cluster_kwargs "c1" "mysql" None) Sample.empty = (Ok cluster, b1)
        /\ fst (RDSBackend.delete_db_cluster Sample.X "c1" None b1)
           = Ok (DBCluster.set_status "available" cluster)).
Proof.
  split.
  - destruct (Dict.get "c1" (Sample.cluster_with_member (Some true)).(Backend.clusters))
      as [cluster|] eqn:E; [|vm_compute in E; discriminate].
    exists cluster. split; [reflexivity|].
    assert (Hp : cluster.(DBCluster.deletion_protection) = true).
    { vm_compute in E. inversion E. reflexivity. }
    split; [exact Hp|].
    exact (proj1 (delete_db_cluster_spec Sample.X "c1" None _ E) Hp).
  - destruct (RDSBackend.create_db_cluster Sample.X
                (Sample.cluster_kwargs "c1" "mysql" None) Sample.empty)
      as [[cluster|e] b1] eqn:E; [|vm_compute in E; discriminate].
    exists cluster, b1. split; [reflexivity|].
    destruct (create_db_cluster_ok _ _ _ E) as [c0 [_ [_ Hs]]].
    apply (proj2 (proj2 (proj2 (proj2
             (delete_db_cluster_spec Sample.X "c1" None b1 Hs))))).
    + vm_compute in E. inversion E. reflexivity.
    + vm_compute in E. inversion E. reflexivity.
    + reflexivity.
Defined.

(** C6 as stated fails on a protected cluster that has a member: the call
    raises [InvalidParameterValue], not
    [DBClusterToBeDeletedHasActiveMembers]. *)
Lemma delete_db_cluster_protection_checked_first :
  let b := Sample.cluster_with_member (Some true) in
  option_map DBCluster.cluster_members (Dict.get "c1" b.(Backend.clusters))
  = Some ["db1"]
  /\ option_map DBCluster.deletion_protection (Dict.get "c1" b.(Backend.clusters))
     = Some true
  /\ fst (RDSBackend.delete_db_cluster Sample.X "c1" None b)
     = Raise InvalidParameterValue
  /\ fst (RDSBackend.delete_db_cluster Sample.X "c1" None b)
     <> Raise DBClusterToBeDeletedHasActiveMembers.
Proof.
  intros b. assert (E : fst (RDSBackend.delete_db_cluster Sample.X "c1" None b)
                        = Raise InvalidParameterValue) by (vm_compute; reflexivity).
  split; [vm_compute; reflexivity|]. split; [vm_compute; reflexivity|].
  split; [exact E|]. rewrite E. discriminate.
Qed.

(* ------------------------------------------------------------------ *)
(** * Snapshot quota *)

(** [int] on some texts: blanks around the number, one sign and single
    underscores between digits are accepted; a separator of code 28, a
    blank after the sign, an underscore that is not between two digits, the
    empty text and a number of more digits than the interpreter allows are
    not. *)
Lemma int_examples :
  PyInt.int 4300 " +1_0 " = Ok 10%Z
  /\ PyInt.int 4300 "-007" = Ok (-7)%Z
  /\ PyInt.int 4300 (String (ascii_of_nat 160) "5") = Ok 5%Z
  /\ PyInt.int 4300 (String (ascii_of_nat 28) "0") = Raise ValueError
  /\ PyInt.int 4300 "+ 1" = Raise ValueError
  /\ PyInt.int 4300 "1__0" = Raise ValueError
  /\ PyInt.int 4300 "1_" = Raise ValueError
  /\ PyInt.int 4300 "" = Raise ValueError
  /\ PyInt.int 640 (PyStr.of_chars (repeat "1"%char 641)) = Raise ValueError
  /\ is_ok (PyInt.int 0 (PyStr.of_chars (repeat "1"%char 641))) = true.
Proof. repeat split; vm_compute; reflexivity. Qed.

(** C5, as amended.  With the limit read from [MOTO_RDS_SNAPSHOT_LIMIT]
    (100 when it is unset), [create_db_snapshot] for an instance object or
    for the identifier of an instance that exists, and
    [_create_db_cluster_snapshot], raise [SnapshotQuotaExceededError] and
    leave the backend as it was, when the snapshot identifier is fresh and
    the snapshots of that kind already stored are as many as the limit or
    more. *)
Theorem snapshot_quota_spec X b limit :
  RDSBackend.snapshot_limit X = Ok limit ->
  (forall db_instance id ty tags,
      match db_instance with
      | inl name => Dict.mem name b.(Backend.databases) = true
      | inr _ => True
      end ->
      Dict.mem id b.(Backend.database_snapshots) = false ->
      (limit <= Z.of_nat (Dict.len b.(Backend.database_snapshots)))%Z ->
      RDSBackend.create_db_snapshot X db_instance id ty tags b
      = (Raise SnapshotQuotaExceededError, b))
  /\ (forall cluster id ty tags,
        Dict.mem id b.(Backend.cluster_snapshots) = false ->
        (limit <= Z.of_nat (Dict.len b.(Backend.cluster_snapshots)))%Z ->
        RDSBackend._create_db_cluster_snapshot X cluster id ty tags b
        = (Raise SnapshotQuotaExceededError, b)).
Proof.
  intros Hlimit. split.
  - intros db_instance id ty tags Hdb Hfresh Hfull.
    unfold RDSBackend.create_db_snapshot. unfold_monad.
    apply Z.leb_le in Hfull.
    destruct db_instance as [name|d].
    + apply mem_get in Hdb. destruct Hdb as [d Hd]. rewrite Hd.
      cbv beta iota. rewrite Hfresh, Hlimit. cbv beta iota. now rewrite Hfull.
    + cbv beta iota. rewrite Hfresh, Hlimit. cbv beta iota. now rewrite Hfull.
  - intros cluster id ty tags Hfresh Hfull.
    unfold RDSBackend._create_db_cluster_snapshot. unfold_monad.
    rewrite Hfresh, Hlimit. apply Z.leb_le in Hfull. now rewrite Hfull.
Qed.

(** [snapshot_quota_spec] with [MOTO_RDS_SNAPSHOT_LIMIT=0] on a backend
    that holds the instance ["db1"] and no snapshot. *)
Lemma snapshot_quota_spec_witness :
  RDSBackend.snapshot_limit Sample.X_limit0 = Ok 0%Z
  /\ RDSBackend.create_db_snapshot Sample.X_limit0 (inl "db1") "s1" "manual" None
       (Sample.cluster_with_member None)
     = (Raise SnapshotQuotaExceededError, Sample.cluster_with_member None).
Proof.
  split; [reflexivity|].
  apply (proj1 (@snapshot_quota_spec Sample.X_limit0
                  (Sample.cluster_with_member None) 0%Z eq_refl)
               (inl "db1") "s1" "manual" None).
  - vm_compute. reflexivity.
  - vm_compute. reflexivity.
  - vm_compute. discriminate.
Defined.

(** C5 as stated fails when the instance named does not exist: with the
    quota already reached and a fresh snapshot identifier the call raises
    [DBInstanceNotFoundError]. *)
Lemma create_db_snapshot_unknown_instance :
  RDSBackend.snapshot_limit Sample.X_limit0 = Ok 0%Z
  /\ Dict.mem "s1" Sample.empty.(Backend.database_snapshots) = false
  /\ (0 <= Z.of_nat (Dict.len Sample.empty.(Backend.database_snapshots)))%Z
  /\ RDSBackend.create_db_snapshot Sample.X_limit0 (inl "db9") "s1" "manual" None
       Sample.empty
     = (Raise (DBInstanceNotFoundError "db9"), Sample.empty).
Proof.
  repeat split. vm_compute. discriminate.
Qed.

(* ------------------------------------------------------------------ *)
(** * What a match consumes *)

Section MatchSuffix.

Import Re.

Lemma star_aux_suffix m : calls_on_suffix m -> forall k fuel c,
  star_aux m k fuel c = true -> exists c' pre, k c' = true /\ snd c = pre ++ snd c'.
Proof.
  intros Hm k fuel. induction fuel as [|f IH]; intros c; simpl.
  - intros H. exists c, []. auto.
  - intros H. apply orb_true_iff in H. destruct H as [H|H].
    + apply Hm in H. destruct H as [c1 [pre1 [H E1]]].
      destruct (List.length (snd c1) <? List.length (snd c)); [|discriminate].
      apply IH in H. destruct H as [c2 [pre2 [H E2]]].
      exists c2, (pre1 ++ pre2). split; [exact H|].
      rewrite E1, E2. now rewrite app_assoc.
    + exists c, []. auto.
Qed.

Lemma rep_aux_suffix m : calls_on_suffix m -> forall k hi lo c,
  rep_aux m k lo hi c = true -> exists c' pre, k c' = true /\ snd c = pre ++ snd c'.
Proof.
  intros Hm k hi. induction hi as [|h IH]; intros lo c; simpl.
  - destruct (lo =? 0); [|discriminate]. intros H. exists c, []. auto.
  - intros H. apply orb_true_iff in H. destruct H as [H|H].
    + apply Hm in H. destruct H as [c1 [pre1 [H E1]]].
      apply IH in H. destruct H as [c2 [pre2 [H E2]]].
      exists c2, (pre1 ++ pre2). split; [exact H|].
      rewrite E1, E2. now rewrite app_assoc.
    + destruct (lo =? 0); [|discriminate]. exists c, []. auto.
Qed.

Lemma matchk_suffix (r : regex) : calls_on_suffix (matchk r).
Proof.
  induction r as [| | |p|r1 IH1 r2 IH2|r1 IH1 r2 IH2|r1 IH1|r1 IH1|r1 IH1 lo hi|r1 IH1];
    intros c k; simpl.
  - intros H. exists c, []. auto.
  - intros H. apply andb_true_iff in H. exists c, []. tauto.
  - intros H. apply andb_true_iff in H. exists c, []. tauto.
  - destruct (snd c) as [|x l'] eqn:E; [discriminate|].
    intros H. apply andb_true_iff in H. exists (S (fst c), l'), [x]. tauto.
  - intros H. apply IH1 in H. destruct H as [c1 [pre1 [H E1]]].
    apply IH2 in H. destruct H as [c2 [pre2 [H E2]]].
    exists c2, (pre1 ++ pre2). split; [exact H|].
    rewrite E1, E2. now rewrite app_assoc.
  - intros H. apply orb_true_iff in H. destruct H as [H|H]; [now apply IH1 | now apply IH2].
  - intros H. apply orb_true_iff in H. destruct H as [H|H]; [now apply IH1|].
    exists c, []. auto.
  - apply star_aux_suffix. exact IH1.
  - apply rep_aux_suffix. exact IH1.
  - intros H. apply andb_true_iff in H. exists c, []. tauto.
Qed.

End MatchSuffix.

(** ** [split] *)

Lemma split_chars_nonempty sep l : PyStr.split_chars sep l <> [].
Proof.
  destruct l as [|c l]; simpl; [discriminate|].
  destruct (Ascii.eqb c sep); [discriminate|].
  destruct (PyStr.split_chars sep l); discriminate.
Qed.

Lemma split_chars_two sep l :
  In sep l -> 2 <= List.length (PyStr.split_chars sep l).
Proof.
  induction l as [|c l IH]; simpl; [contradiction|].
  intros H. destruct (Ascii.eqb c sep) eqn:E.
  - pose proof (split_chars_nonempty sep l) as Hn.
    destruct (PyStr.split_chars sep l); [congruence | simpl; lia].
  - destruct H as [H|H]; [subst; rewrite Ascii.eqb_refl in E; discriminate|].
    specialize (IH H). destruct (PyStr.split_chars sep l); simpl in *; lia.
Qed.

Lemma py_index_last_two (A : Type) (l : list A) :
  2 <= List.length l ->
  exists x y,
    py_index l (Z.of_nat (List.length l) - 2) = Some x
    /\ py_index l (Z.of_nat (List.length l) - 1) = Some y
    /\ py_index l (-2) = Some x
    /\ py_index l (-1) = Some y.
Proof.
  intros Hlen.
  destruct (nth_error l (List.length l - 2)) as [x|] eqn:Ex;
    [|apply nth_error_None in Ex; lia].
  destruct (nth_error l (List.length l - 1)) as [y|] eqn:Ey;
    [|apply nth_error_None in Ey; lia].
  exists x, y. unfold py_index.
  replace (0 <=? Z.of_nat (List.length l) - 2)%Z with true
    by (symmetry; apply Z.leb_le; lia).
  replace (0 <=? Z.of_nat (List.length l) - 1)%Z with true
    by (symmetry; apply Z.leb_le; lia).
  replace (0 <=? Z.of_nat (List.length l) + -2)%Z with true
    by (symmetry; apply Z.leb_le; lia).
  replace (0 <=? Z.of_nat (List.length l) + -1)%Z with true
    by (symmetry; apply Z.leb_le; lia).
  cbn [Z.leb Z.compare].
  replace (Z.to_nat (Z.of_nat (List.length l) - 2)) with (List.length l - 2) by lia.
  replace (Z.to_nat (Z.of_nat (List.length l) - 1)) with (List.length l - 1) by lia.
  replace (Z.to_nat (Z.of_nat (List.length l) + -2)) with (List.length l - 2) by lia.
  replace (Z.to_nat (Z.of_nat (List.length l) + -1)) with (List.length l - 1) by lia.
  auto.
Qed.

(** An ARN that matches [arn_regex] contains a colon, so its last two
    parts exist. *)
Lemma arn_regex_parts X arn :
  Re.re_match (RDSBackend.arn_regex X) arn = true ->
  exists rtype rname,
    RDSBackend.arn_type_and_name arn = Ok (rtype, rname)
    /\ RDSBackend.arn_type_and_name_neg arn = Ok (rtype, rname).
Proof.
  unfold Re.re_match, RDSBackend.arn_regex. cbn [Re.matchk]. intros H.
  apply matchk_suffix in H. destruct H as [c1 [pre [H E]]].
  cbn in H. destruct (snd c1) as [|x l'] eqn:E1; [discriminate|].
  apply andb_true_iff in H. destruct H as [Hx _].
  unfold PyStr.is_char in Hx. apply Ascii.eqb_eq in Hx. subst x.
  assert (Hin : In ":"%char (PyStr.chars arn)).
  { cbn [snd] in E. rewrite E. apply in_or_app. right. now left. }
  pose proof (split_chars_two _ _ Hin) as Hlen.
  assert (Hlen' : 2 <= List.length (PyStr.split ":"%char arn)).
  { unfold PyStr.split. now rewrite length_map. }
  destruct (py_index_last_two _ Hlen') as [t [n [H1 [H2 [H3 H4]]]]].
  exists t, n. unfold RDSBackend.arn_type_and_name, RDSBackend.arn_type_and_name_neg.
  cbv zeta. now rewrite H1, H2, H3, H4.
Qed.

(* ------------------------------------------------------------------ *)
(** * Identifier validation *)

Section IdentifierPattern.

Import Re RDSBackend Pattern.

Ltac all_ascii c := destruct c as [[] [] [] [] [] [] [] []].

Lemma letter_isalpha c : is_letter c = true -> PyStr.isalpha c = true.
Proof. all_ascii c; vm_compute; congruence. Qed.

Lemma idchar_isalpha_letter c :
  is_idchar c = true -> PyStr.isalpha c = true -> is_letter c = true.
Proof. all_ascii c; vm_compute; congruence. Qed.

Lemma idchar_not_newline c : is_idchar c = true -> Ascii.eqb c Re.newline = false.
Proof. all_ascii c; vm_compute; congruence. Qed.

Lemma alnum_not_hyphen c : is_alnum c = true -> is_hyphen c = false.
Proof. all_ascii c; vm_compute; congruence. Qed.

Lemma k_tail_eq n l : k_tail (n, l) = tail_ok l.
Proof.
  unfold k_tail. cbn. destruct l as [|x l']; [reflexivity|].
  now rewrite andb_true_r.
Qed.

Lemma rep_body hi : forall n l,
  rep_aux (matchk (Cls is_idchar)) k_tail 0 hi (n, l) = body hi l.
Proof.
  induction hi as [|h IH]; intros n l; simpl.
  - apply k_tail_eq.
  - rewrite k_tail_eq. destruct l as [|x l']; [reflexivity|].
    cbn. now rewrite IH.
Qed.

Lemma k_dd_eq n l : k_dd (n, l) = hyphen_next l && hyphen_next (tl l).
Proof.
  unfold k_dd. destruct l as [|x [|y l']]; cbn; unfold is_hyphen.
  - reflexivity.
  - destruct (PyStr.is_char "-" x); reflexivity.
  - destruct (PyStr.is_char "-" x), (PyStr.is_char "-" y); reflexivity.
Qed.

Lemma star_dd fuel : forall n l,
  List.length l <= fuel ->
  star_aux (matchk dot) k_dd fuel (n, l) = line_has_dd l.
Proof.
  induction fuel as [|f IH]; intros n l Hlen.
  - destruct l; [|simpl in Hlen; lia]. reflexivity.
  - simpl star_aux. rewrite k_dd_eq. destruct l as [|x l'].
    + reflexivity.
    + cbn [matchk dot snd fst]. 
      replace (List.length l' <? List.length (x :: l')) with true
        by (symmetry; apply Nat.ltb_lt; simpl; lia).
      rewrite IH by (simpl in Hlen; lia).
      cbn [line_has_dd hyphen_next tl]. reflexivity.
Qed.

Lemma re_match_identifier s :
  re_match db_identifier_regex s
  = negb (line_has_dd (PyStr.chars s))
    && (match PyStr.chars s with
        | x :: l' => is_letter x && body 61 l'
        | [] => false
        end || body 61 (PyStr.chars s)).
Proof.
  set (l := PyStr.chars s).
  change (re_match db_identifier_regex s)
    with (negb (star_aux (matchk dot) k_dd (List.length l) (0, l))
          && (match l with
              | x :: l' =>
                  is_letter x && rep_aux (matchk (Cls is_idchar)) k_tail 0 61 (1, l')
              | [] => false
              end || rep_aux (matchk (Cls is_idchar)) k_tail 0 61 (0, l))).
  rewrite star_dd by lia. rewrite rep_body.
  destruct l; [reflexivity|]. now rewrite rep_body.
Qed.

Lemma at_eol_cases post : at_eol post = true -> post = [] \/ post = [newline].
Proof.
  destruct post as [|c [|d post]]; simpl; intros H; auto; [|discriminate].
  apply Ascii.eqb_eq in H. subst. auto.
Qed.

Lemma body_spec hi : forall l,
  body hi l = true <->
  exists pre x post,
    l = pre ++ x :: post /\ List.length pre <= hi
    /\ forallb is_idchar pre = true /\ is_alnum x = true /\ at_eol post = true.
Proof.
  assert (Htail : forall l, tail_ok l = true ->
            exists pre x post,
              l = pre ++ x :: post /\ List.length pre <= 0
              /\ forallb is_idchar pre = true /\ is_alnum x = true
              /\ at_eol post = true).
  { intros [|x post]; simpl; [discriminate|]. intros H.
    apply andb_true_iff in H. exists [], x, post. simpl. intuition. }
  induction hi as [|h IH]; intros l; simpl; split.
  - apply Htail.
  - intros [pre [x [post [E [Hl [_ [Hx Hp]]]]]]].
    destruct pre; [|simpl in Hl; lia]. subst l. simpl. now rewrite Hx, Hp.
  - intros H. apply orb_true_iff in H. destruct H as [H|H].
    + destruct l as [|a l']; [discriminate|].
      apply andb_true_iff in H. destruct H as [Ha H].
      apply IH in H. destruct H as [pre [x [post [E [Hl [Hpre [Hx Hp]]]]]]].
      exists (a :: pre), x, post. subst l'. simpl. rewrite Ha, Hpre.
      repeat split; auto. lia.
    + apply Htail in H. destruct H as [pre [x [post [E [Hl H]]]]].
      exists pre, x, post. repeat split; try tauto. lia.
  - intros [pre [x [post [E [Hl [Hpre [Hx Hp]]]]]]].
    destruct pre as [|a pre]; subst l; simpl.
    + rewrite Hx, Hp. apply orb_true_r.
    + simpl in Hpre. apply andb_true_iff in Hpre. destruct Hpre as [Ha Hpre].
      rewrite Ha. simpl.
      replace (body h (pre ++ x :: post)) with true; [reflexivity|].
      symmetry. apply IH. exists pre, x, post. simpl in Hl.
      repeat split; auto. lia.
Qed.

Lemma ends_with_snoc p pre x : Stated.ends_with p (pre ++ [x]) = p x.
Proof. unfold Stated.ends_with. now rewrite rev_unit. Qed.

Lemma ends_with_snoc2 p pre x y : Stated.ends_with p (pre ++ [x; y]) = p y.
Proof.
  unfold Stated.ends_with. 
  replace (pre ++ [x; y]) with ((pre ++ [x]) ++ [y]) by now rewrite <- app_assoc.
  now rewrite rev_unit.
Qed.

Lemma line_has_dd_idchars l :
  forallb is_idchar l = true -> line_has_dd l = Stated.has_double_hyphen l.
Proof.
  induction l as [|c t IH]; simpl; [reflexivity|].
  intros H. apply andb_true_iff in H. destruct H as [Hc Ht].
  rewrite (idchar_not_newline _ Hc), IH by exact Ht. simpl.
  apply orb_comm.
Qed.

Lemma validate_outcomes s :
  _validate_db_identifier s = Ok tt
  \/ _validate_db_identifier s = Raise InvalidDBInstanceIdentifier.
Proof.
  unfold _validate_db_identifier. rewrite re_match_identifier.
  destruct (PyStr.chars s) as [|c t].
  - rewrite andb_false_r. now right.
  - destruct (_ && _); [|now right]. destruct (PyStr.isalpha c); auto.
Qed.

Lemma valid_validates s :
  Stated.valid_db_identifier s = true -> _validate_db_identifier s = Ok tt.
Proof.
  unfold Stated.valid_db_identifier, _validate_db_identifier.
  rewrite re_match_identifier.
  set (l := PyStr.chars s). intros H.
  repeat (apply andb_true_iff in H; destruct H as [H ?]).
  destruct l as [|c t] eqn:El; [discriminate|].
  rename H0 into Hdd, H1 into Hend, H2 into Hfirst, H3 into Hall, H4 into Hmax.
  apply negb_true_iff in Hdd, Hend.
  rewrite (line_has_dd_idchars _ Hall), Hdd, Hfirst. cbn [negb andb].
  rewrite (letter_isalpha _ Hfirst).
  replace (body 61 t || body 61 (c :: t)) with true; [reflexivity|].
  symmetry. apply orb_true_iff.
  destruct (exists_last (l := c :: t)) as [pre [y E]]; [discriminate|].
  assert (Hy : is_alnum y = true).
  { rewrite E in Hall, Hend. rewrite ends_with_snoc in Hend.
    rewrite forallb_app in Hall. apply andb_true_iff in Hall.
    destruct Hall as [_ Hy]. simpl in Hy. rewrite andb_true_r in Hy.
    unfold is_idchar in Hy. rewrite Hend, orb_false_r in Hy. exact Hy. }
  destruct pre as [|c' pre].
  - right. apply body_spec. exists [], y, []. rewrite E. simpl.
    repeat split; auto. lia.
  - left. simpl in E. inversion E; subst c' t.
    apply body_spec. exists pre, y, []. 
    simpl in Hall.
    apply andb_true_iff in Hall. destruct Hall as [_ Hall].
    rewrite forallb_app in Hall. apply andb_true_iff in Hall.
    apply Nat.leb_le in Hmax. simpl in Hmax. rewrite length_app in Hmax.
    simpl in Hmax.
    repeat split; try tauto. lia.
Qed.

Lemma validates_valid s :
  Stated.ends_with_newline s = false ->
  _validate_db_identifier s = Ok tt -> Stated.valid_db_identifier s = true.
Proof.
  unfold Stated.valid_db_identifier, Stated.ends_with_newline, _validate_db_identifier.
  rewrite re_match_identifier.
  set (l := PyStr.chars s). intros Hnl H.
  destruct (negb (line_has_dd l) && _) eqn:Hre; [|discriminate].
  destruct l as [|c t] eqn:El; [discriminate|].
  destruct (PyStr.isalpha c) eqn:Hal; [|discriminate]. clear H.
  apply andb_true_iff in Hre. destruct Hre as [Hdd Hgrp].
  apply negb_true_iff in Hdd.
  assert (Hshape : exists P y,
             c :: t = P ++ [y] /\ List.length P <= 62
             /\ forallb is_idchar P = true /\ is_alnum y = true).
  { apply orb_true_iff in Hgrp. destruct Hgrp as [Hg|Hg].
    - apply andb_true_iff in Hg. destruct Hg as [Hc Hb].
      apply body_spec in Hb.
      destruct Hb as [pre [y [post [E [Hl [Hpre [Hy Hp]]]]]]].
      apply at_eol_cases in Hp. destruct Hp as [->| ->].
      + exists (c :: pre), y. rewrite E.
        split; [reflexivity|]. split; [simpl; lia|]. split; [|exact Hy].
        simpl. rewrite Hpre. unfold is_idchar, is_alnum. now rewrite Hc.
      + exfalso. rewrite E in Hnl.
        change (c :: pre ++ [y; newline]) with ((c :: pre) ++ [y; newline]) in Hnl.
        rewrite ends_with_snoc2, Ascii.eqb_refl in Hnl. discriminate.
    - apply body_spec in Hg.
      destruct Hg as [pre [y [post [E [Hl [Hpre [Hy Hp]]]]]]].
      apply at_eol_cases in Hp. destruct Hp as [->| ->].
      + exists pre, y. repeat split; auto; lia.
      + exfalso. rewrite E in Hnl.
        rewrite ends_with_snoc2, Ascii.eqb_refl in Hnl. discriminate.  }
  destruct Hshape as [P [y [E [Hl [HP Hy]]]]].
  assert (Hall : forallb is_idchar (c :: t) = true).
  { rewrite E, forallb_app, HP. simpl. unfold is_idchar. now rewrite Hy. }
  assert (Hc : is_letter c = true).
  { apply idchar_isalpha_letter; [|exact Hal].
    simpl in Hall. apply andb_true_iff in Hall. tauto. }
  rewrite <- (line_has_dd_idchars _ Hall), Hdd, Hall, Hc.
  rewrite E at 3. rewrite ends_with_snoc, (alnum_not_hyphen _ Hy).
  rewrite E, length_app. simpl.
  replace (List.length P + 1 <=? 63) with true by (symmetry; apply Nat.leb_le; lia).
  destruct (List.length P + 1) eqn:En; [lia|]. reflexivity.
Qed.

End IdentifierPattern.

Section ValidatedIdentifiers.

Import Re RDSBackend Pattern.

(** The text of an identifier that passes the validation. *)
Lemma validated_shape s :
  _validate_db_identifier s = Ok tt ->
  exists P y post,
    PyStr.chars s = P ++ y :: post
    /\ forallb is_idchar P = true /\ is_alnum y = true /\ at_eol post = true.
Proof.
  unfold _validate_db_identifier. rewrite re_match_identifier.
  set (l := PyStr.chars s). intros H.
  destruct (negb (line_has_dd l) && _) eqn:Hre; [|discriminate]. clear H.
  apply andb_true_iff in Hre. destruct Hre as [_ Hgrp].
  apply orb_true_iff in Hgrp. destruct Hgrp as [Hg|Hg].
  - destruct l as [|c t]; [discriminate|].
    apply andb_true_iff in Hg. destruct Hg as [Hc Hb].
    apply body_spec in Hb.
    destruct Hb as [pre [y [post [E [_ [Hpre [Hy Hp]]]]]]].
    exists (c :: pre), y, post. rewrite E.
    split; [reflexivity|]. split; [|tauto].
    simpl. rewrite Hpre. unfold is_idchar, is_alnum. now rewrite Hc.
  - apply body_spec in Hg.
    destruct Hg as [pre [y [post [E [_ [Hpre [Hy Hp]]]]]]].
    exists pre, y, post. tauto.
Qed.

Lemma colon_not_in_identifier c :
  is_idchar c = true \/ Ascii.eqb c newline = true -> c <> ":"%char.
Proof. intros H ->. destruct H as [H|H]; vm_compute in H; discriminate. Qed.

Lemma validated_no_colon s :
  _validate_db_identifier s = Ok tt -> ~ In ":"%char (PyStr.chars s).
Proof.
  intros H Hin. apply validated_shape in H.
  destruct H as [P [y [post [E [HP [Hy Hp]]]]]].
  rewrite E in Hin. apply in_app_or in Hin. destruct Hin as [Hin|[Hin|Hin]].
  - rewrite forallb_forall in HP. apply HP in Hin.
    now apply (@colon_not_in_identifier ":"%char); [left|].
  - subst y. vm_compute in Hy. discriminate.
  - apply at_eol_cases in Hp. destruct Hp as [->| ->]; [contradiction|].
    destruct Hin as [Hin|[]]. vm_compute in Hin. discriminate.
Qed.

(** A validated identifier is not the ARN of anything. *)
Lemma validated_not_arn b rtype rname s :
  _validate_db_identifier s = Ok tt -> RDSBaseModel.arn_format b rtype rname <> s.
Proof.
  intros H E. apply (validated_no_colon s H). rewrite <- E.
  unfold RDSBaseModel.arn_format. cbn. right. right. right. now left.
Qed.

End ValidatedIdentifiers.

(* ------------------------------------------------------------------ *)
(** * Looking instances up *)

Lemma filter_by_key (V : Type) (f : string * V -> bool) (l : Dict.t V) k v :
  Dict.wf l ->
  Dict.get k l = Some v ->
  (forall k' v', In (k', v') l -> f (k', v') = String.eqb k' k) ->
  filter f l = [(k, v)].
Proof.
  unfold Dict.wf, Dict.keys.
  induction l as [|[k0 v0] l IH]; simpl; intros Hwf Hget Hf; [discriminate|].
  inversion Hwf as [|? ? Hn Hd]; subst.
  rewrite (Hf k0 v0) by now left.
  destruct (String.eqb k0 k) eqn:E.
  - apply String.eqb_eq in E. subst k0. inversion Hget; subst v0. f_equal.
    assert (Hnone : forall l', (forall k' v', In (k', v') l' -> In k' (map fst l)) ->
                     (forall k' v', In (k', v') l' -> f (k', v') = String.eqb k' k) ->
                     filter f l' = []).
    { induction l' as [|[k1 v1] l' IH']; simpl; intros Hin Hf'; [reflexivity|].
      rewrite (Hf' k1 v1) by now left.
      destruct (String.eqb k1 k) eqn:E1.
      - apply String.eqb_eq in E1. subst k1. exfalso. apply Hn.
        apply (Hin k v1). now left.
      - apply IH'; intros; [eapply Hin | apply Hf']; right; eassumption. }
    apply Hnone.
    + intros k' v' H. apply in_map_iff. now exists (k', v').
    + intros k' v' H. apply Hf. now right.
  - apply IH; auto.
Qed.

(** In a backend keyed by identifier, a validated identifier that is a key
    resolves to the instance stored under it, and to nothing else. *)
Lemma describe_db_instances_existing b id d :
  Stated.databases_keyed b ->
  RDSBackend._validate_db_identifier id = Ok tt ->
  Dict.get id b.(Backend.databases) = Some d ->
  RDSBackend.describe_db_instances (Some id) b = Ok [(id, d)].
Proof.
  intros [Hwf Hkey] Hv Hget.
  unfold RDSBackend.describe_db_instances, RDSBackend.apply_filter.
  assert (Hne : String.eqb id "" = false).
  { destruct id; [vm_compute in Hv; discriminate | reflexivity]. }
  cbn [PyStr.truthy option_or]. rewrite Hne. cbn [negb].
  erewrite filter_by_key; [reflexivity | exact Hwf | exact Hget |].
  intros k' d' Hin. cbn [existsb snd PyStr.mem].
  rewrite (Hkey _ _ Hin).
  replace (String.eqb (RDSBackend.db_instance_arn b d') id) with false.
  - cbn. now rewrite !orb_false_r.
  - symmetry. apply String.eqb_neq. now apply validated_not_arn.
Qed.

(** ** Snapshots taken on the way *)

Lemma create_db_snapshot_effect X inst snap ty tags b r b' :
  RDSBackend.create_db_snapshot X inst snap ty tags b = (r, b') ->
  b'.(Backend.databases) = b.(Backend.databases)
  /\ b'.(Backend.clusters) = b.(Backend.clusters)
  /\ forall id op, r <> Raise (InvalidDBInstanceStateError id op).
Proof.
  unfold RDSBackend.create_db_snapshot, RDSBackend.snapshot_limit, PyInt.int.
  unfold_monad. intros H.
  repeat (break_in H; try discriminate).
  all: repeat match goal with
         | E : (_, _) = (_, _) |- _ => inversion E; subst; clear E
         end.
  all: repeat split; try discriminate.
  all: try (intros; discriminate).
Qed.

(* ------------------------------------------------------------------ *)
(** * Stopping and starting an instance *)

Lemma stop_db_instance_unfold X b id d snap :
  Stated.databases_keyed b ->
  RDSBackend._validate_db_identifier id = Ok tt ->
  Dict.get id b.(Backend.databases) = Some d ->
  d.(DBInstance.is_replica) = false ->
  d.(DBInstance.multi_az)
  && PyStr.startswith (PyStr.lower d.(DBInstance.engine)) "sqlserver" = false ->
  RDSBackend.stop_db_instance X id snap b
  = if negb (String.eqb d.(DBInstance.status) "available")
    then (Raise (InvalidDBInstanceStateError id "stop"), b)
    else
      let stopped := DBInstance.set_status "stopped" d in
      if PyStr.truthy snap
      then match RDSBackend.create_db_snapshot X (inl id) (option_or snap "")
                   "automated" None b with
           | (Ok _, b1) =>
               (Ok stopped,
                Backend.set_databases (Dict.set id stopped b1.(Backend.databases)) b1)
           | (Raise e, b1) => (Raise e, b1)
           end
      else (Ok stopped,
            Backend.set_databases (Dict.set id stopped b.(Backend.databases)) b).
Proof.
  intros Hk Hv Hget Hr Hm.
  pose proof (@describe_db_instances_existing b id d Hk Hv Hget) as Hd.
  unfold RDSBackend.stop_db_instance, RDSBackend.create_auto_snapshot,
    RDSBackend.store_database.
  unfold_monad. rewrite Hv, Hd. cbn [res_bind RDSBackend.first fst snd].
  rewrite Hr, Hm. cbn [orb].
  destruct (negb _); [reflexivity|].
  destruct (PyStr.truthy snap); [|reflexivity].
  destruct (RDSBackend.create_db_snapshot _ _ _ _ _ _) as [[sn|e] b1]; reflexivity.
Qed.

Lemma start_db_instance_unfold b id d :
  Stated.databases_keyed b ->
  RDSBackend._validate_db_identifier id = Ok tt ->
  Dict.get id b.(Backend.databases) = Some d ->
  RDSBackend.start_db_instance id b
  = if negb (String.eqb d.(DBInstance.status) "stopped")
    then (Raise (InvalidDBInstanceStateError id "start"), b)
    else
      let started := DBInstance.set_status "available" d in
      (Ok started,
       Backend.set_databases (Dict.set id started b.(Backend.databases)) b).
Proof.
  intros Hk Hv Hget.
  pose proof (@describe_db_instances_existing b id d Hk Hv Hget) as Hd.
  unfold RDSBackend.start_db_instance, RDSBackend.store_database.
  unfold_monad. rewrite Hv, Hd. cbn [res_bind RDSBackend.first fst snd].
  destruct (negb _); reflexivity.
Qed.

Lemma eqb_false_neq (s t : string) : negb (String.eqb s t) = true <-> s <> t.
Proof. rewrite negb_true_iff. apply String.eqb_neq. Qed.

(** C3, as amended.  Take an instance stored under its own identifier in a
    [databases] dictionary keyed by identifier, whose identifier passes
    [_validate_db_identifier].  If it is neither a read replica nor a
    multi-AZ SQL Server instance, [stop_db_instance] raises
    [InvalidDBInstanceStateError] exactly when its status is not
    ["available"], without changing the backend, and a successful call
    returns and stores the instance with status ["stopped"]; it succeeds
    whenever the status is ["available"] and no snapshot is asked for.
    [start_db_instance] raises [InvalidDBInstanceStateError] exactly when
    the status is not ["stopped"], and otherwise returns and stores the
    instance with status ["available"]. *)
Theorem stop_start_db_instance_spec X b id d :
  Stated.databases_keyed b ->
  RDSBackend._validate_db_identifier id = Ok tt ->
  Dict.get id b.(Backend.databases) = Some d ->
  (d.(DBInstance.is_replica) = false ->
   d.(DBInstance.multi_az)
   && PyStr.startswith (PyStr.lower d.(DBInstance.engine)) "sqlserver" = false ->
   forall snap,
     ((exists b', RDSBackend.stop_db_instance X id snap b
                  = (Raise (InvalidDBInstanceStateError id "stop"), b'))
      <-> d.(DBInstance.status) <> "available")
     /\ (d.(DBInstance.status) <> "available" ->
         RDSBackend.stop_db_instance X id snap b
         = (Raise (InvalidDBInstanceStateError id "stop"), b))
     /\ (forall d' b',
           RDSBackend.stop_db_instance X id snap b = (Ok d', b') ->
           d'.(DBInstance.status) = "stopped"
           /\ d' = DBInstance.set_status "stopped" d
           /\ Dict.get id b'.(Backend.databases) = Some d')
     /\ (d.(DBInstance.status) = "available" -> PyStr.truthy snap = false ->
         fst (RDSBackend.stop_db_instance X id snap b)
         = Ok (DBInstance.set_status "stopped" d)))
  /\ ((exists b', RDSBackend.start_db_instance id b
                  = (Raise (InvalidDBInstanceStateError id "start"), b'))
      <-> d.(DBInstance.status) <> "stopped")
  /\ (d.(DBInstance.status) <> "stopped" ->
      RDSBackend.start_db_instance id b
      = (Raise (InvalidDBInstanceStateError id "start"), b))
  /\ (forall d' b',
        RDSBackend.start_db_instance id b = (Ok d', b') ->
        d'.(DBInstance.status) = "available"
        /\ d' = DBInstance.set_status "available" d
        /\ Dict.get id b'.(Backend.databases) = Some d')
  /\ (d.(DBInstance.status) = "stopped" ->
      fst (RDSBackend.start_db_instance id b)
      = Ok (DBInstance.set_status "available" d)).
Proof.
  intros Hk Hv Hget. split.
  - intros Hr Hm snap.
    rewrite (@stop_db_instance_unfold X b id d snap Hk Hv Hget Hr Hm).
    destruct (negb (String.eqb (DBInstance.status d) "available")) eqn:Hs.
    + pose proof (proj1 (eqb_false_neq _ _) Hs) as Hne.
      split; [split; [intros _; exact Hne | intros _; now exists b]|].
      split; [reflexivity|]. split; [discriminate|]. intros He. congruence.
    + apply negb_false_iff, String.eqb_eq in Hs.
      cbv zeta. split.
      { split; [|congruence]. intros [b' H].
        destruct (PyStr.truthy snap); [|discriminate].
        destruct (RDSBackend.create_db_snapshot X (inl id) (option_or snap "")
                    "automated" None b) as [[sn|e] b1] eqn:E; [discriminate|].
        apply create_db_snapshot_effect in E. destruct E as [_ [_ E]].
        inversion H; subst. now elim (E id "stop"). }
      split; [congruence|]. split.
      { intros d' b' H. destruct (PyStr.truthy snap).
        - destruct (RDSBackend.create_db_snapshot X (inl id) (option_or snap "")
                      "automated" None b) as [[sn|e] b1] eqn:E; [|discriminate].
          inversion H; subst. cbn. repeat split. apply get_set_same.
        - inversion H; subst. cbn. repeat split. apply get_set_same. }
      intros _ Hsn. now rewrite Hsn.
  - rewrite (@start_db_instance_unfold b id d Hk Hv Hget).
    destruct (negb (String.eqb (DBInstance.status d) "stopped")) eqn:Hs.
    + pose proof (proj1 (eqb_false_neq _ _) Hs) as Hne.
      split; [split; [intros _; exact Hne | intros _; now exists b]|].
      split; [reflexivity|]. split; [discriminate|]. intros He. congruence.
    + apply negb_false_iff, String.eqb_eq in Hs. cbv zeta.
      split; [split; [intros [b' H]; discriminate | congruence]|].
      split; [congruence|]. split; [|reflexivity].
      intros d' b' H. inversion H; subst. cbn. repeat split. apply get_set_same.
Qed.

Lemma sample_databases_keyed : Stated.databases_keyed (Sample.cluster_with_member None).
Proof.
  split.
  - vm_compute. repeat constructor. intros [].
  - intros k d H. vm_compute in H. destruct H as [H|[]].
    inversion H. reflexivity.
Defined.

(** [stop_start_db_instance_spec] on the available instance ["db1"]:
    stopping succeeds and starting is refused. *)
Lemma stop_start_db_instance_spec_witness :
  exists d,
    Dict.get "db1" (Sample.cluster_with_member None).(Backend.databases) = Some d
    /\ d.(DBInstance.status) = "available"
    /\ fst (RDSBackend.stop_db_instance Sample.X "db1" None
              (Sample.cluster_with_member None))
       = Ok (DBInstance.set_status "stopped" d)
    /\ RDSBackend.start_db_instance "db1" (Sample.cluster_with_member None)
       = (Raise (InvalidDBInstanceStateError "db1" "start"),
          Sample.cluster_with_member None).
Proof.
  destruct (Dict.get "db1" (Sample.cluster_with_member None).(Backend.databases))
    as [d|] eqn:E; [|vm_compute in E; discriminate].
  exists d. split; [reflexivity|].
  assert (Hd : d.(DBInstance.status) = "available"
               /\ d.(DBInstance.is_replica) = false
               /\ d.(DBInstance.multi_az)
                  && PyStr.startswith (PyStr.lower d.(DBInstance.engine)) "sqlserver"
                  = false).
  { vm_compute in E. inversion E. repeat split. }
  destruct Hd as [Hs [Hr Hm]].
  destruct (@stop_start_db_instance_spec Sample.X (Sample.cluster_with_member None)
              "db1" d sample_databases_keyed eq_refl E)
    as [Hstop [_ [Hstart _]]].
  split; [exact Hs|]. split.
  - apply (proj2 (proj2 (proj2 (Hstop Hr Hm None)))); [exact Hs | reflexivity].
  - apply Hstart. rewrite Hs. discriminate.
Defined.

(** C3 as stated fails on an instance whose identifier does not pass the
    validation: after ["db1"] has been renamed to ["db--2"] the instance
    exists, is available, is no replica and is not multi-AZ, yet
    [start_db_instance] raises [InvalidDBInstanceIdentifier], not
    [InvalidDBInstanceStateError]. *)
Lemma start_db_instance_validates_first :
  let b := Sample.renamed "db--2" in
  is_ok (fst (RDSBackend.modify_db_instance Sample.X "db1"
                (Sample.rename_kwargs "db--2") (Sample.cluster_with_member None)))
  = true
  /\ option_map (fun d => (d.(DBInstance.status), d.(DBInstance.is_replica),
                           d.(DBInstance.multi_az)))
                (Dict.get "db--2" b.(Backend.databases))
     = Some ("available", false, false)
  /\ RDSBackend.start_db_instance "db--2" b = (Raise InvalidDBInstanceIdentifier, b)
  /\ forall b', RDSBackend.start_db_instance "db--2" b
                <> (Raise (InvalidDBInstanceStateError "db--2" "start"), b').
Proof.
  intros b.
  assert (E : RDSBackend.start_db_instance "db--2" b
              = (Raise InvalidDBInstanceIdentifier, b)) by (vm_compute; reflexivity).
  split; [vm_compute; reflexivity|]. split; [vm_compute; reflexivity|].
  split; [exact E|]. intros b'. rewrite E. discriminate.
Qed.

(* ------------------------------------------------------------------ *)
(** * Identifiers of instances *)

(** C4, as amended.  An identifier that satisfies the constraint (1 to 63
    letters, digits or hyphens, first a letter, last not a hyphen, no two
    hyphens in a row) passes [_validate_db_identifier].  For an identifier
    that does not end in a newline and does not satisfy it,
    [stop_db_instance], [start_db_instance] and [delete_db_instance] raise
    [InvalidDBInstanceIdentifier] and leave the backend alone, and so does
    [create_db_instance] unless the identifier is already a key of
    [databases], in which case it raises [DBInstanceAlreadyExists]. *)
Theorem db_identifier_validation_spec X id :
  (Stated.valid_db_identifier id = true ->
   RDSBackend._validate_db_identifier id = Ok tt)
  /\ (Stated.ends_with_newline id = false ->
      Stated.valid_db_identifier id = false ->
      RDSBackend._validate_db_identifier id = Raise InvalidDBInstanceIdentifier
      /\ forall b snap,
           RDSBackend.stop_db_instance X id snap b
           = (Raise InvalidDBInstanceIdentifier, b)
           /\ RDSBackend.start_db_instance id b
              = (Raise InvalidDBInstanceIdentifier, b)
           /\ RDSBackend.delete_db_instance X id snap b
              = (Raise InvalidDBInstanceIdentifier, b)
           /\ forall db_kwargs,
                db_kwargs.(DBInstanceKwargs.db_instance_identifier) = id ->
                RDSBackend.create_db_instance X db_kwargs b
                = if Dict.mem id b.(Backend.databases)
                  then (Raise DBInstanceAlreadyExists, b)
                  else (Raise InvalidDBInstanceIdentifier, b)).
Proof.
  split; [apply valid_validates|].
  intros Hnl Hinv.
  assert (Hr : RDSBackend._validate_db_identifier id = Raise InvalidDBInstanceIdentifier).
  { destruct (validate_outcomes id) as [H|H]; [|exact H].
    apply (validates_valid id Hnl) in H. congruence. }
  split; [exact Hr|]. intros b snap.
  unfold RDSBackend.stop_db_instance, RDSBackend.start_db_instance,
    RDSBackend.delete_db_instance, RDSBackend.create_db_instance.
  unfold_monad. rewrite Hr. repeat split.
  intros kw ->. destruct (Dict.mem _ _); [reflexivity|]. now rewrite Hr.
Qed.

(** [db_identifier_validation_spec] on ["db--2"], which has two hyphens in
    a row. *)
Lemma db_identifier_validation_spec_witness :
  Stated.ends_with_newline "db--2" = false
  /\ Stated.valid_db_identifier "db--2" = false
  /\ RDSBackend.stop_db_instance Sample.X "db--2" None Sample.empty
     = (Raise InvalidDBInstanceIdentifier, Sample.empty)
  /\ RDSBackend.create_db_instance Sample.X
       (Sample.instance_kwargs "db--2" "mysql" None) Sample.empty
     = (Raise InvalidDBInstanceIdentifier, Sample.empty)
  /\ RDSBackend._validate_db_identifier "db-2" = Ok tt.
Proof.
  split; [reflexivity|]. split; [reflexivity|].
  destruct (proj2 (db_identifier_validation_spec Sample.X "db--2") eq_refl eq_refl)
    as [_ H].
  destruct (H Sample.empty None) as [Hstop [_ [_ Hcreate]]].
  split; [exact Hstop|]. split.
  - exact (Hcreate (Sample.instance_kwargs "db--2" "mysql" None) eq_refl).
  - exact (proj1 (db_identifier_validation_spec Sample.X "db-2") eq_refl).
Defined.

(** C4 as stated fails twice.  [create_db_instance] looks the identifier
    up before it validates it, so the invalid identifier ["db--2"], once an
    instance has been renamed to it, raises [DBInstanceAlreadyExists].  And
    the identifier ["db1"] followed by a newline, which does not satisfy the
    constraint, passes the validation: [stop_db_instance] goes on to look
    the instance up. *)
Lemma invalid_identifier_not_rejected :
  let nl := String Re.newline "" in
  Stated.valid_db_identifier "db--2" = false
  /\ fst (RDSBackend.create_db_instance Sample.X
            (Sample.instance_kwargs "db--2" "mysql" None) (Sample.renamed "db--2"))
     = Raise DBInstanceAlreadyExists
  /\ Stated.valid_db_identifier ("db1" ++ nl) = false
  /\ RDSBackend._validate_db_identifier ("db1" ++ nl) = Ok tt
  /\ fst (RDSBackend.stop_db_instance Sample.X ("db1" ++ nl) None
            (Sample.cluster_with_member None))
     = Raise (DBInstanceNotFoundError ("db1" ++ nl)).
Proof.
  intros nl. repeat split; vm_compute; reflexivity.
Qed.

(* ------------------------------------------------------------------ *)
(** * Cluster members *)

Lemma set_In (V : Type) (l : Dict.t V) k v k' v' :
  In (k', v') (Dict.set k v l) -> (k', v') = (k, v) \/ In (k', v') l.
Proof.
  induction l as [|[k0 v0] l IH]; simpl.
  - intros [H|[]]; auto.
  - destruct (String.eqb k0 k); simpl; intros [H|H]; auto.
    apply IH in H. tauto.
Qed.

Lemma mem_set (V : Type) (l : Dict.t V) k v m :
  Dict.mem m l = true -> Dict.mem m (Dict.set k v l) = true.
Proof.
  intros H. apply mem_get. apply mem_get in H. destruct H as [x H].
  destruct (String.eqb m k) eqn:E.
  - apply String.eqb_eq in E. subst m. rewrite get_set_same. eauto.
  - apply String.eqb_neq in E. rewrite get_set_other by exact E. eauto.
Qed.

Lemma mem_set_same (V : Type) (l : Dict.t V) k v : Dict.mem k (Dict.set k v l) = true.
Proof. apply mem_get. rewrite get_set_same. eauto. Qed.

Lemma members_exist_spec b :
  Stated.members_exist b = true <->
  forall k c m, In (k, c) b.(Backend.clusters) ->
                In m c.(DBCluster.cluster_members) ->
                Dict.mem m b.(Backend.databases) = true.
Proof.
  unfold Stated.members_exist. rewrite forallb_forall. split.
  - intros H k c m Hin Hm. specialize (H (k, c) Hin). cbn in H.
    rewrite forallb_forall in H. now apply H.
  - intros H [k c] Hin. cbn. apply forallb_forall. intros m Hm. eapply H; eauto.
Qed.

(** [create_db_instance] keeps the member lists within the keys of
    [databases], whatever its outcome. *)
Lemma create_db_instance_members_exist X kw b r b' :
  Stated.members_exist b = true ->
  RDSBackend.create_db_instance X kw b = (r, b') ->
  Stated.members_exist b' = true.
Proof.
  intros Hinv. unfold RDSBackend.create_db_instance. unfold_monad. intros H.
  repeat (break_in H; try discriminate).
  all: repeat match goal with
         | E : (_, _) = (_, _) |- _ => inversion E; subst; clear E
         end.
  all: try exact Hinv.
  all: apply members_exist_spec; intros k c m Hin Hm; cbn in *.
  all: try (apply mem_set; eapply (proj1 (members_exist_spec b) Hinv); eassumption).
  apply set_In in Hin. destruct Hin as [Hin|Hin].
  - inversion Hin; subst. cbn in Hm. apply in_app_or in Hm.
    destruct Hm as [Hm|[Hm|[]]].
    + apply mem_set. eapply (proj1 (members_exist_spec b) Hinv); [|exact Hm].
      apply get_In. eassumption.
    + subst m. apply mem_set_same.
  - apply mem_set. eapply (proj1 (members_exist_spec b) Hinv); eassumption.
Qed.

Lemma list_remove_spec x l r :
  list_remove x l = Some r ->
  (forall y, In y r -> In y l) /\ (NoDup l -> ~ In x r).
Proof.
  revert r. induction l as [|y l IH]; simpl; intros r H; [discriminate|].
  destruct (String.eqb y x) eqn:E.
  - apply String.eqb_eq in E. subst y. inversion H; subst r.
    split; [auto|]. intros Hd. now inversion Hd.
  - destruct (list_remove x l) as [r'|]; [|discriminate].
    inversion H; subst r. destruct (IH r' eq_refl) as [H1 H2].
    split.
    + intros z [Hz|Hz]; [now left | right; now apply H1].
    + intros Hd. inversion Hd; subst. intros [Hz|Hz].
      * apply String.eqb_neq in E. congruence.
      * now apply H2.
Qed.

Lemma list_remove_None x l : list_remove x l = None -> ~ In x l.
Proof.
  induction l as [|y l IH]; simpl; intros H; [tauto|].
  destruct (String.eqb y x) eqn:E; [discriminate|].
  destruct (list_remove x l); [discriminate|].
  apply String.eqb_neq in E. intros [Hz|Hz]; [congruence | now apply IH].
Qed.

Lemma wf_In_get (V : Type) (l : Dict.t V) k v :
  Dict.wf l -> In (k, v) l -> Dict.get k l = Some v.
Proof.
  unfold Dict.wf, Dict.keys. induction l as [|[k0 v0] l IH]; simpl; intros Hd H; [contradiction|].
  inversion Hd as [|? ? Hn Hd']; subst.
  destruct H as [H|H].
  - inversion H; subst. now rewrite String.eqb_refl.
  - destruct (String.eqb k0 k) eqn:E.
    + apply String.eqb_eq in E. subst k0. exfalso. apply Hn.
      apply in_map_iff. now exists (k, v).
    + now apply IH.
Qed.

Lemma mem_remove_other (V : Type) (l : Dict.t V) k m :
  m <> k -> Dict.mem m l = true -> Dict.mem m (Dict.remove k l) = true.
Proof.
  intros Hne H. apply mem_get. apply mem_get in H. destruct H as [x H].
  rewrite get_remove_other by exact Hne. eauto.
Qed.

Lemma set_In_wf (V : Type) (l : Dict.t V) k v k' v' :
  Dict.wf l ->
  In (k', v') (Dict.set k v l) -> (k', v') = (k, v) \/ (In (k', v') l /\ k' <> k).
Proof.
  unfold Dict.wf, Dict.keys.
  induction l as [|[k0 v0] l IH]; simpl; intros Hd.
  - intros [H|[]]; auto.
  - inversion Hd as [|? ? Hn Hd']; subst.
    destruct (String.eqb k0 k) eqn:E; simpl; intros [H|H]; auto.
    + apply String.eqb_eq in E. subst k0. right. split; [now right|].
      intros ->. apply Hn. apply in_map_iff. now exists (k, v').
    + apply String.eqb_neq in E. inversion H; subst. right. split; [now left | exact E].
    + destruct (IH Hd' H) as [H'|[H' Hne]]; auto.
Qed.

(** [delete_db_instance] of an instance that is no replica keeps the member
    lists within the keys of [databases], whatever its outcome, when the
    lists are in step with the instances. *)
Lemma delete_db_instance_members_exist X id snap b r b' :
  Stated.cluster_members_wf b ->
  (forall d, Dict.get id b.(Backend.databases) = Some d ->
             d.(DBInstance.is_replica) = false) ->
  RDSBackend.delete_db_instance X id snap b = (r, b') ->
  Stated.members_exist b' = true.
Proof.
  intros [Hwf Hc] Hrep.
  assert (Hinv : forall k c m, In (k, c) b.(Backend.clusters) ->
                   In m c.(DBCluster.cluster_members) ->
                   Dict.mem m b.(Backend.databases) = true).
  { intros k c m Hin Hm. destruct (Hc k c Hin) as [_ H].
    destruct (H m Hm) as [d [Hd _]]. apply mem_get. eauto. }
  unfold RDSBackend.delete_db_instance, RDSBackend.create_auto_snapshot.
  unfold_monad. intros H.
  destruct (RDSBackend._validate_db_identifier id);
    [|inversion H; subst; now apply members_exist_spec].
  destruct (Dict.get id (Backend.databases b)) as [d|] eqn:Hget;
    [|inversion H; subst; now apply members_exist_spec].
  rewrite (Hrep d eq_refl) in H.
  destruct (DBInstance.deletion_protection d);
    [inversion H; subst; now apply members_exist_spec|].
  match type of H with
  | (let (_, _) := ?m b in _) = _ => destruct (m b) as [r1 b1] eqn:Hs
  end.
  assert (Hb1 : b1.(Backend.databases) = b.(Backend.databases)
                /\ b1.(Backend.clusters) = b.(Backend.clusters)).
  { destruct (PyStr.truthy snap); [|inversion Hs; subst; auto].
    destruct (RDSBackend.create_db_snapshot X (inl id) (option_or snap "")
                "automated" None b) as [r0 b0] eqn:E.
    apply create_db_snapshot_effect in E. destruct E as [E1 [E2 _]].
    destruct r0; inversion Hs; subst; auto. }
  destruct Hb1 as [Hd1 Hc1]. clear Hs.
  destruct r1 as [[]|e].
  2:{ inversion H; subst. apply members_exist_spec. now rewrite Hd1, Hc1. }
  cbn [Backend.clusters Backend.set_databases] in H.
  rewrite Hc1, Hd1 in H.
  assert (Hother : forall k c m, In (k, c) b.(Backend.clusters) ->
                     In m c.(DBCluster.cluster_members) ->
                     m <> id \/ (m = id /\ DBInstance.db_cluster_identifier d = Some k
                                 /\ Dict.get k b.(Backend.clusters) = Some c)).
  { intros k c m Hin Hm. destruct (String.eqb m id) eqn:E.
    - apply String.eqb_eq in E. subst m. right. split; [reflexivity|].
      destruct (Hc k c Hin) as [_ Hk]. destruct (Hk id Hm) as [d' [Hd' Hk']].
      split; [congruence | now apply wf_In_get].
    - left. now apply String.eqb_neq. }
  assert (Hkeep : forall k c m, In (k, c) b.(Backend.clusters) ->
                    In m c.(DBCluster.cluster_members) -> m <> id ->
                    Dict.mem m (Dict.remove id b.(Backend.databases)) = true).
  { intros k c m Hin Hm Hne. apply mem_remove_other; eauto. }
  destruct (DBInstance.db_cluster_identifier d) as [cid|] eqn:Hcid.
  2:{ inversion H; subst. apply members_exist_spec. cbn. rewrite Hc1.
      intros k c m Hin Hm. destruct (Hother k c m Hin Hm) as [Hne|[_ [Hk _]]];
        [eauto | discriminate]. }
  destruct (Dict.get cid (Backend.clusters b)) as [cluster|] eqn:Hgc.
  2:{ inversion H; subst. apply members_exist_spec. cbn. rewrite Hc1.
      intros k c m Hin Hm. destruct (Hother k c m Hin Hm) as [Hne|[_ [Hk Hg]]];
        [eauto | congruence]. }
  destruct (list_remove id (DBCluster.cluster_members cluster)) as [l|] eqn:Hl.
  2:{ inversion H; subst. apply members_exist_spec. cbn. rewrite Hc1.
      intros k c m Hin Hm. destruct (Hother k c m Hin Hm) as [Hne|[Hm' [Hk Hg]]];
        [eauto|]. exfalso. eapply list_remove_None; [exact Hl|].
      subst m. congruence. }
  inversion H; subst. apply members_exist_spec. cbn.
  intros k c m Hin Hm. eapply set_In_wf in Hin; [|exact Hwf].
  pose proof Hgc as Hinc. apply get_In in Hinc.
  pose proof Hl as Hl'. apply list_remove_spec in Hl'. destruct Hl' as [Hsub Hnot].
  destruct Hin as [Hin|[Hin Hk]].
  - inversion Hin; subst. cbn in Hm.
    apply (Hkeep cid cluster m Hinc (Hsub m Hm)).
    intros ->. apply Hnot; [|exact Hm]. now destruct (Hc cid cluster Hinc).
  - destruct (Hother k c m Hin Hm) as [Hne|[_ [Hk' _]]]; [eauto | congruence].
Qed.

(** C2 is violated by [modify_db_instance].  In a backend where the
    cluster ["c1"] has the one member ["db1"], so that every member is a
    key of [databases], deleting ["db1"] empties the member list, but
    renaming ["db1"] to ["db2"] succeeds, leaves ["db2"] as the only key of
    [databases] and ["db1"] in the member list: the member no longer names
    an instance. *)
Theorem rename_leaves_stale_cluster_member :
  let b := Sample.cluster_with_member None in
  let renamed := RDSBackend.modify_db_instance Sample.X "db1"
                   (Sample.rename_kwargs "db2") b in
  let deleted := RDSBackend.delete_db_instance Sample.X "db1" None b in
  Stated.members_exist b = true
  /\ is_ok (fst deleted) = true
  /\ option_map DBCluster.cluster_members
                (Dict.get "c1" (snd deleted).(Backend.clusters)) = Some []
  /\ Stated.members_exist (snd deleted) = true
  /\ is_ok (fst renamed) = true
  /\ Dict.keys (snd renamed).(Backend.databases) = ["db2"]
  /\ option_map DBCluster.cluster_members
                (Dict.get "c1" (snd renamed).(Backend.clusters)) = Some ["db1"]
  /\ Stated.members_exist (snd renamed) = false.
Proof.
  repeat split; vm_compute; reflexivity.
Qed.

(* ------------------------------------------------------------------ *)
(** * Removing and merging tags *)

Lemma remove_tags_unfold (old : Tags) (tag_keys : list string) :
  TaggingMixin.remove_tags old tag_keys
  = filter (fun t => negb (PyStr.mem (TaggingMixin.Key t) tag_keys)) old.
Proof. unfold TaggingMixin.remove_tags. apply coerce_Some. Qed.

(** X1.  [remove_tags] on a resource of any class keeps exactly the tags
    whose key is not among the keys given, so no tag with such a key is
    left and no other tag is lost; keys that were distinct stay distinct,
    the list does not grow, and removing the same keys again changes
    nothing. *)
Theorem remove_tags_spec (r : RDSBaseModel.resource) (tag_keys : list string) :
  let r' := RDSBaseModel.remove_tags tag_keys r in
  (forall k v, In (k, v) (RDSBaseModel.get_tags r')
               <-> In (k, v) (RDSBaseModel.get_tags r) /\ ~ In k tag_keys)
  /\ (NoDup (map TaggingMixin.Key (RDSBaseModel.get_tags r)) ->
      NoDup (map TaggingMixin.Key (RDSBaseModel.get_tags r')))
  /\ List.length (RDSBaseModel.get_tags r') <= List.length (RDSBaseModel.get_tags r)
  /\ RDSBaseModel.remove_tags tag_keys r' = r'.
Proof.
  unfold RDSBaseModel.remove_tags. cbv zeta.
  rewrite !get_set_tags, set_set_tags, !remove_tags_unfold.
  set (old := RDSBaseModel.get_tags r).
  split; [|split; [|split]].
  - intros k v. rewrite filter_In.
    rewrite (fresh_spec tag_keys (k, v)). reflexivity.
  - intros H. unfold TaggingMixin.Key in *. now apply filter_fresh_NoDup.
  - apply filter_length_le.
  - now rewrite (filter_fresh_idem tag_keys old).
Qed.

(** X2.  Tags added and then removed by their keys leave the resource as
    removing those keys alone does, and removing the keys first does not
    change what [add_tags] then stores and returns. *)
Theorem add_remove_tags_compose (r : RDSBaseModel.resource) (tags : Tags) :
  let keys := map TaggingMixin.Key tags in
  RDSBaseModel.remove_tags keys (fst (RDSBaseModel.add_tags tags r))
  = RDSBaseModel.remove_tags keys r
  /\ RDSBaseModel.add_tags tags (RDSBaseModel.remove_tags keys r)
     = RDSBaseModel.add_tags tags r.
Proof.
  cbv zeta. unfold RDSBaseModel.remove_tags, RDSBaseModel.add_tags. cbn [fst snd].
  rewrite !get_set_tags, !set_set_tags, !remove_tags_unfold, !add_tags_unfold.
  set (keys := map TaggingMixin.Key tags).
  set (old := RDSBaseModel.get_tags r).
  split.
  - f_equal. rewrite filter_app, (filter_fresh_idem keys old).
    rewrite (filter_fresh_none keys tags); [apply app_nil_r|].
    intros t Ht. apply in_map_iff. now exists t.
  - now rewrite (filter_fresh_idem keys old).
Qed.

(** ** Dictionaries built by assignments *)

Lemma get_app (V : Type) (l1 l2 : Dict.t V) k :
  Dict.get k (l1 ++ l2)
  = match Dict.get k l1 with Some v => Some v | None => Dict.get k l2 end.
Proof.
  induction l1 as [|[k0 v0] l1 IH]; simpl; [reflexivity|].
  destruct (String.eqb k0 k); [reflexivity | exact IH].
Qed.

Lemma get_None_keys (V : Type) (l : Dict.t V) k :
  Dict.get k l = None <-> ~ In k (Dict.keys l).
Proof.
  unfold Dict.keys. induction l as [|[k0 v0] l IH]; simpl; [tauto|].
  destruct (String.eqb k0 k) eqn:E.
  - apply String.eqb_eq in E. split; [discriminate | tauto].
  - apply String.eqb_neq in E. tauto.
Qed.

Lemma keys_set (V : Type) (l : Dict.t V) k v :
  Dict.keys (Dict.set k v l)
  = if Dict.mem k l then Dict.keys l else Dict.keys l ++ [k].
Proof.
  unfold Dict.keys, Dict.mem. induction l as [|[k0 v0] l IH]; simpl; [reflexivity|].
  destruct (String.eqb k0 k) eqn:E; simpl.
  - apply String.eqb_eq in E. now subst.
  - rewrite IH. now destruct (Dict.get k l).
Qed.

Lemma set_wf (V : Type) (l : Dict.t V) k v : Dict.wf l -> Dict.wf (Dict.set k v l).
Proof.
  unfold Dict.wf. rewrite keys_set. intros H.
  destruct (Dict.mem k l) eqn:E; [exact H|].
  apply NoDup_app; [exact H | repeat constructor; intros [] |].
  intros x Hx [Hk|[]]. subst x.
  unfold Dict.mem in E. destruct (Dict.get k l) eqn:G; [discriminate|].
  now apply get_None_keys in G.
Qed.

Lemma remove_wf (V : Type) (l : Dict.t V) k : Dict.wf l -> Dict.wf (Dict.remove k l).
Proof.
  unfold Dict.wf, Dict.keys. induction l as [|[k0 v0] l IH]; simpl; intros H; [constructor|].
  inversion H as [|? ? Hn Hd]; subst.
  destruct (String.eqb k0 k); simpl; [now apply IH|].
  constructor; [|now apply IH].
  intros Hin. apply Hn. clear -Hin.
  induction l as [|[k1 v1] l IH]; simpl in *; [contradiction|].
  destruct (String.eqb k1 k); simpl in *; tauto.
Qed.

Section FoldSet.

Variables (A V : Type) (key : A -> string) (val : A -> V).

Let assign (acc : Dict.t V) (a : A) : Dict.t V := Dict.set (key a) (val a) acc.

Lemma fold_set_wf (l : list A) : forall d,
  Dict.wf d -> Dict.wf (fold_left assign l d).
Proof.
  induction l as [|a l IH]; simpl; intros d H; [exact H|].
  apply IH. now apply set_wf.
Qed.

Lemma get_fold_set (l : list A) k : forall d,
  Dict.get k (fold_left assign l d)
  = match Dict.get k (rev (map (fun a => (key a, val a)) l)) with
    | Some v => Some v
    | None => Dict.get k d
    end.
Proof.
  induction l as [|a l IH]; simpl; intros d; [reflexivity|].
  rewrite IH, get_app. destruct (Dict.get k (rev _)); [reflexivity|].
  unfold assign. simpl. destruct (String.eqb (key a) k) eqn:E.
  - apply String.eqb_eq in E. subst k. apply get_set_same.
  - apply String.eqb_neq in E. apply get_set_other. congruence.
Qed.

End FoldSet.

Lemma wf_get_In (V : Type) (l : Dict.t V) k v :
  Dict.wf l -> (Dict.get k l = Some v <-> In (k, v) l).
Proof.
  intros H. split; [apply get_In | now apply wf_In_get].
Qed.

Lemma get_rev (V : Type) (l : Dict.t V) k :
  Dict.wf l -> Dict.get k (rev l) = Dict.get k l.
Proof.
  intros H.
  assert (Hr : Dict.wf (rev l)).
  { unfold Dict.wf, Dict.keys in *. rewrite map_rev. now apply NoDup_rev. }
  destruct (Dict.get k l) as [v|] eqn:E.
  - apply wf_In_get; [exact Hr|]. apply in_rev. rewrite rev_involutive.
    now apply get_In.
  - destruct (Dict.get k (rev l)) as [v|] eqn:E'; [|reflexivity].
    apply get_In in E'. apply in_rev in E'.
    apply wf_In_get in E'; [congruence | exact H].
Qed.

Lemma map_pair_id (V : Type) (l : Dict.t V) :
  map (fun kv => (fst kv, snd kv)) l = l.
Proof. induction l as [|[k v] l IH]; simpl; [reflexivity | now rewrite IH]. Qed.

Lemma tags_dict_wf (l : Tags) : Dict.wf (RDSMethods.tags_dict l).
Proof. unfold RDSMethods.tags_dict. apply fold_set_wf. constructor. Qed.

Lemma get_tags_dict (l : Tags) k :
  Dict.get k (RDSMethods.tags_dict l) = StatedMore.last_value k l.
Proof.
  unfold RDSMethods.tags_dict, StatedMore.last_value.
  rewrite (get_fold_set TaggingMixin.Key TaggingMixin.Value).
  change (map _ l) with (TaggingMixin.coerce (Some l)). rewrite coerce_Some.
  match goal with
  | |- match ?x with _ => _ end = _ => destruct x eqn:E; symmetry; exact E
  end.
Qed.

Lemma merge_tags_unfold (old new : Tags) :
  RDSMethods._merge_tags old new
  = RDSMethods.dict_update
      (RDSMethods.dict_update [] (RDSMethods.tags_dict old))
      (RDSMethods.tags_dict new).
Proof. unfold RDSMethods._merge_tags. apply map_pair_id. Qed.

Lemma get_dict_update (V : Type) (d other : Dict.t V) k :
  Dict.wf other ->
  Dict.get k (RDSMethods.dict_update d other)
  = match Dict.get k other with Some v => Some v | None => Dict.get k d end.
Proof.
  intros H. unfold RDSMethods.dict_update.
  rewrite (get_fold_set (@fst string V) (@snd string V)).
  now rewrite (map_pair_id other), get_rev.
Qed.

Lemma dict_update_wf (V : Type) (d other : Dict.t V) :
  Dict.wf d -> Dict.wf (RDSMethods.dict_update d other).
Proof. apply (fold_set_wf (@fst string V) (@snd string V)). Qed.

Lemma last_value_NoDup (l : Tags) k :
  NoDup (map TaggingMixin.Key l) -> StatedMore.last_value k l = Dict.get k l.
Proof. intros H. unfold StatedMore.last_value. now apply get_rev. Qed.

Lemma get_filter_fresh (keys : list string) (l : Tags) k :
  Dict.get k (filter (fun t => negb (PyStr.mem (TaggingMixin.Key t) keys)) l)
  = if PyStr.mem k keys then None else Dict.get k l.
Proof.
  induction l as [|[k0 v0] l IH]; cbn [filter Dict.get TaggingMixin.Key fst].
  - now destruct (PyStr.mem k keys).
  - destruct (String.eqb k0 k) eqn:E.
    + apply String.eqb_eq in E. subst k0.
      destruct (PyStr.mem k keys) eqn:M; cbn [negb Dict.get].
      * rewrite IH; try rewrite M; reflexivity.
      * now rewrite String.eqb_refl.
    + destruct (PyStr.mem k0 keys); cbn [negb Dict.get]; [exact IH|].
      now rewrite E.
Qed.

Lemma merge_tags_wf (old_tags new_tags : Tags) :
  NoDup (map TaggingMixin.Key (RDSMethods._merge_tags old_tags new_tags)).
Proof.
  rewrite merge_tags_unfold.
  apply (@dict_update_wf string), dict_update_wf. constructor.
Qed.

Lemma get_merge_tags (old_tags new_tags : Tags) k :
  Dict.get k (RDSMethods._merge_tags old_tags new_tags)
  = match StatedMore.last_value k new_tags with
    | Some v => Some v
    | None => StatedMore.last_value k old_tags
    end.
Proof.
  rewrite merge_tags_unfold.
  rewrite !get_dict_update by apply tags_dict_wf.
  rewrite !get_tags_dict. simpl.
  now destruct (StatedMore.last_value k new_tags),
               (StatedMore.last_value k old_tags).
Qed.

(** X3.  [_merge_tags] returns a list without repeated keys in which a key
    carries the value of its last tag among the new tags, or else of its
    last tag among the old ones; when neither list repeats a key, it holds
    the same tags as [add_tags] leaves, possibly in another order. *)
Theorem merge_tags_spec (old_tags new_tags : Tags) :
  let merged := RDSMethods._merge_tags old_tags new_tags in
  NoDup (map TaggingMixin.Key merged)
  /\ (forall k v, In (k, v) merged <->
        match StatedMore.last_value k new_tags with
        | Some v' => v = v'
        | None => StatedMore.last_value k old_tags = Some v
        end)
  /\ (NoDup (map TaggingMixin.Key old_tags) ->
      NoDup (map TaggingMixin.Key new_tags) ->
      forall k v, In (k, v) merged
                  <-> In (k, v) (TaggingMixin.add_tags old_tags new_tags)).
Proof.
  cbv zeta.
  pose proof (merge_tags_wf old_tags new_tags) as Hwf.
  pose proof (get_merge_tags old_tags new_tags) as Hget.
  set (merged := RDSMethods._merge_tags old_tags new_tags) in *.
  assert (Hin : forall k v, In (k, v) merged <->
             match StatedMore.last_value k new_tags with
             | Some v' => v = v'
             | None => StatedMore.last_value k old_tags = Some v
             end).
  { intros k v. rewrite <- (wf_get_In k v Hwf), Hget.
    destruct (StatedMore.last_value k new_tags); [|tauto].
    split; congruence. }
  split; [exact Hwf|]. split; [exact Hin|].
  intros Hold Hnew k v. rewrite Hin, add_tags_unfold.
  rewrite !last_value_NoDup by assumption.
  set (keys := map TaggingMixin.Key new_tags).
  assert (Hadd : Dict.wf (filter (fun t => negb (PyStr.mem (TaggingMixin.Key t) keys))
                                 old_tags ++ new_tags)).
  { unfold Dict.wf, Dict.keys. rewrite map_app. apply NoDup_app.
    - now apply filter_fresh_NoDup.
    - exact Hnew.
    - intros x Hx Hx'. apply filter_fresh_keys in Hx. tauto. }
  rewrite <- (wf_get_In k v Hadd), get_app, get_filter_fresh.
  destruct (Dict.get k new_tags) as [v'|] eqn:E.
  - assert (M : PyStr.mem k keys = true).
    { apply mem_In. apply get_In in E. apply in_map_iff. now exists (k, v'). }
    rewrite M. split; congruence.
  - assert (M : PyStr.mem k keys = false).
    { apply mem_false_In. now apply get_None_keys in E. }
    rewrite M. destruct (Dict.get k old_tags); tauto.
Qed.

(* ------------------------------------------------------------------ *)
(** * Tags of a resource found by its ARN *)

Lemma find_pointwise (A : Type) (f g : A -> bool) (l : list A) :
  (forall x, In x l -> f x = g x) -> find f l = find g l.
Proof.
  induction l as [|a l IH]; simpl; intros H; [reflexivity|].
  rewrite <- (H a) by now left. destruct (f a); [reflexivity|].
  apply IH. intros x Hx. apply H. now right.
Qed.

Lemma is_some_option_map (A B : Type) (f : A -> B) (o : option A) :
  is_some (option_map f o) = is_some o.
Proof. now destruct o. Qed.

Lemma In_get_some (V : Type) (d : Dict.t V) k v :
  In (k, v) d -> exists v', Dict.get k d = Some v'.
Proof.
  induction d as [|[k0 v0] d IH]; simpl; [contradiction|].
  intros H. destruct (String.eqb k0 k) eqn:E; [eauto|].
  destruct H as [H|H]; [|now apply IH].
  inversion H; subst. rewrite String.eqb_refl in E. discriminate.
Qed.

Section AssignAt.

Variables (V : Type) (key : string) (v : Tags) (set : Tags -> V -> V).

Lemma get_assign_at_same (d : Dict.t V) x :
  Dict.get key d = Some x ->
  Dict.get key (RDSBackend.assign_at key v set d) = Some (set v x).
Proof.
  intros H. unfold RDSBackend.assign_at. rewrite H. apply get_set_same.
Qed.

Lemma get_assign_at_other (d : Dict.t V) n :
  n <> key -> Dict.get n (RDSBackend.assign_at key v set d) = Dict.get n d.
Proof.
  intros H. unfold RDSBackend.assign_at.
  destruct (Dict.get key d); [now apply get_set_other | reflexivity].
Qed.

Lemma is_some_get_assign_at (d : Dict.t V) n :
  is_some (Dict.get n (RDSBackend.assign_at key v set d)) = is_some (Dict.get n d).
Proof.
  destruct (String.eqb n key) eqn:E.
  - apply String.eqb_eq in E. subst n.
    destruct (Dict.get key d) as [x|] eqn:G.
    + erewrite get_assign_at_same; [reflexivity | exact G].
    + unfold RDSBackend.assign_at. now rewrite G, G.
  - apply String.eqb_neq in E. now rewrite get_assign_at_other.
Qed.

(** A search that does not look at the tags finds the entry with the same
    key before and after the assignment. *)
Lemma find_assign_at (f : string * V -> bool) (d : Dict.t V) :
  (forall k x, f (k, set v x) = f (k, x)) ->
  option_map fst (find f (RDSBackend.assign_at key v set d))
  = option_map fst (find f d).
Proof.
  intros Hf. unfold RDSBackend.assign_at.
  destruct (Dict.get key d) as [x|] eqn:G; [|reflexivity].
  revert G. induction d as [|[k0 v0] d IH]; simpl; [discriminate|].
  destruct (String.eqb k0 key) eqn:E; intros G.
  - apply String.eqb_eq in E. subst k0. inversion G; subst v0.
    simpl. rewrite Hf. destruct (f (key, x)); reflexivity.
  - simpl. destruct (f (k0, v0)); [reflexivity | now apply IH].
Qed.

End AssignAt.

Section AssignTags.

Import RDSBackend.

Variables (k : resource_class) (key : string) (v : Tags) (b : Backend.t).

Lemma resources_get_assign_tags k' n :
  is_some (resources_get k' n (assign_tags k key v b))
  = is_some (resources_get k' n b).
Proof.
  destruct b; destruct k, k';
    cbn -[assign_at Dict.get]; rewrite !is_some_option_map;
    try reflexivity; apply is_some_get_assign_at.
Qed.

Lemma arn_format_assign_tags rtype rname :
  RDSBaseModel.arn_format (assign_tags k key v b) rtype rname
  = RDSBaseModel.arn_format b rtype rname.
Proof. destruct b; destruct k; reflexivity. Qed.

Lemma find_proxy_assign_tags (f : string -> bool) :
  option_map fst
    (find (fun kv : string * DBProxy.t => f (snd kv).(DBProxy.unique_id))
          (assign_tags k key v b).(Backend.db_proxies))
  = option_map fst
      (find (fun kv : string * DBProxy.t => f (snd kv).(DBProxy.unique_id))
            b.(Backend.db_proxies)).
Proof.
  destruct b; destruct k; cbn -[assign_at find]; try reflexivity.
  apply find_assign_at. intros k0 x. reflexivity.
Qed.

Lemma find_resource_assign_tags rtype rname :
  _find_resource rtype rname (assign_tags k key v b) = _find_resource rtype rname b.
Proof.
  unfold _find_resource.
  rewrite (@find_pointwise _
             (fun k0 => String.eqb rtype (class_resource_type k0)
                        && is_some (resources_get k0 rname (assign_tags k key v b)))
             (fun k0 => String.eqb rtype (class_resource_type k0)
                        && is_some (resources_get k0 rname b))).
  2: { intros x _. now rewrite resources_get_assign_tags. }
  destruct (find _ resource_map); [reflexivity|].
  destruct (String.eqb rtype "db-proxy"); [|reflexivity].
  pose proof (find_proxy_assign_tags
                (fun uid => PyStr.endswith (RDSBaseModel.arn_format b "db-proxy" uid)
                                           rname)) as H.
  cbv beta in H.
  match goal with
  | |- match find ?f ?l with _ => _ end = _ =>
      replace (find f l)
        with (find (fun kv : string * DBProxy.t =>
                      PyStr.endswith
                        (RDSBaseModel.arn_format b "db-proxy"
                           (snd kv).(DBProxy.unique_id)) rname) l)
  end.
  2: { apply find_pointwise. intros x _. now rewrite arn_format_assign_tags. }
  destruct (find _ (Backend.db_proxies (assign_tags k key v b))) as [kv|];
    destruct (find _ (Backend.db_proxies b)) as [kv'|];
    simpl in H; congruence.
Qed.

End AssignTags.

Lemma find_resource_stored rtype rname b h :
  RDSBackend._find_resource rtype rname b = Some h ->
  exists r, RDSBackend.resources_get (fst h) (snd h) b = Some r.
Proof.
  unfold RDSBackend._find_resource.
  destruct (find _ RDSBackend.resource_map) as [k|] eqn:F.
  - intros H. inversion H; subst h. apply find_some in F. destruct F as [_ F].
    apply andb_true_iff in F. destruct F as [_ F]. cbn [fst snd].
    destruct (RDSBackend.resources_get k rname b) as [r|]; [eauto | discriminate].
  - destruct (String.eqb rtype "db-proxy"); [|discriminate].
    destruct (find _ (Backend.db_proxies b)) as [[k0 x]|] eqn:F'; [|discriminate].
    intros H. inversion H; subst h. apply find_some in F'. destruct F' as [Hin _].
    apply In_get_some in Hin. destruct Hin as [x' G]. cbn [fst snd].
    unfold RDSBackend.resources_get. rewrite G. cbn. eauto.
Qed.

Lemma tags_of_assign_tags k key v b r :
  RDSBackend.resources_get k key b = Some r ->
  RDSBackend.tags_of (k, key) (RDSBackend.assign_tags k key v b) = v.
Proof.
  unfold RDSBackend.tags_of. cbn [fst snd].
  destruct b; destruct k; cbn -[RDSBackend.assign_at Dict.get]; intros H;
    match type of H with
    | option_map _ (Dict.get key ?d) = _ =>
        destruct (Dict.get key d) as [x|] eqn:G; [|discriminate]
    end;
    (erewrite get_assign_at_same; [reflexivity | exact G]).
Qed.

(** X4.  Tags added through the ARN of a resource are what a following
    [list_tags_for_resource] on that ARN returns: when
    [add_tags_to_resource] returns a list, listing the tags of the same
    ARN in the state it leaves returns that list and changes nothing. *)
Theorem add_then_list_tags X arn tags b out b' :
  RDSBackend.add_tags_to_resource X arn tags b = (Ok out, b') ->
  RDSBackend.list_tags_for_resource X arn b' = (Ok out, b').
Proof.
  unfold RDSBackend.add_tags_to_resource, RDSBackend.list_tags_for_resource.
  destruct (Re.re_match (RDSBackend.arn_regex X) arn) eqn:Hm;
    [|unfold_monad; discriminate].
  destruct (arn_regex_parts X arn Hm) as [rtype [rname [H1 H2]]].
  unfold_monad. rewrite H1, H2. cbn [fst snd].
  destruct (RDSBackend._find_resource rtype rname b) as [[k key]|] eqn:F.
  - cbn [fst snd]. intros H. inversion H; subst out b'. clear H.
    rewrite find_resource_assign_tags, F.
    pose proof F as Hr. apply find_resource_stored in Hr.
    destruct Hr as [r Hr]. cbn [fst snd] in Hr.
    erewrite tags_of_assign_tags; [reflexivity | exact Hr].
  - intros H. inversion H; subst out b'. now rewrite F.
Qed.

(** X5.  Tags removed through the ARN of a resource are gone from what
    [list_tags_for_resource] returns afterwards: when
    [remove_tags_from_resource] returns, the tags listed for the ARN in the
    state it leaves are those listed before without the ones whose key was
    given, so none of them has such a key. *)
Theorem remove_then_list_tags X arn tag_keys b b' :
  RDSBackend.remove_tags_from_resource X arn tag_keys b = (Ok tt, b') ->
  exists old,
    RDSBackend.list_tags_for_resource X arn b = (Ok old, b)
    /\ RDSBackend.list_tags_for_resource X arn b'
       = (Ok (TaggingMixin.remove_tags old tag_keys), b')
    /\ forall k v, In (k, v) (TaggingMixin.remove_tags old tag_keys) ->
                   In (k, v) old /\ ~ In k tag_keys.
Proof.
  unfold RDSBackend.remove_tags_from_resource, RDSBackend.list_tags_for_resource.
  destruct (Re.re_match (RDSBackend.arn_regex X) arn) eqn:Hm;
    [|unfold_monad; discriminate].
  destruct (arn_regex_parts X arn Hm) as [rtype [rname [H1 H2]]].
  unfold_monad. rewrite H1. cbn [fst snd].
  assert (Hkeys : forall old k v,
             In (k, v) (TaggingMixin.remove_tags old tag_keys) ->
             In (k, v) old /\ ~ In k tag_keys).
  { intros old k v. rewrite remove_tags_unfold, filter_In.
    now rewrite (fresh_spec tag_keys (k, v)). }
  destruct (RDSBackend._find_resource rtype rname b) as [[k key]|] eqn:F.
  - cbn [fst snd]. intros H. inversion H; subst b'. clear H.
    exists (RDSBackend.tags_of (k, key) b). split; [reflexivity|].
    split; [|apply Hkeys].
    rewrite find_resource_assign_tags, F.
    pose proof F as Hr. apply find_resource_stored in Hr.
    destruct Hr as [r Hr]. cbn [fst snd] in Hr.
    erewrite tags_of_assign_tags; [reflexivity | exact Hr].
  - intros H. inversion H; subst b'. exists []. rewrite F.
    split; [reflexivity|]. split; [reflexivity | apply Hkeys].
Qed.

(* ------------------------------------------------------------------ *)
(** * Tagging by ARN: which resource the methods reach *)

(** No two classes of [resource_map] have the same resource type, so a
    resource stored under the name in the class of the type is the one
    that [_find_resource] returns. *)
Lemma find_resource_class rtype rname b k r :
  RDSBackend.class_resource_type k = rtype ->
  RDSBackend.resources_get k rname b = Some r ->
  RDSBackend._find_resource rtype rname b = Some (k, rname).
Proof.
  intros Ht Hr. subst rtype. unfold RDSBackend._find_resource.
  assert (Hf : find (fun k0 =>
                       String.eqb (RDSBackend.class_resource_type k)
                                  (RDSBackend.class_resource_type k0)
                       && is_some (RDSBackend.resources_get k0 rname b))
                    RDSBackend.resource_map = Some k).
  { destruct k; cbn -[RDSBackend.resources_get]; rewrite Hr; reflexivity. }
  now rewrite Hf.
Qed.

Lemma find_filter (A : Type) (f : A -> bool) (l : list A) :
  find f l = match filter f l with x :: _ => Some x | [] => None end.
Proof.
  induction l as [|a l IH]; simpl; [reflexivity|].
  destruct (f a); [reflexivity | exact IH].
Qed.

Lemma proxy_arn_ends_with_unfold b rname kv :
  Stated.proxy_arn_ends_with b rname kv
  = PyStr.endswith (RDSBaseModel.arn_format b "db-proxy" (snd kv).(DBProxy.unique_id))
                   rname.
Proof. reflexivity. Qed.

(** When the type and the name stand for no stored resource,
    [_find_resource] finds none. *)
Lemma find_resource_none rtype rname b :
  Stated.resources_named rtype rname b = [] ->
  RDSBackend._find_resource rtype rname b = None.
Proof.
  unfold Stated.resources_named. intros H.
  apply app_eq_nil in H. destruct H as [Hc Hp].
  unfold RDSBackend._find_resource.
  assert (Hf : find (fun k => String.eqb rtype (RDSBackend.class_resource_type k)
                              && is_some (RDSBackend.resources_get k rname b))
                    RDSBackend.resource_map = None).
  { destruct (find _ RDSBackend.resource_map) as [k|] eqn:F; [|reflexivity].
    exfalso. apply find_some in F. destruct F as [Hin F].
    apply andb_true_iff in F. destruct F as [Ht Hs].
    rewrite String.eqb_sym in Ht.
    assert (Hk : In k RDSBackend.resource_map /\
                 (if String.eqb (RDSBackend.class_resource_type k) rtype
                  then match RDSBackend.resources_get k rname b with
                       | Some r => [r]
                       | None => []
                       end
                  else []) <> []).
    { split; [exact Hin|]. rewrite Ht.
      destruct (RDSBackend.resources_get k rname b); [discriminate|discriminate]. }
    destruct Hk as [_ Hk]. apply Hk.
    destruct (if String.eqb (RDSBackend.class_resource_type k) rtype
              then _ else _) as [|r0 l0] eqn:E; [reflexivity|].
    exfalso.
    assert (Hin' : In r0 (flat_map
              (fun k0 => if String.eqb (RDSBackend.class_resource_type k0) rtype
                         then match RDSBackend.resources_get k0 rname b with
                              | Some r => [r]
                              | None => []
                              end
                         else []) RDSBackend.resource_map)).
    { apply in_flat_map. exists k. split; [exact Hin|]. rewrite E. now left. }
    rewrite Hc in Hin'. exact Hin'. }
  rewrite Hf.
  destruct (String.eqb rtype "db-proxy"); [|reflexivity].
  apply map_eq_nil in Hp.
  rewrite (@find_pointwise _ _ (Stated.proxy_arn_ends_with b rname))
    by (intros x _; now rewrite proxy_arn_ends_with_unfold).
  now rewrite find_filter, Hp.
Qed.

Lemma resources_get_assign_tags_same k key v b r :
  RDSBackend.resources_get k key b = Some r ->
  RDSBackend.resources_get k key (RDSBackend.assign_tags k key v b)
  = Some (RDSBaseModel.set_tags v r).
Proof.
  destruct b; destruct k; cbn -[RDSBackend.assign_at Dict.get]; intros H;
    match type of H with
    | option_map _ (Dict.get key ?d) = _ =>
        destruct (Dict.get key d) as [x|] eqn:G; [|discriminate]
    end;
    (erewrite get_assign_at_same; [|exact G]);
    cbn in H |- *; inversion H; reflexivity.
Qed.

Lemma tags_of_stored k key b r :
  RDSBackend.resources_get k key b = Some r ->
  RDSBackend.tags_of (k, key) b = RDSBaseModel.get_tags r.
Proof. unfold RDSBackend.tags_of. cbn [fst snd]. now intros ->. Qed.

(** C10, as amended.  On an ARN that does not match [arn_regex] the three
    tagging methods raise [RDSClientError] with the code
    [InvalidParameterValue] and leave the backend alone.  On an ARN that
    matches, none of them raises, and they look the resource up by the
    last two parts of the ARN alone, its resource type and its name,
    whatever partition, region and account it carries.  When the type and
    the name stand for no stored resource, [list_tags_for_resource] and
    [add_tags_to_resource] return the empty list,
    [remove_tags_from_resource] returns, and the backend is unchanged.
    When a resource of the class with that type is stored under the name,
    the methods read and change the tags of that resource: the list
    returned is its tag list, and the tags added or left are stored on
    it.  When the type is ["db-proxy"], nothing is stored under the name
    and the ARN of some proxy ends with the name, the list returned is the
    tag list of the first such proxy. *)
Theorem tags_by_arn_spec X arn b :
  (Re.re_match (RDSBackend.arn_regex X) arn = false ->
   forall tag_keys tags,
     RDSBackend.list_tags_for_resource X arn b
     = (Raise (RDSClientError "InvalidParameterValue"), b)
     /\ RDSBackend.remove_tags_from_resource X arn tag_keys b
        = (Raise (RDSClientError "InvalidParameterValue"), b)
     /\ RDSBackend.add_tags_to_resource X arn tags b
        = (Raise (RDSClientError "InvalidParameterValue"), b))
  /\ (Re.re_match (RDSBackend.arn_regex X) arn = true ->
      exists rtype rname,
        RDSBackend.arn_type_and_name arn = Ok (rtype, rname)
        /\ (forall tag_keys tags,
              is_ok (fst (RDSBackend.list_tags_for_resource X arn b)) = true
              /\ is_ok (fst (RDSBackend.remove_tags_from_resource X arn tag_keys b))
                 = true
              /\ is_ok (fst (RDSBackend.add_tags_to_resource X arn tags b)) = true)
        /\ (Stated.resources_named rtype rname b = [] ->
            forall tag_keys tags,
              RDSBackend.list_tags_for_resource X arn b = (Ok [], b)
              /\ RDSBackend.remove_tags_from_resource X arn tag_keys b = (Ok tt, b)
              /\ RDSBackend.add_tags_to_resource X arn tags b = (Ok [], b))
        /\ (forall k r,
              RDSBackend.class_resource_type k = rtype ->
              RDSBackend.resources_get k rname b = Some r ->
              forall tag_keys tags,
                RDSBackend.list_tags_for_resource X arn b
                = (Ok (RDSBaseModel.get_tags r), b)
                /\ (exists b',
                      RDSBackend.remove_tags_from_resource X arn tag_keys b
                      = (Ok tt, b')
                      /\ RDSBackend.resources_get k rname b'
                         = Some (RDSBaseModel.remove_tags tag_keys r))
                /\ (exists b',
                      RDSBackend.add_tags_to_resource X arn tags b
                      = (Ok (snd (RDSBaseModel.add_tags tags r)), b')
                      /\ RDSBackend.resources_get k rname b'
                         = Some (fst (RDSBaseModel.add_tags tags r))))
        /\ (rtype = "db-proxy" ->
            Dict.get rname b.(Backend.db_proxies) = None ->
            forall kv rest,
              filter (Stated.proxy_arn_ends_with b rname) b.(Backend.db_proxies)
              = kv :: rest ->
              Dict.get (fst kv) b.(Backend.db_proxies) = Some (snd kv) ->
              RDSBackend.list_tags_for_resource X arn b
              = (Ok (snd kv).(DBProxy.tags), b))).
Proof.
  unfold RDSBackend.list_tags_for_resource, RDSBackend.remove_tags_from_resource,
    RDSBackend.add_tags_to_resource.
  split; intros Hm; rewrite Hm.
  - intros. repeat split.
  - destruct (arn_regex_parts X arn Hm) as [rtype [rname [H1 H2]]].
    exists rtype, rname. split; [exact H1|].
    unfold_monad. rewrite H1, H2. cbn [fst snd]. split; [|split; [|split]].
    + intros tag_keys tags.
      destruct (RDSBackend._find_resource rtype rname b); repeat split.
    + intros Hnone tag_keys tags.
      rewrite (@find_resource_none rtype rname b Hnone). repeat split.
    + intros k r Ht Hr tag_keys tags.
      rewrite (@find_resource_class rtype rname b k r Ht Hr). cbn [fst snd].
      rewrite (@tags_of_stored k rname b r Hr).
      split; [reflexivity|]. split.
      * eexists. split; [reflexivity|].
        now apply resources_get_assign_tags_same.
      * eexists. split; [reflexivity|].
        now apply resources_get_assign_tags_same.
    + intros Ht Hfree kv rest Hf Hkv. subst rtype.
      unfold RDSBackend._find_resource.
      assert (Hc : find (fun k => String.eqb "db-proxy" (RDSBackend.class_resource_type k)
                                  && is_some (RDSBackend.resources_get k rname b))
                        RDSBackend.resource_map = None).
      { cbn -[Dict.get]. now rewrite Hfree. }
      rewrite Hc. cbn [String.eqb Ascii.eqb Bool.eqb].
      rewrite (@find_pointwise _ _ (Stated.proxy_arn_ends_with b rname))
        by (intros x _; now rewrite proxy_arn_ends_with_unfold).
      rewrite find_filter, Hf. unfold RDSBackend.tags_of. cbn [fst snd].
      unfold RDSBackend.resources_get. now rewrite Hkv.
Qed.

(** [tags_by_arn_spec] on an ARN of another service, on the ARN of an
    instance that is not stored, and on the ARN of the instance ["db1"]. *)
Lemma tags_by_arn_spec_witness :
  RDSBackend.list_tags_for_resource Sample.X
    "arn:aws:s3:us-east-1:123456789012:db:db9" (Sample.cluster_with_member None)
  = (Raise (RDSClientError "InvalidParameterValue"), Sample.cluster_with_member None)
  /\ RDSBackend.arn_type_and_name "arn:aws:rds:us-east-1:123456789012:db:db9"
     = Ok ("db", "db9")
  /\ Stated.resources_named "db" "db9" (Sample.cluster_with_member None) = []
  /\ RDSBackend.add_tags_to_resource Sample.X
       "arn:aws:rds:us-east-1:123456789012:db:db9" [("env", "dev")]
       (Sample.cluster_with_member None)
     = (Ok [], Sample.cluster_with_member None)
  /\ fst (RDSBackend.add_tags_to_resource Sample.X
            "arn:aws:rds:us-east-1:123456789012:db:db1" [("env", "dev")]
            (Sample.cluster_with_member None))
     = Ok [("env", "dev")].
Proof.
  split.
  - exact (proj1 (proj1 (tags_by_arn_spec Sample.X
                           "arn:aws:s3:us-east-1:123456789012:db:db9"
                           (Sample.cluster_with_member None)) eq_refl [] [])).
  - split; [reflexivity|]. split; [reflexivity|]. split.
    + destruct (proj2 (tags_by_arn_spec Sample.X
                         "arn:aws:rds:us-east-1:123456789012:db:db9"
                         (Sample.cluster_with_member None)) eq_refl)
        as (rtype & rname & H1 & _ & H3 & _).
      vm_compute in H1. inversion H1; subst rtype rname.
      exact (proj2 (proj2 (H3 eq_refl [] [("env", "dev")]))).
    + destruct (proj2 (tags_by_arn_spec Sample.X
                         "arn:aws:rds:us-east-1:123456789012:db:db1"
                         (Sample.cluster_with_member None)) eq_refl)
        as (rtype & rname & H1 & _ & _ & H4 & _).
      vm_compute in H1. inversion H1; subst rtype rname.
      destruct (Dict.get "db1" (Sample.cluster_with_member None).(Backend.databases))
        as [d|] eqn:E; [|vm_compute in E; discriminate].
      assert (Ht : d.(DBInstance.tags) = []).
      { vm_compute in E. inversion E. reflexivity. }
      assert (Hr : RDSBackend.resources_get RDSBackend.ClsDBInstance "db1"
                     (Sample.cluster_with_member None)
                   = Some (RDSBaseModel.IsDBInstance d)).
      { unfold RDSBackend.resources_get. now rewrite E. }
      destruct (H4 RDSBackend.ClsDBInstance (RDSBaseModel.IsDBInstance d) eq_refl Hr
                   [] [("env", "dev")])
        as (_ & _ & b' & Hadd & _).
      rewrite Hadd. cbn. now rewrite Ht.
Defined.

(** The claim of C10 fails as it stands.  The ARN below carries another
    region and another account than the backend; it matches the pattern
    and is the ARN of no stored resource.  Yet [add_tags_to_resource]
    returns the tags given instead of the empty list and stores them on the
    instance ["db1"] of the backend, where [list_tags_for_resource] then
    finds them, and [remove_tags_from_resource] takes them off again. *)
Lemma foreign_arn_reaches_stored_resource :
  let arn := "arn:aws:rds:eu-west-1:999999999999:db:db1" in
  let b := Sample.cluster_with_member None in
  let added := RDSBackend.add_tags_to_resource Sample.X arn [("env", "dev")] b in
  Re.re_match (RDSBackend.arn_regex Sample.X) arn = true
  /\ Stated.names_stored_resource b arn = false
  /\ Stated.names_stored_resource b "arn:aws:rds:us-east-1:123456789012:db:db1"
     = true
  /\ fst added = Ok [("env", "dev")]
  /\ option_map DBInstance.tags (Dict.get "db1" b.(Backend.databases)) = Some []
  /\ option_map DBInstance.tags (Dict.get "db1" (snd added).(Backend.databases))
     = Some [("env", "dev")]
  /\ fst (RDSBackend.list_tags_for_resource Sample.X arn (snd added))
     = Ok [("env", "dev")]
  /\ option_map DBInstance.tags
       (Dict.get "db1"
          (snd (RDSBackend.remove_tags_from_resource Sample.X arn ["env"]
                  (snd added))).(Backend.databases))
     = Some [].
Proof.
  repeat split; vm_compute; reflexivity.
Qed.

(* ------------------------------------------------------------------ *)
(** * Snapshot ARNs *)

Lemma chars_app (s t : string) :
  PyStr.chars (s ++ t)%string = PyStr.chars s ++ PyStr.chars t.
Proof.
  unfold PyStr.chars. induction s as [|c s IH]; simpl; [reflexivity | now rewrite IH].
Qed.

Lemma of_chars_chars (s : string) : PyStr.of_chars (PyStr.chars s) = s.
Proof. apply string_of_list_ascii_of_string. Qed.

Lemma split_chars_no_sep sep l :
  ~ In sep l -> PyStr.split_chars sep l = [l].
Proof.
  induction l as [|c l IH]; simpl; intros H; [reflexivity|].
  destruct (Ascii.eqb c sep) eqn:E.
  - apply Ascii.eqb_eq in E. subst c. exfalso. apply H. now left.
  - rewrite IH; [reflexivity|]. intros Hin. apply H. now right.
Qed.

Lemma split_chars_app sep l1 l2 :
  ~ In sep l1 ->
  PyStr.split_chars sep (l1 ++ sep :: l2) = l1 :: PyStr.split_chars sep l2.
Proof.
  induction l1 as [|c l1 IH]; simpl; intros H.
  - now rewrite Ascii.eqb_refl.
  - destruct (Ascii.eqb c sep) eqn:E.
    + apply Ascii.eqb_eq in E. subst c. exfalso. apply H. now left.
    + rewrite IH; [reflexivity|]. intros Hin. apply H. now right.
Qed.

Lemma split_part (s t : string) :
  StatedMore.no_colon s ->
  PyStr.split ":"%char (s ++ ":" ++ t)%string = s :: PyStr.split ":"%char t.
Proof.
  intros H. unfold PyStr.split. rewrite chars_app.
  change (PyStr.chars (":" ++ t)) with (":"%char :: PyStr.chars t).
  rewrite split_chars_app by exact H. simpl. now rewrite of_chars_chars.
Qed.

Lemma split_last (s : string) :
  StatedMore.no_colon s -> PyStr.split ":"%char s = [s].
Proof.
  intros H. unfold PyStr.split. rewrite split_chars_no_sep by exact H.
  simpl. now rewrite of_chars_chars.
Qed.

Lemma no_colon_literal (s : string) :
  forallb (fun c => negb (Ascii.eqb c ":"%char)) (PyStr.chars s) = true ->
  StatedMore.no_colon s.
Proof.
  intros H Hin. rewrite forallb_forall in H. apply H in Hin.
  rewrite Ascii.eqb_refl in Hin. discriminate.
Qed.

(** The parts of the ARN of a resource. *)
Lemma split_arn_format b rtype rname :
  StatedMore.no_colon b.(Backend.partition) ->
  StatedMore.no_colon b.(Backend.region_name) ->
  StatedMore.no_colon b.(Backend.account_id) ->
  StatedMore.no_colon rtype ->
  PyStr.split ":"%char (RDSBaseModel.arn_format b rtype rname)
  = "arn" :: b.(Backend.partition) :: "rds" :: b.(Backend.region_name)
    :: b.(Backend.account_id) :: rtype :: PyStr.split ":"%char rname.
Proof.
  intros Hp Hr Ha Ht. unfold RDSBaseModel.arn_format.
  change ("arn:" ++ ?x)%string with ("arn" ++ ":" ++ x)%string.
  rewrite split_part by (now apply no_colon_literal).
  change (":rds:" ++ ?x)%string with (":" ++ "rds" ++ ":" ++ x)%string.
  rewrite split_part by exact Hp.
  rewrite split_part by (now apply no_colon_literal).
  now rewrite !split_part by assumption.
Qed.

(** X6.  The name of a snapshot is read back from its ARN: when the
    partition, the region and the account of the backend and the type and
    the name of a resource have no colon, [extract_snapshot_name_from_arn]
    on the ARN of that resource returns the name for the type ["snapshot"]
    and raises [InvalidParameterValue] for any other type. *)
Theorem extract_snapshot_name_round_trip b rtype rname :
  StatedMore.no_colon b.(Backend.partition) ->
  StatedMore.no_colon b.(Backend.region_name) ->
  StatedMore.no_colon b.(Backend.account_id) ->
  StatedMore.no_colon rtype ->
  StatedMore.no_colon rname ->
  RDSMethods.extract_snapshot_name_from_arn
    (RDSBaseModel.arn_format b rtype rname) b
  = if String.eqb rtype "snapshot" then Ok rname else Raise InvalidParameterValue.
Proof.
  intros Hp Hr Ha Ht Hn. unfold RDSMethods.extract_snapshot_name_from_arn.
  cbv zeta. rewrite split_arn_format by assumption.
  rewrite split_last by exact Hn. cbn [skipn firstn].
  destruct (String.eqb rtype "snapshot"); [|reflexivity].
  now rewrite !String.eqb_refl.
Qed.

(* ------------------------------------------------------------------ *)
(** * Snapshot identifiers *)

Section SnapshotIdentifiers.

Import Re RDSBackend Pattern.

Lemma re_match_snapshot_identifier s :
  re_match RDSMethods.db_snapshot_identifier_regex s
  = StatedMore.matches_identifier 253 (PyStr.chars s).
Proof.
  unfold StatedMore.matches_identifier.
  set (l := PyStr.chars s).
  change (re_match RDSMethods.db_snapshot_identifier_regex s)
    with (negb (star_aux (matchk dot) k_dd (List.length l) (0, l))
          && (match l with
              | x :: l' =>
                  is_letter x && rep_aux (matchk (Cls is_idchar)) k_tail 0 253 (1, l')
              | [] => false
              end || rep_aux (matchk (Cls is_idchar)) k_tail 0 253 (0, l))).
  rewrite star_dd by lia. rewrite rep_body.
  destruct l; [reflexivity|]. now rewrite rep_body.
Qed.

(** A text that satisfies the constraint is matched, and starts with a
    letter. *)
Lemma valid_matches hi l :
  StatedMore.valid_identifier (hi + 2) l = true ->
  StatedMore.matches_identifier hi l = true
  /\ match l with c :: _ => PyStr.isalpha c = true | [] => False end.
Proof.
  unfold StatedMore.valid_identifier, StatedMore.matches_identifier. intros H.
  repeat (apply andb_true_iff in H; destruct H as [H ?]).
  destruct l as [|c t] eqn:El; [discriminate|].
  rename H0 into Hdd, H1 into Hend, H2 into Hfirst, H3 into Hall, H4 into Hmax.
  apply negb_true_iff in Hdd, Hend.
  rewrite (line_has_dd_idchars _ Hall), Hdd, Hfirst. cbn [negb andb].
  split; [|now apply letter_isalpha].
  apply orb_true_iff.
  destruct (exists_last (l := c :: t)) as [pre [y E]]; [discriminate|].
  assert (Hy : is_alnum y = true).
  { rewrite E in Hall, Hend. rewrite ends_with_snoc in Hend.
    rewrite forallb_app in Hall. apply andb_true_iff in Hall.
    destruct Hall as [_ Hy]. simpl in Hy. rewrite andb_true_r in Hy.
    unfold is_idchar in Hy. rewrite Hend, orb_false_r in Hy. exact Hy. }
  destruct pre as [|c' pre].
  - right. apply body_spec. exists [], y, []. rewrite E. simpl.
    repeat split; auto. lia.
  - left. simpl in E. inversion E; subst c' t.
    apply body_spec. exists pre, y, [].
    simpl in Hall.
    apply andb_true_iff in Hall. destruct Hall as [_ Hall].
    rewrite forallb_app in Hall. apply andb_true_iff in Hall.
    apply Nat.leb_le in Hmax. simpl in Hmax. rewrite length_app in Hmax.
    simpl in Hmax.
    repeat split; try tauto. lia.
Qed.

(** A matched text that starts with a letter and does not end in a newline
    satisfies the constraint. *)
Lemma matches_valid hi l :
  Stated.ends_with (fun c => Ascii.eqb c newline) l = false ->
  StatedMore.matches_identifier hi l = true ->
  match l with c :: _ => PyStr.isalpha c = true | [] => False end ->
  StatedMore.valid_identifier (hi + 2) l = true.
Proof.
  unfold StatedMore.valid_identifier, StatedMore.matches_identifier.
  intros Hnl Hre Hal.
  destruct l as [|c t] eqn:El; [contradiction|].
  apply andb_true_iff in Hre. destruct Hre as [Hdd Hgrp].
  apply negb_true_iff in Hdd.
  assert (Hshape : exists P y,
             c :: t = P ++ [y] /\ List.length P <= hi + 1
             /\ forallb is_idchar P = true /\ is_alnum y = true).
  { apply orb_true_iff in Hgrp. destruct Hgrp as [Hg|Hg].
    - apply andb_true_iff in Hg. destruct Hg as [Hc Hb].
      apply body_spec in Hb.
      destruct Hb as [pre [y [post [E [Hl [Hpre [Hy Hp]]]]]]].
      apply at_eol_cases in Hp. destruct Hp as [->| ->].
      + exists (c :: pre), y. rewrite E.
        split; [reflexivity|]. split; [simpl; lia|]. split; [|exact Hy].
        simpl. rewrite Hpre. unfold is_idchar, is_alnum. now rewrite Hc.
      + exfalso. rewrite E in Hnl.
        change (c :: pre ++ [y; newline]) with ((c :: pre) ++ [y; newline]) in Hnl.
        rewrite ends_with_snoc2, Ascii.eqb_refl in Hnl. discriminate.
    - apply body_spec in Hg.
      destruct Hg as [pre [y [post [E [Hl [Hpre [Hy Hp]]]]]]].
      apply at_eol_cases in Hp. destruct Hp as [->| ->].
      + exists pre, y. repeat split; auto; lia.
      + exfalso. rewrite E in Hnl.
        rewrite ends_with_snoc2, Ascii.eqb_refl in Hnl. discriminate.  }
  destruct Hshape as [P [y [E [Hl [HP Hy]]]]].
  assert (Hall : forallb is_idchar (c :: t) = true).
  { rewrite E, forallb_app, HP. simpl. unfold is_idchar. now rewrite Hy. }
  assert (Hc : is_letter c = true).
  { apply idchar_isalpha_letter; [|exact Hal].
    simpl in Hall. apply andb_true_iff in Hall. tauto. }
  rewrite <- (line_has_dd_idchars _ Hall), Hdd, Hall, Hc.
  rewrite E at 3. rewrite ends_with_snoc, (alnum_not_hyphen _ Hy).
  rewrite E, length_app. simpl.
  replace (List.length P + 1 <=? hi + 2) with true by (symmetry; apply Nat.leb_le; lia).
  destruct (List.length P + 1) eqn:En; [lia|]. reflexivity.
Qed.

End SnapshotIdentifiers.

(** X7.  [validate_db_snapshot_identifier] accepts every identifier that
    satisfies the constraint on snapshot identifiers (1 to 255 letters,
    digits or hyphens, first a letter, last not a hyphen, no two hyphens in
    a row); an identifier that does not end in a newline and does not
    satisfy it is rejected with [InvalidDBSnapshotIdentifier], which
    carries the identifier and the parameter name; and the method never
    ends in any other way, in particular never in the [IndexError] of an
    empty identifier. *)
Theorem snapshot_identifier_validation (id parameter_name : string) :
  (StatedMore.valid_db_snapshot_identifier id = true ->
   RDSMethods.validate_db_snapshot_identifier id parameter_name = Returned tt)
  /\ (Stated.ends_with_newline id = false ->
      StatedMore.valid_db_snapshot_identifier id = false ->
      RDSMethods.validate_db_snapshot_identifier id parameter_name
      = RaisedMore (InvalidDBSnapshotIdentifier id parameter_name))
  /\ (RDSMethods.validate_db_snapshot_identifier id parameter_name = Returned tt
      \/ RDSMethods.validate_db_snapshot_identifier id parameter_name
         = RaisedMore (InvalidDBSnapshotIdentifier id parameter_name)).
Proof.
  unfold RDSMethods.validate_db_snapshot_identifier,
    StatedMore.valid_db_snapshot_identifier, Stated.ends_with_newline.
  rewrite re_match_snapshot_identifier.
  set (l := PyStr.chars id).
  split; [|split].
  - intros H. change 255 with (253 + 2) in H.
    apply valid_matches in H. destruct H as [Hm Hc].
    rewrite Hm. destruct l as [|c t]; [contradiction|]. now rewrite Hc.
  - intros Hnl Hv.
    destruct (StatedMore.matches_identifier 253 l) eqn:Hm; [|reflexivity].
    destruct l as [|c t] eqn:El; [discriminate|].
    destruct (PyStr.isalpha c) eqn:Hc; [|reflexivity].
    pose proof (@matches_valid 253 (c :: t) Hnl Hm Hc) as Hv'.
    change (253 + 2) with 255 in Hv'. congruence.
  - destruct (StatedMore.matches_identifier 253 l) eqn:Hm; [|now right].
    destruct l as [|c t]; [discriminate|].
    destruct (PyStr.isalpha c); auto.
Qed.

(* ------------------------------------------------------------------ *)
(** * Creating and deleting snapshots *)

Section DictRoundTrips.

Variable V : Type.
Implicit Types (d : Dict.t V) (k : string) (v : V).

Lemma remove_set_fresh d k v :
  Dict.get k d = None -> Dict.remove k (Dict.set k v d) = d.
Proof.
  induction d as [|[k0 v0] d IH]; simpl; intros H.
  - now rewrite String.eqb_refl.
  - destruct (String.eqb k0 k) eqn:E; [discriminate|]. simpl.
    now rewrite E, IH.
Qed.

Lemma set_get_same d k v : Dict.get k d = Some v -> Dict.set k v d = d.
Proof.
  induction d as [|[k0 v0] d IH]; simpl; intros H; [discriminate|].
  destruct (String.eqb k0 k) eqn:E.
  - apply String.eqb_eq in E. inversion H. now subst.
  - now rewrite IH.
Qed.

Lemma set_set_same d k v v' : Dict.set k v (Dict.set k v' d) = Dict.set k v d.
Proof.
  induction d as [|[k0 v0] d IH]; simpl.
  - now rewrite String.eqb_refl.
  - destruct (String.eqb k0 k) eqn:E; simpl.
    + now rewrite String.eqb_refl.
    + now rewrite E, IH.
Qed.

Lemma mem_false_get d k : Dict.mem k d = false <-> Dict.get k d = None.
Proof. unfold Dict.mem. destruct (Dict.get k d); split; congruence. Qed.

Lemma len_set_fresh d k v :
  Dict.get k d = None -> Dict.len (Dict.set k v d) = S (Dict.len d).
Proof.
  unfold Dict.len. induction d as [|[k0 v0] d IH]; simpl; intros H; [reflexivity|].
  destruct (String.eqb k0 k); [discriminate|]. simpl. now rewrite IH.
Qed.

End DictRoundTrips.

(** Assignments to the dictionaries of the backend. *)
Lemma set_database_snapshots_twice v w b :
  Backend.set_database_snapshots v (Backend.set_database_snapshots w b)
  = Backend.set_database_snapshots v b.
Proof. reflexivity. Qed.

Lemma set_database_snapshots_same b :
  Backend.set_database_snapshots b.(Backend.database_snapshots) b = b.
Proof. now destruct b. Qed.

Lemma set_cluster_snapshots_same b :
  Backend.set_cluster_snapshots b.(Backend.cluster_snapshots) b = b.
Proof. now destruct b. Qed.

Lemma set_databases_same b : Backend.set_databases b.(Backend.databases) b = b.
Proof. now destruct b. Qed.

Lemma set_clusters_same b : Backend.set_clusters b.(Backend.clusters) b = b.
Proof. now destruct b. Qed.

Lemma set_option_groups_same b :
  Backend.set_option_groups b.(Backend.option_groups) b = b.
Proof. now destruct b. Qed.

Lemma set_subnet_groups_same b :
  Backend.set_subnet_groups b.(Backend.subnet_groups) b = b.
Proof. now destruct b. Qed.

(** The tags setter, where a computation has unfolded it. *)
Ltac fold_coerce :=
  repeat match goal with
         | |- context [map (fun tag : Tag =>
                              (TaggingMixin.Key tag, TaggingMixin.Value tag)) ?l] =>
             change (map (fun tag : Tag =>
                            (TaggingMixin.Key tag, TaggingMixin.Value tag)) l)
               with (TaggingMixin.coerce (Some l));
             rewrite (coerce_Some l)
         end.

(** What a successful [create_db_snapshot] has done. *)
Lemma create_db_snapshot_ok X inst snap ty tags b s b' :
  RDSBackend.create_db_snapshot X inst snap ty tags b = (Ok s, b') ->
  Dict.get snap b.(Backend.database_snapshots) = None
  /\ (exists d,
        match inst with
        | inl id => Dict.get id b.(Backend.databases) = Some d
        | inr d0 => d0 = d
        end
        /\ s = {| DBSnapshot.snapshot_id := snap;
                  DBSnapshot.snapshot_type := ty;
                  DBSnapshot.tags :=
                    match option_or tags [] with
                    | [] => if d.(DBInstance.copy_tags_to_snapshot)
                            then d.(DBInstance.tags) else []
                    | t :: l => t :: l
                    end;
                  DBSnapshot.status := "available" |})
  /\ b' = Backend.set_database_snapshots
            (Dict.set snap s b.(Backend.database_snapshots)) b.
Proof.
  unfold RDSBackend.create_db_snapshot. unfold_monad. intros H.
  destruct (Dict.mem snap (Backend.database_snapshots b)) eqn:Hm.
  { repeat (break_in H; try discriminate). }
  apply mem_false_get in Hm.
  destruct (RDSBackend.snapshot_limit X) as [limit|e] eqn:Hl.
  2: { repeat (break_in H; try discriminate). }
  destruct (limit <=? Z.of_nat (Dict.len (Backend.database_snapshots b)))%Z eqn:Hq.
  { repeat (break_in H; try discriminate). }
  split; [exact Hm|].
  destruct inst as [id|d0].
  - destruct (Dict.get id (Backend.databases b)) as [d|] eqn:Hd; [|discriminate].
    inversion H; subst s b'. clear H. fold_coerce.
    split; [|reflexivity]. exists d. split; [reflexivity|].
    destruct (option_or tags []); reflexivity.
  - inversion H; subst s b'. clear H. fold_coerce.
    split; [|reflexivity]. exists d0. split; [reflexivity|].
    destruct (option_or tags []); reflexivity.
Qed.

(** X8.  A snapshot that [create_db_snapshot] has created is a new one and
    can be deleted again: the identifier was not in use before, the
    snapshot returned is the one stored under it, with the identifier and
    the type given; it is made of the instance given or stored under the
    identifier given, and has the tags given or, when none are given, the
    tags that this instance has at that time if it copies its tags to
    snapshots; and [delete_db_snapshot] returns it and leaves the backend
    exactly as it was before the creation. *)
Theorem create_delete_db_snapshot X inst snap ty tags b s b' :
  RDSBackend.create_db_snapshot X inst snap ty tags b = (Ok s, b') ->
  RDSMethods.delete_db_snapshot snap b
  = (RaisedMore (DBSnapshotNotFoundError snap), b)
  /\ Dict.get snap b'.(Backend.database_snapshots) = Some s
  /\ s.(DBSnapshot.snapshot_id) = snap
  /\ s.(DBSnapshot.snapshot_type) = ty
  /\ (exists d,
        match inst with
        | inl id => Dict.get id b.(Backend.databases) = Some d
        | inr d0 => d0 = d
        end
        /\ s.(DBSnapshot.tags)
           = match option_or tags [] with
             | [] => if d.(DBInstance.copy_tags_to_snapshot)
                     then d.(DBInstance.tags) else []
             | t :: l => t :: l
             end)
  /\ RDSMethods.delete_db_snapshot snap b' = (Returned s, b).
Proof.
  intros H. apply create_db_snapshot_ok in H.
  destruct H as [Hfresh [[d [Hd Hs]] Hb]].
  unfold RDSMethods.delete_db_snapshot. rewrite Hfresh.
  split; [reflexivity|].
  assert (Hget : Dict.get snap (Backend.database_snapshots b') = Some s).
  { rewrite Hb. destruct b. cbn. apply get_set_same. }
  rewrite Hget. split; [reflexivity|].
  split; [now rewrite Hs|]. split; [now rewrite Hs|].
  split; [exists d; split; [exact Hd | now rewrite Hs]|].
  f_equal. rewrite Hb. destruct b. cbn.
  now rewrite remove_set_fresh.
Qed.

(** What a successful [_create_db_cluster_snapshot] has done. *)
Lemma _create_db_cluster_snapshot_ok X c snap ty tags b s b' :
  RDSBackend._create_db_cluster_snapshot X c snap ty tags b = (Ok s, b') ->
  Dict.get snap b.(Backend.cluster_snapshots) = None
  /\ s = {| DBClusterSnapshot.cluster := c;
            DBClusterSnapshot.snapshot_id := snap;
            DBClusterSnapshot.snapshot_type := ty;
            DBClusterSnapshot.tags := tags;
            DBClusterSnapshot.status := "available" |}
  /\ b' = Backend.set_cluster_snapshots
            (Dict.set snap s b.(Backend.cluster_snapshots)) b.
Proof.
  unfold RDSBackend._create_db_cluster_snapshot. unfold_monad. intros H.
  destruct (Dict.mem snap (Backend.cluster_snapshots b)) eqn:Hm; [discriminate|].
  apply mem_false_get in Hm.
  destruct (RDSBackend.snapshot_limit X) as [limit|e]; [|discriminate].
  destruct (limit <=? _)%Z; [discriminate|].
  inversion H; subst s b'. clear H. fold_coerce. auto.
Qed.

(** X9.  [copy_db_cluster_snapshot] raises
    [DBClusterSnapshotNotFoundError] for a source that is not stored and
    then changes nothing.  A copy it returns is a manual snapshot of the
    cluster of the source, stored under the target identifier beside the
    source; it carries the tags of the source when no tags are given, and
    otherwise the tags of the source merged with the given ones, no key
    twice and a given value taking the place of the source's; deleting the
    copy again leaves the backend as it was. *)
Theorem copy_db_cluster_snapshot_spec X src tgt tags b :
  (Dict.get src b.(Backend.cluster_snapshots) = None ->
   RDSMethods.copy_db_cluster_snapshot X src tgt tags b
   = (RaisedMore (DBClusterSnapshotNotFoundError src), b))
  /\ forall s b',
       RDSMethods.copy_db_cluster_snapshot X src tgt tags b = (Returned s, b') ->
       exists source,
         Dict.get src b.(Backend.cluster_snapshots) = Some source
         /\ s.(DBClusterSnapshot.cluster) = source.(DBClusterSnapshot.cluster)
         /\ s.(DBClusterSnapshot.snapshot_id) = tgt
         /\ s.(DBClusterSnapshot.snapshot_type) = "manual"
         /\ (tags = None ->
             s.(DBClusterSnapshot.tags) = source.(DBClusterSnapshot.tags))
         /\ (forall new_tags, tags = Some new_tags ->
               NoDup (map TaggingMixin.Key s.(DBClusterSnapshot.tags))
               /\ forall k,
                    Dict.get k s.(DBClusterSnapshot.tags)
                    = match StatedMore.last_value k new_tags with
                      | Some v => Some v
                      | None =>
                          StatedMore.last_value k source.(DBClusterSnapshot.tags)
                      end)
         /\ Dict.get tgt b'.(Backend.cluster_snapshots) = Some s
         /\ Dict.get src b'.(Backend.cluster_snapshots) = Some source
         /\ RDSMethods.delete_db_cluster_snapshot tgt b' = (Returned s, b).
Proof.
  unfold RDSMethods.copy_db_cluster_snapshot. split.
  - intros H. now rewrite H.
  - intros s b'.
    destruct (Dict.get src (Backend.cluster_snapshots b)) as [source|] eqn:Hsrc;
      [|discriminate].
    destruct (RDSBackend._create_db_cluster_snapshot _ _ _ _ _ _) as [r b1] eqn:Hc.
    destruct r as [s1|e]; cbn [outcome_of]; [|discriminate].
    intros H. inversion H; subst s1 b1. clear H.
    apply _create_db_cluster_snapshot_ok in Hc. destruct Hc as [Hfresh [Hs Hb]].
    exists source. split; [reflexivity|].
    assert (Hne : src <> tgt) by congruence.
    assert (Hget : Dict.get tgt (Backend.cluster_snapshots b') = Some s).
    { rewrite Hb. destruct b. cbn. apply get_set_same. }
    assert (Htags : DBClusterSnapshot.tags s
                    = match tags with
                      | None => DBClusterSnapshot.tags source
                      | Some new_tags =>
                          RDSMethods._merge_tags (DBClusterSnapshot.tags source)
                                                 new_tags
                      end) by now rewrite Hs.
    split; [now rewrite Hs|]. split; [now rewrite Hs|]. split; [now rewrite Hs|].
    split; [intros ->; exact Htags|].
    split.
    { intros new_tags ->. rewrite Htags.
      split; [apply merge_tags_wf | intros k; apply get_merge_tags]. }
    split; [exact Hget|].
    split.
    { rewrite Hb. destruct b. cbn in *. now rewrite get_set_other. }
    unfold RDSMethods.delete_db_cluster_snapshot. rewrite Hget. f_equal.
    rewrite Hb. destruct b. cbn in *. now rewrite remove_set_fresh.
Qed.

(* ------------------------------------------------------------------ *)
(** * The life of a DB instance *)

(** What [DBInstance.__init__] leaves in the attributes that the
    operations read. *)
Lemma DBInstance_init_ok X b kw d :
  RDSBackend.DBInstance_init X b kw = Ok d ->
  d.(DBInstance.db_instance_identifier) = kw.(DBInstanceKwargs.db_instance_identifier)
  /\ d.(DBInstance.status) = "available"
  /\ d.(DBInstance.is_replica) = false
  /\ d.(DBInstance.replicas) = []
  /\ d.(DBInstance.db_cluster_identifier) = kw.(DBInstanceKwargs.db_cluster_identifier)
  /\ d.(DBInstance.deletion_protection)
     = truthy_bool kw.(DBInstanceKwargs.deletion_protection)
  /\ Some d.(DBInstance.engine) = kw.(DBInstanceKwargs.engine).
Proof.
  unfold RDSBackend.DBInstance_init, res_bind. intros H.
  repeat (break_in H; try discriminate).
  all: inversion H; subst; cbn; repeat split; reflexivity.
Qed.

Lemma create_db_instance_ok X kw b d b' :
  RDSBackend.create_db_instance X kw b = (Ok d, b') ->
  let id := kw.(DBInstanceKwargs.db_instance_identifier) in
  Dict.get id b.(Backend.databases) = None
  /\ RDSBackend._validate_db_identifier id = Ok tt
  /\ RDSBackend.DBInstance_init X b kw = Ok d
  /\ (forall cid c,
        d.(DBInstance.db_cluster_identifier) = Some cid ->
        Dict.get cid b.(Backend.clusters) = Some c ->
        d.(DBInstance.engine) = c.(DBCluster.engine))
  /\ b' = Backend.set_databases
            (Dict.set id d b.(Backend.databases))
            (StatedMore.with_member id d.(DBInstance.db_cluster_identifier) b).
Proof.
  unfold RDSBackend.create_db_instance, StatedMore.with_member. unfold_monad.
  intros H. cbv zeta.
  destruct (Dict.mem _ (Backend.databases b)) eqn:Hm; [discriminate|].
  apply mem_false_get in Hm.
  destruct (RDSBackend._validate_db_identifier _) as [[]|e]; [|discriminate].
  destruct (RDSBackend.DBInstance_init X b kw) as [d0|e]; [|discriminate].
  repeat (break_in H; try discriminate).
  all: inversion H; subst; repeat split; auto.
  all: try (intros cid c Hc Hg; congruence).
  all: repeat match goal with
         | E : DBInstance.db_cluster_identifier _ = _ |- _ => rewrite E
         | E : Dict.get _ (Backend.clusters _) = _ |- _ => rewrite E
         end; try reflexivity.
  intros cid c Hc Hg.
  match goal with
  | E : negb (String.eqb _ _) = false |- _ =>
      apply negb_false_iff, String.eqb_eq in E
  end.
  congruence.
Qed.

Lemma create_db_instance_raise X kw b e b' :
  RDSBackend.create_db_instance X kw b = (Raise e, b') -> b' = b.
Proof.
  unfold RDSBackend.create_db_instance. unfold_monad. intros H.
  repeat (break_in H; try discriminate).
  all: inversion H; subst; reflexivity.
Qed.

Lemma databases_with_member id cid b :
  (StatedMore.with_member id cid b).(Backend.databases) = b.(Backend.databases).
Proof.
  unfold StatedMore.with_member. destruct cid as [c|]; [|reflexivity].
  destruct (Dict.get c (Backend.clusters b)); reflexivity.
Qed.

(** X10.  [create_db_instance] changes the backend only when it succeeds,
    and raises [DBInstanceAlreadyExists] for an identifier in use.  When it
    returns an instance, the identifier was free and passes the validation;
    the instance is stored under it, carries it, is available and is no
    replica; the other instances are untouched; and a stored cluster that
    the instance names has the same engine and gains the identifier at the
    end of its member list, while the other clusters are untouched. *)
Theorem create_db_instance_spec X kw b :
  let id := kw.(DBInstanceKwargs.db_instance_identifier) in
  (forall e b', RDSBackend.create_db_instance X kw b = (Raise e, b') -> b' = b)
  /\ (Dict.mem id b.(Backend.databases) = true ->
      RDSBackend.create_db_instance X kw b = (Raise DBInstanceAlreadyExists, b))
  /\ forall d b',
       RDSBackend.create_db_instance X kw b = (Ok d, b') ->
       Dict.get id b.(Backend.databases) = None
       /\ RDSBackend._validate_db_identifier id = Ok tt
       /\ Dict.get id b'.(Backend.databases) = Some d
       /\ (forall k, k <> id ->
             Dict.get k b'.(Backend.databases) = Dict.get k b.(Backend.databases))
       /\ d.(DBInstance.db_instance_identifier) = id
       /\ d.(DBInstance.status) = "available"
       /\ d.(DBInstance.is_replica) = false
       /\ d.(DBInstance.db_cluster_identifier)
          = kw.(DBInstanceKwargs.db_cluster_identifier)
       /\ (forall cid c,
             d.(DBInstance.db_cluster_identifier) = Some cid ->
             Dict.get cid b.(Backend.clusters) = Some c ->
             d.(DBInstance.engine) = c.(DBCluster.engine)
             /\ Dict.get cid b'.(Backend.clusters)
                = Some (DBCluster.set_cluster_members
                          (c.(DBCluster.cluster_members) ++ [id]) c))
       /\ (forall k, d.(DBInstance.db_cluster_identifier) <> Some k ->
             Dict.get k b'.(Backend.clusters) = Dict.get k b.(Backend.clusters)).
Proof.
  cbv zeta. split; [|split].
  - intros e b'. apply create_db_instance_raise.
  - intros Hm. unfold RDSBackend.create_db_instance. unfold_monad. now rewrite Hm.
  - intros d b' H. apply create_db_instance_ok in H. cbv zeta in H.
    destruct H as [Hfresh [Hv [Hinit [Heng Hb]]]].
    apply DBInstance_init_ok in Hinit.
    destruct Hinit as [Hid [Hst [Hrep [_ [Hcl _]]]]].
    split; [exact Hfresh|]. split; [exact Hv|].
    split; [rewrite Hb; cbn [Backend.databases Backend.set_databases];
            apply get_set_same|].
    split.
    { intros k Hk. rewrite Hb. cbn [Backend.databases Backend.set_databases].
      now rewrite get_set_other by exact Hk. }
    split; [exact Hid|]. split; [exact Hst|]. split; [exact Hrep|].
    split; [exact Hcl|]. split.
    + intros cid c Hc Hg. split; [now apply (Heng cid c)|].
      rewrite Hb. unfold StatedMore.with_member. rewrite Hc, Hg. cbn.
      apply get_set_same.
    + intros k Hk. rewrite Hb. unfold StatedMore.with_member. cbn.
      destruct (DBInstance.db_cluster_identifier d) as [cid|]; [|reflexivity].
      destruct (Dict.get cid (Backend.clusters b)) as [c|]; [|reflexivity].
      cbn. apply get_set_other. congruence.
Qed.

(** Reading a dictionary of the backend after an assignment to one. *)
Lemma databases_set_databases v b :
  Backend.databases (Backend.set_databases v b) = v.
Proof. reflexivity. Qed.

Lemma clusters_set_databases v b :
  Backend.clusters (Backend.set_databases v b) = Backend.clusters b.
Proof. reflexivity. Qed.

Lemma databases_set_clusters v b :
  Backend.databases (Backend.set_clusters v b) = Backend.databases b.
Proof. reflexivity. Qed.

Lemma clusters_set_clusters v b :
  Backend.clusters (Backend.set_clusters v b) = v.
Proof. reflexivity. Qed.

Lemma set_databases_twice v w b :
  Backend.set_databases v (Backend.set_databases w b) = Backend.set_databases v b.
Proof. reflexivity. Qed.

Lemma set_clusters_twice v w b :
  Backend.set_clusters v (Backend.set_clusters w b) = Backend.set_clusters v b.
Proof. reflexivity. Qed.

Create Rewrite HintDb backend.
#[export] Hint Rewrite databases_set_databases clusters_set_databases
  databases_set_clusters clusters_set_clusters set_databases_twice
  set_clusters_twice : backend.

Lemma list_remove_app_last x l :
  ~ In x l -> list_remove x (l ++ [x]) = Some l.
Proof.
  induction l as [|y l IH]; simpl; intros H.
  - now rewrite String.eqb_refl.
  - destruct (String.eqb y x) eqn:E.
    + apply String.eqb_eq in E. subst y. exfalso. apply H. now left.
    + rewrite IH; [reflexivity|]. intros Hin. apply H. now right.
Qed.

Lemma set_cluster_members_restore (c : DBCluster.t) l :
  DBCluster.set_cluster_members c.(DBCluster.cluster_members)
    (DBCluster.set_cluster_members l c) = c.
Proof. now destruct c. Qed.

(** X11.  An instance just created can be deleted again, and the backend is
    then exactly as it was before the creation: in a backend whose member
    lists name stored instances only, when [create_db_instance] has
    returned an instance without deletion protection, [delete_db_instance]
    on its identifier returns that instance with the status ["deleting"]
    and restores the earlier state. *)
Theorem create_delete_db_instance X kw b d b' :
  Stated.members_exist b = true ->
  RDSBackend.create_db_instance X kw b = (Ok d, b') ->
  d.(DBInstance.deletion_protection) = false ->
  RDSBackend.delete_db_instance X kw.(DBInstanceKwargs.db_instance_identifier)
    None b'
  = (Ok (DBInstance.set_status "deleting" d), b).
Proof.
  intros Hinv H Hprot. apply create_db_instance_ok in H. cbv zeta in H.
  set (id := DBInstanceKwargs.db_instance_identifier kw) in *.
  destruct H as [Hfresh [Hv [Hinit [_ Hb]]]].
  apply DBInstance_init_ok in Hinit.
  destruct Hinit as [_ [_ [Hrep _]]].
  assert (Hmem : forall cid c, Dict.get cid (Backend.clusters b) = Some c ->
                   ~ In id c.(DBCluster.cluster_members)).
  { intros cid c Hg Hin. apply get_In in Hg.
    pose proof (proj1 (members_exist_spec b) Hinv cid c id Hg Hin) as Hm.
    apply mem_get in Hm. destruct Hm as [x Hx]. congruence. }
  unfold RDSBackend.delete_db_instance. unfold_monad. rewrite Hv, Hb.
  autorewrite with backend.
  rewrite get_set_same, Hprot. cbn [PyStr.truthy]. rewrite Hrep.
  autorewrite with backend.
  rewrite remove_set_fresh by exact Hfresh.
  unfold StatedMore.with_member.
  destruct (DBInstance.db_cluster_identifier d) as [cid|].
  2: { f_equal. now destruct b. }
  destruct (Dict.get cid (Backend.clusters b)) as [c|] eqn:Hc.
  2: { rewrite Hc. f_equal. now destruct b. }
  autorewrite with backend.
  rewrite get_set_same. cbn [DBCluster.cluster_members DBCluster.set_cluster_members].
  rewrite list_remove_app_last by exact (Hmem cid c Hc). f_equal.
  rewrite set_set_same, set_cluster_members_restore.
  rewrite set_get_same by exact Hc. now destruct b.
Qed.

(* ------------------------------------------------------------------ *)
(** * Instances stay stored under their identifiers *)

Lemma keyed_same b b' :
  Stated.databases_keyed b ->
  b'.(Backend.databases) = b.(Backend.databases) ->
  Stated.databases_keyed b'.
Proof. unfold Stated.databases_keyed. now intros H ->. Qed.

Lemma keyed_store b b' k d :
  Stated.databases_keyed b ->
  b'.(Backend.databases) = Dict.set k d b.(Backend.databases) ->
  d.(DBInstance.db_instance_identifier) = k ->
  Stated.databases_keyed b'.
Proof.
  unfold Stated.databases_keyed. intros [Hwf Hk] -> Hd. split.
  - now apply set_wf.
  - intros k' d' Hin. apply set_In in Hin. destruct Hin as [Hin|Hin].
    + inversion Hin. now subst.
    + now apply Hk.
Qed.

Lemma remove_In (V : Type) (l : Dict.t V) k k' v :
  In (k', v) (Dict.remove k l) -> In (k', v) l /\ k' <> k.
Proof.
  induction l as [|[k0 v0] l IH]; simpl; [contradiction|].
  destruct (String.eqb k0 k) eqn:E.
  - intros H. apply IH in H. tauto.
  - apply String.eqb_neq in E. intros [H|H].
    + inversion H; subst. auto.
    + apply IH in H. tauto.
Qed.

Lemma keyed_remove b b' k :
  Stated.databases_keyed b ->
  b'.(Backend.databases) = Dict.remove k b.(Backend.databases) ->
  Stated.databases_keyed b'.
Proof.
  unfold Stated.databases_keyed. intros [Hwf Hk] ->. split.
  - now apply remove_wf.
  - intros k' d' Hin. apply remove_In in Hin. now apply Hk.
Qed.

(** An instance that [describe_db_instances(...)[0]] finds is stored. *)
Lemma describe_first_In o b found :
  res_bind (RDSBackend.describe_db_instances o b) (@RDSBackend.first _) = Ok found ->
  In found b.(Backend.databases).
Proof.
  unfold RDSBackend.describe_db_instances, RDSBackend.apply_filter.
  destruct (PyStr.truthy o).
  - destruct (filter _ _) as [|x l] eqn:F; [discriminate|].
    cbn. intros H. inversion H; subst x.
    assert (Hin : In found (found :: l)) by now left.
    rewrite <- F in Hin. now apply filter_In in Hin.
  - cbn. destruct (Backend.databases b) as [|x l]; [discriminate|].
    cbn. intros H. inversion H. now left.
Qed.

Lemma stop_db_instance_databases X id snap b r b' :
  RDSBackend.stop_db_instance X id snap b = (r, b') ->
  b'.(Backend.databases) = b.(Backend.databases)
  \/ exists k d, In (k, d) b.(Backend.databases)
                 /\ b'.(Backend.databases)
                    = Dict.set k (DBInstance.set_status "stopped" d)
                               b.(Backend.databases).
Proof.
  unfold RDSBackend.stop_db_instance, RDSBackend.create_auto_snapshot,
    RDSBackend.store_database.
  unfold_monad. intros H.
  destruct (RDSBackend._validate_db_identifier id);
    [|inversion H; subst; now left].
  destruct (res_bind _ _) as [[k d]|e] eqn:Hf; [|inversion H; subst; now left].
  apply describe_first_In in Hf. cbn [fst snd] in H.
  destruct (_ || _); [inversion H; subst; now left|].
  destruct (negb _); [inversion H; subst; now left|].
  destruct (PyStr.truthy snap).
  - destruct (RDSBackend.create_db_snapshot X (inl id) (option_or snap "")
                "automated" None b) as [r0 b0] eqn:E.
    apply create_db_snapshot_effect in E. destruct E as [E1 _].
    destruct r0; inversion H; subst; [|now left].
    right. exists k, d. split; [exact Hf|]. cbn. now rewrite E1.
  - inversion H; subst. right. exists k, d. auto.
Qed.

Lemma start_db_instance_databases id b r b' :
  RDSBackend.start_db_instance id b = (r, b') ->
  b'.(Backend.databases) = b.(Backend.databases)
  \/ exists k d, In (k, d) b.(Backend.databases)
                 /\ b'.(Backend.databases)
                    = Dict.set k (DBInstance.set_status "available" d)
                               b.(Backend.databases).
Proof.
  unfold RDSBackend.start_db_instance, RDSBackend.store_database.
  unfold_monad. intros H.
  destruct (RDSBackend._validate_db_identifier id);
    [|inversion H; subst; now left].
  destruct (res_bind _ _) as [[k d]|e] eqn:Hf; [|inversion H; subst; now left].
  apply describe_first_In in Hf. cbn [fst snd] in H.
  destruct (negb _); inversion H; subst; [now left|].
  right. exists k, d. auto.
Qed.

Lemma remove_replica_of_databases X src replica b r b' :
  RDSBackend.remove_replica_of X src replica b = (r, b') ->
  b'.(Backend.databases) = b.(Backend.databases)
  \/ exists k d l, In (k, d) b.(Backend.databases)
                   /\ b'.(Backend.databases)
                      = Dict.set k (DBInstance.set_replicas l d)
                                 b.(Backend.databases).
Proof.
  unfold RDSBackend.remove_replica_of, RDSBackend.store_database.
  unfold_monad. cbv zeta. intros H.
  repeat (break_in H; try discriminate).
  all: repeat match goal with
         | E : (_, _) = (_, _) |- _ => inversion E; subst; clear E
         end.
  all: try (left; reflexivity).
  all: right;
    match goal with
    | E : res_bind (RDSBackend.describe_db_instances _ _) _ = Ok ?p |- _ =>
        apply describe_first_In in E; destruct p as [k d];
        exists k, d; eexists; split; [exact E | reflexivity]
    end.
Qed.

Lemma delete_db_instance_databases X id snap b r b' :
  RDSBackend.delete_db_instance X id snap b = (r, b') ->
  b'.(Backend.databases) = b.(Backend.databases)
  \/ b'.(Backend.databases) = Dict.remove id b.(Backend.databases)
  \/ exists k d l,
       In (k, d) (Dict.remove id b.(Backend.databases))
       /\ b'.(Backend.databases)
          = Dict.set k (DBInstance.set_replicas l d)
                     (Dict.remove id b.(Backend.databases)).
Proof.
  unfold RDSBackend.delete_db_instance, RDSBackend.create_auto_snapshot.
  unfold_monad. intros H.
  destruct (RDSBackend._validate_db_identifier id);
    [|inversion H; subst; now left].
  destruct (Dict.get id (Backend.databases b)) as [d|] eqn:Hget;
    [|inversion H; subst; now left].
  destruct (DBInstance.deletion_protection d); [inversion H; subst; now left|].
  match type of H with
  | (let (_, _) := ?m b in _) = _ => destruct (m b) as [r1 b1] eqn:Hs
  end.
  assert (Hb1 : b1.(Backend.databases) = b.(Backend.databases)).
  { destruct (PyStr.truthy snap); [|now inversion Hs; subst].
    destruct (RDSBackend.create_db_snapshot X (inl id) (option_or snap "")
                "automated" None b) as [r0 b0] eqn:E.
    apply create_db_snapshot_effect in E. destruct E as [E1 _].
    now destruct r0; inversion Hs; subst. }
  clear Hs. destruct r1 as [[]|e]; [|inversion H; subst; now left].
  match type of H with
  | (let (_, _) := ?m ?s in _) = _ => destruct (m s) as [r2 b2] eqn:Hr
  end.
  assert (Hb2 : b2.(Backend.databases) = Dict.remove id b.(Backend.databases)
                \/ exists k d0 l,
                     In (k, d0) (Dict.remove id b.(Backend.databases))
                     /\ b2.(Backend.databases)
                        = Dict.set k (DBInstance.set_replicas l d0)
                                   (Dict.remove id b.(Backend.databases))).
  { destruct (DBInstance.is_replica d).
    - destruct (DBInstance.source_db_instance_identifier d) as [src|].
      + apply remove_replica_of_databases in Hr. cbn in Hr. rewrite Hb1 in Hr.
        destruct Hr as [Hr|Hr]; [now left | now right].
      + inversion Hr; subst. cbn. left. now rewrite Hb1.
    - inversion Hr; subst. cbn. left. now rewrite Hb1. }
  clear Hr.
  assert (Hb' : b'.(Backend.databases) = b2.(Backend.databases)).
  { destruct r2 as [[]|e]; [|now inversion H; subst].
    repeat (break_in H; try discriminate).
    all: inversion H; subst; reflexivity. }
  right. now rewrite Hb'.
Qed.

(** X12.  The operations of the life of an instance keep every instance
    stored under its own identifier: in a backend whose [databases]
    dictionary has no key twice and holds every instance under its
    identifier, this is still so after [create_db_instance],
    [stop_db_instance], [start_db_instance], [delete_db_instance] and
    [create_db_snapshot], whatever they return or raise. *)
Theorem instance_life_keeps_databases_keyed X b :
  Stated.databases_keyed b ->
  (forall kw r b',
     RDSBackend.create_db_instance X kw b = (r, b') -> Stated.databases_keyed b')
  /\ (forall id snap r b',
        RDSBackend.stop_db_instance X id snap b = (r, b') ->
        Stated.databases_keyed b')
  /\ (forall id r b',
        RDSBackend.start_db_instance id b = (r, b') -> Stated.databases_keyed b')
  /\ (forall id snap r b',
        RDSBackend.delete_db_instance X id snap b = (r, b') ->
        Stated.databases_keyed b')
  /\ (forall inst snap ty tags r b',
        RDSBackend.create_db_snapshot X inst snap ty tags b = (r, b') ->
        Stated.databases_keyed b').
Proof.
  intros Hk.
  assert (Hid : forall k d, In (k, d) (Backend.databases b) ->
                            DBInstance.db_instance_identifier d = k)
    by apply Hk.
  split; [|split; [|split; [|split]]].
  - intros kw [d|e] b' H.
    + apply create_db_instance_ok in H. cbv zeta in H.
      destruct H as [_ [_ [Hinit [_ Hb]]]].
      apply DBInstance_init_ok in Hinit. destruct Hinit as [Hd _].
      eapply keyed_store; [exact Hk | | exact Hd].
      rewrite Hb. reflexivity.
    + apply create_db_instance_raise in H. now subst.
  - intros id snap r b' H. apply stop_db_instance_databases in H.
    destruct H as [H|[k [d [Hin H]]]].
    + eapply keyed_same; [exact Hk | exact H].
    + eapply keyed_store; [exact Hk | exact H |]. cbn. now apply Hid.
  - intros id r b' H. apply start_db_instance_databases in H.
    destruct H as [H|[k [d [Hin H]]]].
    + eapply keyed_same; [exact Hk | exact H].
    + eapply keyed_store; [exact Hk | exact H |]. cbn. now apply Hid.
  - intros id snap r b' H. apply delete_db_instance_databases in H.
    assert (Hrem : Stated.databases_keyed
                     (Backend.set_databases
                        (Dict.remove id (Backend.databases b)) b)).
    { eapply keyed_remove; [exact Hk | reflexivity]. }
    destruct H as [H|[H|[k [d [l [Hin H]]]]]].
    + eapply keyed_same; [exact Hk | exact H].
    + eapply keyed_same; [exact Hrem | exact H].
    + eapply keyed_store; [exact Hrem | exact H |].
      apply remove_In in Hin. destruct Hin as [Hin _]. cbn. now apply Hid.
  - intros inst snap ty tags r b' H. apply create_db_snapshot_effect in H.
    destruct H as [H _]. eapply keyed_same; [exact Hk | exact H].
Qed.

(* ------------------------------------------------------------------ *)
(** * Stopping and starting again *)

Lemma set_status_restore (d : DBInstance.t) s :
  DBInstance.set_status d.(DBInstance.status) (DBInstance.set_status s d) = d.
Proof. now destruct d. Qed.

(** X13.  Stopping an instance and starting it again is a round trip: for
    an available instance stored under its validated identifier in a
    backend keyed by identifier, neither a read replica nor a multi-AZ SQL
    Server instance, [stop_db_instance] without a snapshot returns and
    stores it as ["stopped"], and [start_db_instance] on the state this
    leaves returns the instance as it was and restores the backend
    exactly. *)
Theorem stop_start_round_trip X b id d :
  Stated.databases_keyed b ->
  RDSBackend._validate_db_identifier id = Ok tt ->
  Dict.get id b.(Backend.databases) = Some d ->
  d.(DBInstance.status) = "available" ->
  d.(DBInstance.is_replica) = false ->
  d.(DBInstance.multi_az)
  && PyStr.startswith (PyStr.lower d.(DBInstance.engine)) "sqlserver" = false ->
  exists b1,
    RDSBackend.stop_db_instance X id None b
    = (Ok (DBInstance.set_status "stopped" d), b1)
    /\ Dict.get id b1.(Backend.databases) = Some (DBInstance.set_status "stopped" d)
    /\ RDSBackend.start_db_instance id b1 = (Ok d, b).
Proof.
  intros Hk Hv Hget Hs Hr Hm.
  rewrite (@stop_db_instance_unfold X b id d None Hk Hv Hget Hr Hm).
  rewrite Hs. cbn [String.eqb Ascii.eqb Bool.eqb negb PyStr.truthy]. cbv zeta.
  set (stopped := DBInstance.set_status "stopped" d).
  set (b1 := Backend.set_databases (Dict.set id stopped (Backend.databases b)) b).
  exists b1.
  assert (Hget1 : Dict.get id (Backend.databases b1) = Some stopped).
  { unfold b1. cbn. apply get_set_same. }
  assert (Hk1 : Stated.databases_keyed b1).
  { eapply keyed_store; [exact Hk | reflexivity |].
    unfold stopped. cbn. now apply Hk, get_In. }
  split; [reflexivity|]. split; [exact Hget1|].
  rewrite (@start_db_instance_unfold b1 id stopped Hk1 Hv Hget1).
  cbn [DBInstance.status stopped DBInstance.set_status String.eqb Ascii.eqb
       Bool.eqb negb]. cbv zeta.
  assert (Hd : DBInstance.set_status "available" stopped = d).
  { unfold stopped. rewrite <- Hs. apply set_status_restore. }
  rewrite Hd. f_equal. unfold b1. autorewrite with backend.
  rewrite set_set_same, set_get_same by exact Hget. apply set_databases_same.
Qed.

(* ------------------------------------------------------------------ *)
(** * Instances by ARN *)

Lemma append_inj_l (s t1 t2 : string) : (s ++ t1 = s ++ t2)%string -> t1 = t2.
Proof.
  induction s as [|c s IH]; simpl; intros H; [exact H|].
  apply IH. now inversion H.
Qed.

Lemma arn_format_inj b rtype n1 n2 :
  RDSBaseModel.arn_format b rtype n1 = RDSBaseModel.arn_format b rtype n2 ->
  n1 = n2.
Proof.
  unfold RDSBaseModel.arn_format. intros H.
  repeat (apply append_inj_l in H). exact H.
Qed.

Lemma arn_format_not_empty b rtype rname :
  String.eqb (RDSBaseModel.arn_format b rtype rname) "" = false.
Proof. reflexivity. Qed.

(** X14.  An instance is found by its ARN: in a backend keyed by
    identifier in which no instance is stored under a key that is this
    ARN, [describe_db_instances] on the ARN of a stored instance returns
    that instance, and it alone. *)
Theorem describe_db_instances_by_arn b id d :
  Stated.databases_keyed b ->
  Dict.get id b.(Backend.databases) = Some d ->
  Dict.mem (RDSBackend.db_instance_arn b d) b.(Backend.databases) = false ->
  RDSBackend.describe_db_instances (Some (RDSBackend.db_instance_arn b d)) b
  = Ok [(id, d)].
Proof.
  intros [Hwf Hkey] Hget Hno.
  unfold RDSBackend.describe_db_instances, RDSBackend.apply_filter.
  cbn [PyStr.truthy option_or].
  unfold RDSBackend.db_instance_arn at 1. rewrite arn_format_not_empty.
  cbn [negb].
  erewrite filter_by_key; [reflexivity | exact Hwf | exact Hget |].
  intros k' d' Hin. cbn [existsb snd PyStr.mem].
  pose proof (Hkey _ _ Hin) as Hk'.
  pose proof (Hkey _ _ (get_In _ _ Hget)) as Hk.
  replace (String.eqb (DBInstance.db_instance_identifier d')
                      (RDSBackend.db_instance_arn b d)) with false.
  - rewrite !orb_false_r.
    destruct (String.eqb k' id) eqn:E.
    + apply String.eqb_eq in E. subst k'.
      apply String.eqb_eq. unfold RDSBackend.db_instance_arn. congruence.
    + apply String.eqb_neq. intros Harn. apply arn_format_inj in Harn.
      apply String.eqb_neq in E. congruence.
  - symmetry. apply String.eqb_neq. intros E.
    apply mem_false_get in Hno. apply wf_In_get in Hin; [|exact Hwf]. congruence.
Qed.

(* ------------------------------------------------------------------ *)
(** * Renaming an instance *)


(* ------------------------------------------------------------------ *)
(** * Deleting an instance *)

Lemma remove_replica_of_snapshots X src replica b r b' :
  RDSBackend.remove_replica_of X src replica b = (r, b') ->
  b'.(Backend.database_snapshots) = b.(Backend.database_snapshots).
Proof.
  unfold RDSBackend.remove_replica_of, RDSBackend.store_database.
  unfold_monad. cbv zeta. intros H.
  repeat (break_in H; try discriminate).
  all: repeat match goal with
         | E : (_, _) = (_, _) |- _ => inversion E; subst; clear E
         end.
  all: reflexivity.
Qed.

(** What a successful [delete_db_instance] has done. *)
Lemma delete_db_instance_ok X id snap b d' b' :
  RDSBackend.delete_db_instance X id snap b = (Ok d', b') ->
  exists d,
    Dict.get id b.(Backend.databases) = Some d
    /\ d.(DBInstance.deletion_protection) = false
    /\ d' = DBInstance.set_status "deleting" d
    /\ Dict.get id b'.(Backend.databases) = None
    /\ (PyStr.truthy snap = true ->
        exists s,
          Dict.get (option_or snap "") b'.(Backend.database_snapshots) = Some s
          /\ s.(DBSnapshot.snapshot_id) = option_or snap ""
          /\ s.(DBSnapshot.snapshot_type) = "automated"
          /\ s.(DBSnapshot.tags)
             = (if d.(DBInstance.copy_tags_to_snapshot)
                then d.(DBInstance.tags) else [])
          /\ Dict.get (option_or snap "") b.(Backend.database_snapshots) = None)
    /\ (PyStr.truthy snap = false ->
        b'.(Backend.database_snapshots) = b.(Backend.database_snapshots)).
Proof.
  unfold RDSBackend.delete_db_instance, RDSBackend.create_auto_snapshot.
  unfold_monad. intros H.
  destruct (RDSBackend._validate_db_identifier id); [|discriminate].
  destruct (Dict.get id (Backend.databases b)) as [d|] eqn:Hget; [|discriminate].
  destruct (DBInstance.deletion_protection d) eqn:Hprot; [discriminate|].
  exists d. split; [reflexivity|]. split; [exact Hprot|].
  match type of H with
  | (let (_, _) := ?m b in _) = _ => destruct (m b) as [r1 b1] eqn:Hs
  end.
  destruct r1 as [[]|e]; [|discriminate].
  assert (Hb1 : b1.(Backend.databases) = b.(Backend.databases)
                /\ (PyStr.truthy snap = true ->
                    exists s,
                      Dict.get (option_or snap "") b1.(Backend.database_snapshots)
                      = Some s
                      /\ s.(DBSnapshot.snapshot_id) = option_or snap ""
                      /\ s.(DBSnapshot.snapshot_type) = "automated"
                      /\ s.(DBSnapshot.tags)
                         = (if d.(DBInstance.copy_tags_to_snapshot)
                            then d.(DBInstance.tags) else [])
                      /\ Dict.get (option_or snap "")
                                  b.(Backend.database_snapshots) = None)
                /\ (PyStr.truthy snap = false ->
                    b1.(Backend.database_snapshots)
                    = b.(Backend.database_snapshots))).
  { destruct (PyStr.truthy snap).
    - destruct (RDSBackend.create_db_snapshot X (inl id) (option_or snap "")
                  "automated" None b) as [r0 b0] eqn:E.
      destruct r0 as [s|e]; [|discriminate]. inversion Hs; subst b0.
      apply create_db_snapshot_ok in E.
      destruct E as [Hfresh [[d0 [Hd0 Hsn]] Hb]].
      assert (d0 = d) by congruence. subst d0.
      split; [now rewrite Hb|]. split; [|discriminate].
      intros _. exists s. split; [rewrite Hb; cbn; apply get_set_same|].
      rewrite Hsn. cbn. repeat split. exact Hfresh.
    - inversion Hs; subst b1. split; [reflexivity|]. split; [discriminate | auto]. }
  clear Hs. destruct Hb1 as [Hd1 [Hsnap1 Hsnap0]].
  match type of H with
  | (let (_, _) := ?m ?s in _) = _ => destruct (m s) as [r2 b2] eqn:Hr
  end.
  destruct r2 as [[]|e]; [|discriminate].
  assert (Hb2 : Dict.get id b2.(Backend.databases) = None
                /\ b2.(Backend.database_snapshots) = b1.(Backend.database_snapshots)).
  { destruct (DBInstance.is_replica d).
    - destruct (DBInstance.source_db_instance_identifier d) as [src|];
        [|discriminate].
      pose proof Hr as Hsn. apply remove_replica_of_snapshots in Hsn.
      apply remove_replica_of_databases in Hr. cbn in Hr, Hsn.
      split; [|exact Hsn].
      destruct Hr as [Hr|[k [d0 [l [Hin Hr]]]]]; rewrite Hr.
      + apply get_remove_same.
      + apply remove_In in Hin. destruct Hin as [_ Hne].
        rewrite get_set_other by congruence. apply get_remove_same.
    - inversion Hr; subst b2. cbn. split; [apply get_remove_same | reflexivity]. }
  clear Hr. destruct Hb2 as [Hd2 Hs2].
  assert (Hb' : d' = DBInstance.set_status "deleting" d
                /\ b'.(Backend.databases) = b2.(Backend.databases)
                /\ b'.(Backend.database_snapshots) = b2.(Backend.database_snapshots)).
  { repeat (break_in H; try discriminate).
    all: inversion H; subst; auto. }
  destruct Hb' as [Hd' [Hdb Hsn]].
  split; [exact Hd'|]. split; [now rewrite Hdb|].
  rewrite Hsn, Hs2. split; assumption.
Qed.

(** X16.  [delete_db_instance] on a validated identifier raises
    [DBInstanceNotFoundError] when nothing is stored under it and
    [InvalidParameterValue] when the instance has deletion protection, and
    then changes nothing.  When it returns, it returns the instance that was
    stored, with the status ["deleting"]; nothing is stored under the
    identifier any more, so a second deletion raises
    [DBInstanceNotFoundError].  When a final snapshot was asked for, its
    name was not in use and an automated snapshot is now stored under it,
    with the tags of the instance if the instance copies its tags to
    snapshots and without tags otherwise; when none was asked for, the
    snapshots are as before. *)
Theorem delete_db_instance_spec X id snap b :
  RDSBackend._validate_db_identifier id = Ok tt ->
  (Dict.get id b.(Backend.databases) = None ->
   RDSBackend.delete_db_instance X id snap b
   = (Raise (DBInstanceNotFoundError id), b))
  /\ (forall d, Dict.get id b.(Backend.databases) = Some d ->
                d.(DBInstance.deletion_protection) = true ->
                RDSBackend.delete_db_instance X id snap b
                = (Raise InvalidParameterValue, b))
  /\ forall d' b',
       RDSBackend.delete_db_instance X id snap b = (Ok d', b') ->
       (exists d,
          Dict.get id b.(Backend.databases) = Some d
          /\ d.(DBInstance.deletion_protection) = false
          /\ d' = DBInstance.set_status "deleting" d
          /\ (PyStr.truthy snap = true ->
              exists s,
                Dict.get (option_or snap "") b'.(Backend.database_snapshots)
                = Some s
                /\ s.(DBSnapshot.snapshot_id) = option_or snap ""
                /\ s.(DBSnapshot.snapshot_type) = "automated"
                /\ s.(DBSnapshot.tags)
                   = (if d.(DBInstance.copy_tags_to_snapshot)
                      then d.(DBInstance.tags) else [])
                /\ Dict.get (option_or snap "") b.(Backend.database_snapshots)
                   = None)
          /\ (PyStr.truthy snap = false ->
              b'.(Backend.database_snapshots) = b.(Backend.database_snapshots)))
       /\ Dict.get id b'.(Backend.databases) = None
       /\ forall snap',
            RDSBackend.delete_db_instance X id snap' b'
            = (Raise (DBInstanceNotFoundError id), b').
Proof.
  intros Hv.
  assert (Hnone : forall s0 b0, Dict.get id b0.(Backend.databases) = None ->
            RDSBackend.delete_db_instance X id s0 b0
            = (Raise (DBInstanceNotFoundError id), b0)).
  { intros s0 b0 H. unfold RDSBackend.delete_db_instance. unfold_monad.
    now rewrite Hv, H. }
  split; [apply Hnone|]. split.
  - intros d Hget Hp. unfold RDSBackend.delete_db_instance. unfold_monad.
    now rewrite Hv, Hget, Hp.
  - intros d' b' H. apply delete_db_instance_ok in H.
    destruct H as [d [Hget [Hp [Hd' [Hgone [Hsnap Hnosnap]]]]]].
    split; [exists d; auto 6|]. split; [exact Hgone|].
    intros snap'. now apply Hnone.
Qed.

(* ------------------------------------------------------------------ *)
(** * Stopping, starting and modifying a cluster *)

Lemma cluster_status_not_creating (c : DBCluster.t) :
  c.(DBCluster._status) <> "creating" ->
  RDSBackend.DBCluster_status c = (c.(DBCluster._status), c).
Proof.
  intros H. unfold RDSBackend.DBCluster_status.
  apply String.eqb_neq in H. now rewrite H.
Qed.

Lemma cluster_set_status_twice (c : DBCluster.t) s t :
  DBCluster.set_status s (DBCluster.set_status t c) = DBCluster.set_status s c.
Proof. reflexivity. Qed.

Lemma cluster_set_status_same (c : DBCluster.t) :
  DBCluster.set_status c.(DBCluster._status) c = c.
Proof. now destruct c. Qed.

Lemma store_same_cluster id c b :
  Dict.get id b.(Backend.clusters) = Some c ->
  Backend.set_clusters (Dict.set id c b.(Backend.clusters)) b = b.
Proof. intros H. rewrite set_get_same by exact H. apply set_clusters_same. Qed.

(** X17.  Stopping a cluster and starting it again is a round trip, and
    both operations check the status first.  On an identifier that is not
    stored both raise [DBClusterNotFoundError] and change nothing.  For an
    available cluster [stop_db_cluster] returns the cluster as it was and
    stores it as ["stopped"], and [start_db_cluster] on the state this
    leaves returns it with the status ["started"] and restores the backend
    exactly.  A cluster whose stored status is neither ["available"] nor
    ["creating"] cannot be stopped and one whose stored status is neither
    ["stopped"] nor ["creating"] cannot be started: the operation raises
    [InvalidDBClusterStateFault] and changes nothing.  A cluster whose
    stored status is ["creating"] is refused by both operations with the
    same fault, but the reading of its status turns the stored status into
    ["available"], which is the only change; stopping it a second time
    then succeeds. *)
Theorem db_cluster_stop_start b id :
  (Dict.get id b.(Backend.clusters) = None ->
   RDSBackend.stop_db_cluster id b = (Raise (DBClusterNotFoundError id), b)
   /\ RDSBackend.start_db_cluster id b = (Raise (DBClusterNotFoundError id), b))
  /\ forall c,
       Dict.get id b.(Backend.clusters) = Some c ->
       (c.(DBCluster._status) = "available" ->
        exists b1,
          RDSBackend.stop_db_cluster id b = (Ok c, b1)
          /\ Dict.get id b1.(Backend.clusters)
             = Some (DBCluster.set_status "stopped" c)
          /\ RDSBackend.start_db_cluster id b1
             = (Ok (DBCluster.set_status "started" c), b))
       /\ (c.(DBCluster._status) <> "available" ->
           c.(DBCluster._status) <> "creating" ->
           RDSBackend.stop_db_cluster id b = (Raise InvalidDBClusterStateFault, b))
       /\ (c.(DBCluster._status) <> "stopped" ->
           c.(DBCluster._status) <> "creating" ->
           RDSBackend.start_db_cluster id b = (Raise InvalidDBClusterStateFault, b))
       /\ (c.(DBCluster._status) = "creating" ->
           exists b1,
             RDSBackend.stop_db_cluster id b = (Raise InvalidDBClusterStateFault, b1)
             /\ RDSBackend.start_db_cluster id b
                = (Raise InvalidDBClusterStateFault, b1)
             /\ b1 = Backend.set_clusters
                       (Dict.set id (DBCluster.set_status "available" c)
                                 b.(Backend.clusters)) b
             /\ exists b2,
                  RDSBackend.stop_db_cluster id b1
                  = (Ok (DBCluster.set_status "available" c), b2)
                  /\ Dict.get id b2.(Backend.clusters)
                     = Some (DBCluster.set_status "stopped" c)).
Proof.
  unfold RDSBackend.stop_db_cluster, RDSBackend.start_db_cluster,
    RDSBackend.store_cluster.
  unfold_monad. split.
  - intros H. now rewrite H.
  - intros c Hget. rewrite Hget. split; [|split; [|split]].
    4:{ intros Hs. unfold RDSBackend.DBCluster_status at 1 2. rewrite Hs.
        cbn [String.eqb Ascii.eqb Bool.eqb PyStr.mem existsb orb negb fst snd].
        eexists. split; [reflexivity|]. split; [reflexivity|].
        split; [reflexivity|].
        autorewrite with backend. rewrite get_set_same.
        rewrite cluster_status_not_creating by (cbn; discriminate).
        cbn [DBCluster._status DBCluster.set_status PyStr.mem existsb
             String.eqb Ascii.eqb Bool.eqb orb negb].
        eexists. split; [reflexivity|].
        autorewrite with backend. rewrite !set_set_same.
        rewrite get_set_same. reflexivity. }
    + intros Hs.
      rewrite cluster_status_not_creating by (rewrite Hs; discriminate).
      rewrite Hs. cbn [PyStr.mem existsb String.eqb Ascii.eqb Bool.eqb orb negb].
      eexists. split; [reflexivity|]. autorewrite with backend.
      rewrite set_set_same, get_set_same. split; [reflexivity|].
      rewrite cluster_status_not_creating by (cbn; discriminate).
      cbn [DBCluster._status DBCluster.set_status String.eqb Ascii.eqb Bool.eqb negb].
      autorewrite with backend. rewrite !set_set_same.
      rewrite !cluster_set_status_twice. f_equal.
      rewrite <- Hs, cluster_set_status_same. now apply store_same_cluster.
    + intros Hs Hc. rewrite cluster_status_not_creating by exact Hc.
      apply String.eqb_neq in Hs. cbn [PyStr.mem existsb].
      rewrite Hs. cbn [orb negb]. f_equal. now apply store_same_cluster.
    + intros Hs Hc. rewrite cluster_status_not_creating by exact Hc.
      apply String.eqb_neq in Hs. rewrite Hs. cbn [negb]. f_equal.
      now apply store_same_cluster.
Qed.



(* ------------------------------------------------------------------ *)
(** * Cluster snapshots *)

(** X19.  [create_db_cluster_snapshot] raises [DBClusterNotFoundError] for
    a cluster that is not stored and then changes nothing.  A snapshot it
    returns is a new one, stored under its identifier; it records the
    cluster and carries the tags given followed, when the cluster copies
    its tags to snapshots, by the tags of the cluster; and
    [delete_db_cluster_snapshot] returns it and leaves the backend exactly
    as it was before the creation. *)
Theorem create_db_cluster_snapshot_spec X cid snap ty tags b :
  (Dict.get cid b.(Backend.clusters) = None ->
   RDSBackend.create_db_cluster_snapshot X cid snap ty tags b
   = (Raise (DBClusterNotFoundError cid), b))
  /\ forall s b',
       RDSBackend.create_db_cluster_snapshot X cid snap ty tags b = (Ok s, b') ->
       exists c,
         Dict.get cid b.(Backend.clusters) = Some c
         /\ s.(DBClusterSnapshot.cluster) = c
         /\ s.(DBClusterSnapshot.snapshot_id) = snap
         /\ s.(DBClusterSnapshot.snapshot_type) = ty
         /\ s.(DBClusterSnapshot.tags)
            = option_or tags []
              ++ (if c.(DBCluster.copy_tags_to_snapshot)
                  then c.(DBCluster.tags) else [])
         /\ RDSMethods.delete_db_cluster_snapshot snap b
            = (RaisedMore (DBClusterSnapshotNotFoundError snap), b)
         /\ Dict.get snap b'.(Backend.cluster_snapshots) = Some s
         /\ RDSMethods.delete_db_cluster_snapshot snap b' = (Returned s, b).
Proof.
  unfold RDSBackend.create_db_cluster_snapshot. unfold_monad. split.
  - intros H. now rewrite H.
  - intros s b'. destruct (Dict.get cid (Backend.clusters b)) as [c|]; [|discriminate].
    intros H. apply _create_db_cluster_snapshot_ok in H.
    destruct H as [Hfresh [Hs Hb]].
    exists c. split; [reflexivity|].
    assert (Hget : Dict.get snap (Backend.cluster_snapshots b') = Some s).
    { rewrite Hb. destruct b. cbn. apply get_set_same. }
    split; [now rewrite Hs|]. split; [now rewrite Hs|]. split; [now rewrite Hs|].
    split.
    { rewrite Hs. cbn. destruct (DBCluster.copy_tags_to_snapshot c);
        [reflexivity | now rewrite app_nil_r]. }
    unfold RDSMethods.delete_db_cluster_snapshot. rewrite Hfresh, Hget.
    split; [reflexivity|]. split; [reflexivity|]. f_equal.
    rewrite Hb. destruct b. cbn in *. now rewrite remove_set_fresh.
Qed.

(* ------------------------------------------------------------------ *)
(** * Subnet groups and option groups *)

(** X20.  A subnet group that is modified is no longer stored.
    [create_subnet_group] raises [IndexError] without subnets; with at
    least one it stores the group under its name, where
    [describe_db_subnet_groups] finds it.  [modify_db_subnet_group] on the
    state this leaves returns the group and takes it out of the
    dictionary, so that describing or deleting it afterwards raises
    [DBSubnetGroupNotFoundError], while the other groups stay. *)
Theorem modify_db_subnet_group_forgets name description subnets tags b :
  (subnets = [] ->
   RDSMethods.create_subnet_group name description subnets tags b
   = (Raise IndexError, b))
  /\ (subnets <> [] ->
      exists g b1,
        RDSMethods.create_subnet_group name description subnets tags b = (Ok g, b1)
        /\ g.(DBSubnetGroup.subnet_name) = name
        /\ g.(DBSubnetGroup.tags) = TaggingMixin.coerce tags
        /\ Dict.get name b1.(Backend.subnet_groups) = Some g
        /\ (name <> "" -> RDSMethods.describe_db_subnet_groups name b1 = Ok [g])
        /\ forall description' subnets',
             exists b2,
               RDSMethods.modify_db_subnet_group name description' subnets' b1
               = (Ok g, b2)
               /\ Dict.get name b2.(Backend.subnet_groups) = None
               /\ (forall k, k <> name ->
                     Dict.get k b2.(Backend.subnet_groups)
                     = Dict.get k b.(Backend.subnet_groups))
               /\ (name <> "" ->
                   RDSMethods.describe_db_subnet_groups name b2
                   = Raise (DBSubnetGroupNotFoundError name))
               /\ RDSMethods.delete_subnet_group name b2
                  = (Raise (DBSubnetGroupNotFoundError name), b2)).
Proof.
  unfold RDSMethods.create_subnet_group. unfold_monad. split.
  - intros ->. reflexivity.
  - intros Hne. destruct subnets as [|s0 subnets]; [congruence|].
    cbn [RDSBackend.first].
    eexists; eexists. split; [reflexivity|].
    split; [reflexivity|]. split; [reflexivity|].
    set (g := {| DBSubnetGroup.subnet_name := name;
                 DBSubnetGroup.tags := TaggingMixin.coerce tags |}).
    assert (Hget : Dict.get name (Dict.set name g (Backend.subnet_groups b)) = Some g)
      by apply get_set_same.
    split; [destruct b; exact Hget|]. split.
    { intros Hn. unfold RDSMethods.describe_db_subnet_groups.
      apply String.eqb_neq in Hn. rewrite Hn. destruct b. cbn in *. now rewrite Hget. }
    intros description' subnets'.
    unfold RDSMethods.modify_db_subnet_group. unfold_monad.
    destruct b. cbn in *. rewrite Hget. eexists. split; [reflexivity|].
    cbn. split; [apply get_remove_same|]. split.
    { intros k Hk. now rewrite get_remove_other, get_set_other by exact Hk. }
    split.
    { intros Hn. unfold RDSMethods.describe_db_subnet_groups.
      apply String.eqb_neq in Hn. rewrite Hn. cbn. now rewrite get_remove_same. }
    unfold RDSMethods.delete_subnet_group. unfold_monad. cbn.
    now rewrite get_remove_same.
Qed.

Lemma set_option_groups_twice v w b :
  Backend.set_option_groups v (Backend.set_option_groups w b)
  = Backend.set_option_groups v b.
Proof. reflexivity. Qed.

(** X21.  [create_option_group] accepts exactly the arguments that name a
    new group, give a description, and give an engine of its table with
    one of the major versions listed for it; for the engines ["oracle-se"]
    and ["oracle-se1"] no version is listed, so no option group can be
    created for them.  Any other arguments are rejected with an
    [RDSClientError] and the backend is unchanged.  A group that has been
    created has no tags, cannot be created a second time, and
    [delete_option_group] returns it and restores the earlier state. *)
Theorem create_option_group_spec kw b :
  let name := kw.(OptionGroupKwargs.option_group_name) in
  let accepted :=
    negb (Dict.mem name b.(Backend.option_groups))
    && PyStr.truthy kw.(OptionGroupKwargs.option_group_description)
    && match Dict.get kw.(OptionGroupKwargs.engine_name)
                      RDSMethods.valid_option_group_engines with
       | Some versions =>
           PyStr.mem kw.(OptionGroupKwargs.major_engine_version) versions
       | None => false
       end in
  (accepted = true ->
   exists g b',
     RDSMethods.create_option_group kw b = (Ok g, b')
     /\ g = {| OptionGroup._name := name;
               OptionGroup.engine_name := kw.(OptionGroupKwargs.engine_name);
               OptionGroup.major_engine_version :=
                 kw.(OptionGroupKwargs.major_engine_version);
               OptionGroup.tags := [] |}
     /\ Dict.get name b'.(Backend.option_groups) = Some g
     /\ RDSMethods.create_option_group kw b'
        = (Raise (RDSClientError "OptionGroupAlreadyExistsFault"), b')
     /\ RDSMethods.delete_option_group name b' = (Ok g, b))
  /\ (accepted = false ->
      exists code,
        RDSMethods.create_option_group kw b = (Raise (RDSClientError code), b)
        /\ In code ["OptionGroupAlreadyExistsFault"; "InvalidParameterValue";
                    "InvalidParameterCombination"])
  /\ (kw.(OptionGroupKwargs.engine_name) = "oracle-se"
      \/ kw.(OptionGroupKwargs.engine_name) = "oracle-se1" ->
      accepted = false).
Proof.
  cbv zeta. unfold RDSMethods.create_option_group, lookup. unfold_monad.
  split; [|split].
  - intros H. apply andb_true_iff in H. destruct H as [H Hver].
    apply andb_true_iff in H. destruct H as [Hfresh Hdesc].
    apply negb_true_iff in Hfresh. rewrite Hfresh, Hdesc. cbn [negb].
    unfold Dict.mem at 1.
    destruct (Dict.get (OptionGroupKwargs.engine_name kw)
                       RDSMethods.valid_option_group_engines) as [versions|];
      [|discriminate].
    cbn [negb]. rewrite Hver. cbn [negb].
    eexists; eexists. split; [reflexivity|]. split; [reflexivity|].
    autorewrite with backend.
    set (g := {| OptionGroup._name := OptionGroupKwargs.option_group_name kw;
                 OptionGroup.engine_name := _;
                 OptionGroup.major_engine_version := _;
                 OptionGroup.tags := _ |}).
    apply mem_false_get in Hfresh.
    destruct b. cbn [Backend.option_groups Backend.set_option_groups] in *.
    unfold Dict.mem. rewrite get_set_same.
    split; [reflexivity|]. split; [reflexivity|].
    unfold RDSMethods.delete_option_group. unfold_monad.
    cbn [Backend.option_groups Backend.set_option_groups].
    rewrite get_set_same. cbn [Backend.option_groups Backend.set_option_groups].
    now rewrite remove_set_fresh.
  - intros H.
    destruct (Dict.mem _ (Backend.option_groups b)); cbn [negb andb] in *.
    { eexists. split; [reflexivity|]. cbn. tauto. }
    destruct (PyStr.truthy _); cbn [negb andb] in *.
    2: { eexists. split; [reflexivity|]. cbn. tauto. }
    unfold Dict.mem at 1.
    destruct (Dict.get (OptionGroupKwargs.engine_name kw)
                       RDSMethods.valid_option_group_engines) as [versions|];
      cbn [negb].
    2: { eexists. split; [reflexivity|]. cbn. tauto. }
    rewrite H. cbn [negb]. eexists. split; [reflexivity|]. cbn. tauto.
  - intros [H|H]; rewrite H; cbn; apply andb_false_r.
Qed.

(* ------------------------------------------------------------------ *)
(** * Read replicas *)








(* ------------------------------------------------------------------ *)
(** * Creating a cluster *)

(** What [DBCluster.__init__] takes over from its arguments. *)
Lemma DBCluster_init_fields X kw c :
  RDSBackend.DBCluster_init X kw = Ok c ->
  c.(DBCluster.global_cluster_identifier)
  = kw.(DBClusterKwargs.global_cluster_identifier)
  /\ c.(DBCluster.replication_source_identifier)
     = kw.(DBClusterKwargs.replication_source_identifier)
  /\ c.(DBCluster.master_username) = kw.(DBClusterKwargs.master_username)
  /\ c.(DBCluster.read_replica_identifiers) = [].
Proof.
  unfold RDSBackend.DBCluster_init, res_bind. intros H.
  repeat (break_in H; try discriminate).
  all: inversion H; subst; clear H; cbn.
  all: repeat split.
Qed.

(** The password that [DBCluster.__init__] stores. *)
Lemma DBCluster_init_password X kw c :
  RDSBackend.DBCluster_init X kw = Ok c ->
  (c.(DBCluster._master_user_password) = None
   /\ ((PyStr.truthy kw.(DBClusterKwargs.master_username) = false
        /\ PyStr.truthy kw.(DBClusterKwargs.global_cluster_identifier) = true)
       \/ c.(DBCluster.engine) = "neptune"))
  \/ (exists pw,
        c.(DBCluster._master_user_password) = Some pw
        /\ RDSBackend.check_master_user_password
             kw.(DBClusterKwargs.master_user_password) = Ok pw
        /\ PyStr.truthy kw.(DBClusterKwargs.master_username) = true).
Proof.
  unfold RDSBackend.DBCluster_init, res_bind. intros H.
  destruct (DBClusterKwargs.engine kw) as [engine|]; [|discriminate].
  destruct (negb (PyStr.mem engine (RDSBackend.list_cluster_engines X)));
    [discriminate|].
  destruct (if PyStr.truthy (DBClusterKwargs.engine_version kw) then _ else _)
    as [ev|]; [|discriminate].
  destruct (match DBClusterKwargs.allocated_storage kw with
            | Some a => Ok a | None => _ end) as [st|]; [|discriminate].
  destruct (negb (PyStr.truthy (DBClusterKwargs.master_username kw))
            && PyStr.truthy (DBClusterKwargs.global_cluster_identifier kw)
            || String.eqb engine "neptune") eqn:Hc.
  - left.
    repeat (break_in H; try discriminate).
    all: inversion H; subst; clear H; cbn.
    all: split; [reflexivity|].
    all: apply orb_true_iff in Hc; destruct Hc as [Hc|Hc];
      [ left; apply andb_true_iff in Hc; destruct Hc as [Hu Hg];
        apply negb_true_iff in Hu; now split
      | right; now apply String.eqb_eq in Hc ].
  - right.
    destruct (negb (PyStr.truthy (DBClusterKwargs.master_username kw))) eqn:Hu;
      [discriminate|].
    apply negb_false_iff in Hu.
    destruct (RDSBackend.check_master_user_password
                (DBClusterKwargs.master_user_password kw)) as [pw|] eqn:Hpw;
      [|discriminate].
    exists pw. cbn [res_bind] in H.
    repeat (break_in H; try discriminate).
    all: inversion H; subst; clear H; cbn.
    all: repeat split; assumption.
Qed.

Lemma check_master_user_password_ok val pw :
  RDSBackend.check_master_user_password val = Ok pw ->
  val = Some pw /\ 8 <= String.length pw.
Proof.
  unfold RDSBackend.check_master_user_password.
  destruct val as [v|]; [|discriminate].
  destruct (String.eqb v ""); [discriminate|].
  destruct (String.length v <? 8) eqn:E; [discriminate|].
  intros H. inversion H; subst. split; [reflexivity|].
  apply Nat.ltb_ge in E. exact E.
Qed.

(** [create_db_cluster] for a cluster that names no global cluster and no
    replication source. *)
Lemma create_db_cluster_plain X kw b :
  PyStr.truthy kw.(DBClusterKwargs.global_cluster_identifier) = false ->
  PyStr.truthy kw.(DBClusterKwargs.replication_source_identifier) = false ->
  RDSBackend.create_db_cluster X kw b
  = match RDSBackend.DBCluster_init X kw with
    | Ok c =>
        (Ok c,
         Backend.set_clusters
           (Dict.set kw.(DBClusterKwargs.db_cluster_identifier)
                     (DBCluster.set_status "available" c) b.(Backend.clusters)) b)
    | Raise e => (Raise e, b)
    end.
Proof.
  intros Hg Hr.
  unfold RDSBackend.create_db_cluster, RDSBackend.store_cluster. unfold_monad.
  destruct (RDSBackend.DBCluster_init X kw) as [c|e] eqn:Hi; [|reflexivity].
  destruct (DBCluster_init_fields X kw Hi) as [Hcg [Hcr _]].
  rewrite Hcg, Hg, Hcr, Hr.
  autorewrite with backend. now rewrite set_set_same.
Qed.

(** X23.  [create_db_cluster] does not look whether the identifier is in
    use.  For arguments that name no global cluster and no replication
    source, it changes nothing when it raises; when it returns, the cluster
    returned reads ["creating"] and has no members, and it is stored as
    ["available"] under its identifier in place of whatever was stored
    there, all other keys untouched.  When the identifier was free, the
    cluster has no deletion protection and no global cluster has the empty
    identifier, [delete_db_cluster] returns the stored cluster and restores
    the backend exactly. *)
Theorem create_db_cluster_spec X kw b :
  let id := kw.(DBClusterKwargs.db_cluster_identifier) in
  PyStr.truthy kw.(DBClusterKwargs.global_cluster_identifier) = false ->
  PyStr.truthy kw.(DBClusterKwargs.replication_source_identifier) = false ->
  (forall e b', RDSBackend.create_db_cluster X kw b = (Raise e, b') -> b' = b)
  /\ forall c b',
       RDSBackend.create_db_cluster X kw b = (Ok c, b') ->
       c.(DBCluster._status) = "creating"
       /\ c.(DBCluster.cluster_members) = []
       /\ c.(DBCluster.db_cluster_identifier) = id
       /\ Dict.get id b'.(Backend.clusters)
          = Some (DBCluster.set_status "available" c)
       /\ (forall k, k <> id ->
             Dict.get k b'.(Backend.clusters) = Dict.get k b.(Backend.clusters))
       /\ b'.(Backend.databases) = b.(Backend.databases)
       /\ (Dict.get id b.(Backend.clusters) = None ->
           c.(DBCluster.deletion_protection) = false ->
           Dict.mem "" b.(Backend.global_clusters) = false ->
           RDSBackend.delete_db_cluster X id None b'
           = (Ok (DBCluster.set_status "available" c), b)).
Proof.
  cbv zeta. intros Hg Hr. rewrite (create_db_cluster_plain X kw b Hg Hr).
  destruct (RDSBackend.DBCluster_init X kw) as [c0|e0] eqn:Hi.
  2:{ split; [intros e b' H; now inversion H | intros c b' H; discriminate]. }
  split; [intros e b' H; discriminate|].
  intros c b' H. inversion H; subst c0 b'. clear H.
  destruct (DBCluster_init_ok X kw Hi)
    as [engine [_ [_ [_ [Hst [Hmem [Hid _]]]]]]].
  destruct (DBCluster_init_fields X kw Hi) as [Hcg _].
  set (id := DBClusterKwargs.db_cluster_identifier kw) in *.
  split; [exact Hst|]. split; [exact Hmem|]. split; [exact Hid|].
  autorewrite with backend.
  split; [apply get_set_same|].
  split; [intros k Hk; now apply get_set_other|].
  split; [now destruct b|].
  intros Hfree Hprot Hnog.
  unfold RDSBackend.delete_db_cluster. unfold_monad.
  autorewrite with backend. rewrite get_set_same.
  cbn [DBCluster.deletion_protection DBCluster.cluster_members
       DBCluster.global_cluster_identifier DBCluster.set_status].
  rewrite Hprot, Hmem, Hcg, Hg.
  assert (Hgc : Backend.global_clusters
                  (Backend.set_clusters
                     (Dict.set id (DBCluster.set_status "available" c)
                               (Backend.clusters b)) b)
                = Backend.global_clusters b) by now destruct b.
  rewrite Hgc, Hnog. cbn [PyStr.truthy].
  autorewrite with backend.
  rewrite remove_set_fresh by exact Hfree.
  autorewrite with backend. now rewrite set_clusters_same.
Qed.

(** X24.  A cluster is not created without credentials.  When
    [create_db_cluster] returns a cluster whose engine is not ["neptune"],
    and a master user name is given or no global cluster is named, the user
    name is not empty and the master password given has at least eight
    characters and is the password of the cluster.  A ["neptune"] cluster,
    and one that names a global cluster and gives no user name, is created
    without a password. *)
Theorem create_db_cluster_credentials X kw b c b' :
  RDSBackend.create_db_cluster X kw b = (Ok c, b') ->
  (c.(DBCluster.engine) <> "neptune" ->
   PyStr.truthy kw.(DBClusterKwargs.master_username) = true
   \/ PyStr.truthy kw.(DBClusterKwargs.global_cluster_identifier) = false ->
   exists pw,
     kw.(DBClusterKwargs.master_user_password) = Some pw
     /\ 8 <= String.length pw
     /\ c.(DBCluster._master_user_password) = Some pw
     /\ PyStr.truthy c.(DBCluster.master_username) = true)
  /\ (c.(DBCluster.engine) = "neptune"
      \/ (PyStr.truthy kw.(DBClusterKwargs.master_username) = false
          /\ PyStr.truthy kw.(DBClusterKwargs.global_cluster_identifier) = true) ->
      c.(DBCluster._master_user_password) = None).
Proof.
  intros H. apply create_db_cluster_ok in H.
  destruct H as [cluster [Hi [Hc _]]].
  pose proof (DBCluster_init_password X kw Hi) as Hpw.
  destruct (DBCluster_init_fields X kw Hi) as [_ [_ [Hu _]]].
  assert (Hsame : DBCluster.engine c = DBCluster.engine cluster
                  /\ DBCluster._master_user_password c
                     = DBCluster._master_user_password cluster
                  /\ DBCluster.master_username c = DBCluster.master_username cluster).
  { destruct Hc as [->|[l ->]]; repeat split. }
  destruct Hsame as [He [Hp Hn]]. rewrite He, Hp, Hn, Hu. split.
  - intros Hne Hor. destruct Hpw as [[_ [[Hu0 Hg0]|Hnep]]|[pw [Hs [Hchk Hut]]]].
    + destruct Hor as [Hor|Hor]; congruence.
    + contradiction.
    + apply check_master_user_password_ok in Hchk. destruct Hchk as [Hv Hlen].
      exists pw. repeat split; assumption.
  - intros Hor. destruct Hpw as [[Hnone _]|[pw [Hs [Hchk Hut]]]]; [exact Hnone|].
    exfalso. destruct Hor as [Hnep|[Hu0 _]]; [|congruence].
    revert Hi Hnep Hs. clear.
    unfold RDSBackend.DBCluster_init, res_bind. intros H.
    destruct (DBClusterKwargs.engine kw) as [engine|]; [|discriminate].
    repeat (break_in H; try discriminate).
    all: inversion H; subst; clear H; cbn.
    all: intros Hn; subst engine; cbn in *; try discriminate.
    all: match goal with
         | E : (_ || true) = false |- _ => rewrite orb_true_r in E; discriminate
         | _ => idtac
         end.
Qed.

(* ------------------------------------------------------------------ *)
(** * The attributes of a new instance *)

(** What [DBInstance.__init__] fills in. *)
Lemma DBInstance_init_defaults X b kw d :
  RDSBackend.DBInstance_init X b kw = Ok d ->
  In d.(DBInstance.engine) X.(RDSBackend.valid_db_instance_engine)
  /\ match kw.(DBInstanceKwargs.port) with
     | Some p => d.(DBInstance.port) = p
     | None => Dict.get d.(DBInstance.engine) RDSBackend.DBInstance_default_port
               = Some d.(DBInstance.port)
     end
  /\ d.(DBInstance.storage_type)
     = match kw.(DBInstanceKwargs.storage_type) with
       | Some s => s
       | None => match kw.(DBInstanceKwargs.iops) with
                 | None => "gp2"
                 | Some _ => "io1"
                 end
       end
  /\ (if truthy_Z kw.(DBInstanceKwargs.allocated_storage)
      then Some d.(DBInstance.allocated_storage)
           = kw.(DBInstanceKwargs.allocated_storage)
      else RDSBackend.DBInstance_default_allocated_storage
             d.(DBInstance.engine) d.(DBInstance.storage_type)
           = Ok d.(DBInstance.allocated_storage))
  /\ (d.(DBInstance.allocated_storage) <= d.(DBInstance._max_allocated_storage))%Z
  /\ d.(DBInstance.vpc_security_group_ids) <> []
  /\ d.(DBInstance.db_subnet_group_name) = kw.(DBInstanceKwargs.db_subnet_group_name)
  /\ (forall g, kw.(DBInstanceKwargs.db_subnet_group_name) = Some g -> g <> "" ->
        Dict.mem g b.(Backend.subnet_groups) = true)
  /\ (forall og, kw.(DBInstanceKwargs.option_group_name) = Some og -> og <> "" ->
        Dict.mem og b.(Backend.option_groups) = true
        /\ d.(DBInstance.option_group_name) = Some og)
  /\ (PyStr.truthy kw.(DBInstanceKwargs.option_group_name) = false ->
      d.(DBInstance.option_group_name)
      = match Dict.get d.(DBInstance.engine) RDSBackend.default_option_groups with
        | Some g => Some g
        | None => kw.(DBInstanceKwargs.option_group_name)
        end).
Proof.
  unfold RDSBackend.DBInstance_init, res_bind. intros H.
  destruct (DBInstanceKwargs.engine kw) as [engine|]; [|discriminate].
  destruct (negb (PyStr.mem engine (RDSBackend.valid_db_instance_engine X))) eqn:He;
    [discriminate|].
  apply negb_false_iff, mem_In in He.
  set (st := match DBInstanceKwargs.storage_type kw with
             | Some s => s
             | None => RDSBackend.default_storage_type (DBInstanceKwargs.iops kw)
             end) in *.
  destruct (if truthy_Z (DBInstanceKwargs.allocated_storage kw) then _ else _)
    as [alloc|] eqn:Ha; [|discriminate].
  set (mx := if truthy_Z (DBInstanceKwargs.max_allocated_storage kw)
             then _ else alloc) in *.
  set (ogn := if negb (PyStr.truthy (DBInstanceKwargs.option_group_name kw))
                 && Dict.mem engine RDSBackend.default_option_groups
              then _ else _) in *.
  destruct (mx <? alloc)%Z eqn:Hmx; [discriminate|].
  apply Z.ltb_ge in Hmx.
  destruct (match DBInstanceKwargs.port kw with
            | Some p => Ok p | None => _ end) as [port|] eqn:Hp; [|discriminate].
  destruct (PyStr.truthy (DBInstanceKwargs.db_subnet_group_name kw)
            && negb (Dict.mem (option_or (DBInstanceKwargs.db_subnet_group_name kw) "")
                              (Backend.subnet_groups b))) eqn:Hsub; [discriminate|].
  destruct (RDSBackend.valid_preferred_maintenance_window X _ _); [discriminate|].
  destruct (PyStr.truthy (DBInstanceKwargs.db_parameter_group_name kw) && _ && _);
    [discriminate|].
  destruct (PyStr.truthy (DBInstanceKwargs.option_group_name kw)
            && negb (Dict.mem (option_or (DBInstanceKwargs.option_group_name kw) "")
                              (Backend.option_groups b))) eqn:Hog; [discriminate|].
  inversion H; subst d; clear H.
  cbn [DBInstance.engine DBInstance.port DBInstance.storage_type
       DBInstance.allocated_storage DBInstance._max_allocated_storage
       DBInstance.vpc_security_group_ids DBInstance.db_subnet_group_name
       DBInstance.option_group_name].
  split; [exact He|]. split.
  { destruct (DBInstanceKwargs.port kw) as [p|].
    - now inversion Hp.
    - unfold lookup in Hp.
      destruct (Dict.get engine RDSBackend.DBInstance_default_port);
        [now inversion Hp | discriminate]. }
  split.
  { unfold st, RDSBackend.default_storage_type.
    destruct (DBInstanceKwargs.storage_type kw); reflexivity. }
  split.
  { destruct (truthy_Z (DBInstanceKwargs.allocated_storage kw)) eqn:Ht.
    - destruct (DBInstanceKwargs.allocated_storage kw) as [a|]; [|discriminate].
      cbn in Ha. now inversion Ha.
    - exact Ha. }
  split; [exact Hmx|]. split.
  { destruct (option_or (DBInstanceKwargs.vpc_security_group_ids kw) []);
      discriminate. }
  split; [reflexivity|]. split.
  { intros g Hg Hne. rewrite Hg in Hsub. cbn in Hsub.
    apply String.eqb_neq in Hne. rewrite Hne in Hsub. cbn in Hsub.
    now apply negb_false_iff in Hsub. }
  split.
  { intros og Ho Hne. unfold ogn. rewrite Ho in *. cbn in Hog |- *.
    apply String.eqb_neq in Hne. rewrite Hne in *. cbn in Hog |- *.
    split; [now apply negb_false_iff in Hog | reflexivity]. }
  intros Hf. unfold ogn. rewrite Hf. cbn [negb andb]. unfold Dict.mem.
  destruct (Dict.get engine RDSBackend.default_option_groups); reflexivity.
Qed.

(** X25.  What a new instance is given.  An instance that
    [create_db_instance] returns has a supported engine; the port given or
    else the default port of its engine; the storage type given or else
    ["io1"] with [iops] and ["gp2"] without; the allocated storage given,
    when that is not zero, or else the default of its engine and storage
    type, and never more than its maximum; at least one VPC security
    group; a subnet group and an option group that are stored in the
    backend when their names are given and not empty; and, when no option
    group is named, the default option group of its engine if there is
    one. *)
Theorem create_db_instance_defaults X kw b d b' :
  RDSBackend.create_db_instance X kw b = (Ok d, b') ->
  In d.(DBInstance.engine) X.(RDSBackend.valid_db_instance_engine)
  /\ match kw.(DBInstanceKwargs.port) with
     | Some p => d.(DBInstance.port) = p
     | None => Dict.get d.(DBInstance.engine) RDSBackend.DBInstance_default_port
               = Some d.(DBInstance.port)
     end
  /\ d.(DBInstance.storage_type)
     = match kw.(DBInstanceKwargs.storage_type) with
       | Some s => s
       | None => match kw.(DBInstanceKwargs.iops) with
                 | None => "gp2"
                 | Some _ => "io1"
                 end
       end
  /\ (if truthy_Z kw.(DBInstanceKwargs.allocated_storage)
      then Some d.(DBInstance.allocated_storage)
           = kw.(DBInstanceKwargs.allocated_storage)
      else RDSBackend.DBInstance_default_allocated_storage
             d.(DBInstance.engine) d.(DBInstance.storage_type)
           = Ok d.(DBInstance.allocated_storage))
  /\ (d.(DBInstance.allocated_storage) <= d.(DBInstance._max_allocated_storage))%Z
  /\ d.(DBInstance.vpc_security_group_ids) <> []
  /\ d.(DBInstance.db_subnet_group_name) = kw.(DBInstanceKwargs.db_subnet_group_name)
  /\ (forall g, kw.(DBInstanceKwargs.db_subnet_group_name) = Some g -> g <> "" ->
        Dict.mem g b.(Backend.subnet_groups) = true)
  /\ (forall og, kw.(DBInstanceKwargs.option_group_name) = Some og -> og <> "" ->
        Dict.mem og b.(Backend.option_groups) = true
        /\ d.(DBInstance.option_group_name) = Some og)
  /\ (PyStr.truthy kw.(DBInstanceKwargs.option_group_name) = false ->
      d.(DBInstance.option_group_name)
      = match Dict.get d.(DBInstance.engine) RDSBackend.default_option_groups with
        | Some g => Some g
        | None => kw.(DBInstanceKwargs.option_group_name)
        end).
Proof.
  intros H. apply create_db_instance_ok in H.
  destruct H as [_ [_ [Hi _]]].
  exact (DBInstance_init_defaults X b kw Hi).
Qed.

(* ------------------------------------------------------------------ *)
(** * The further properties on the sample backend *)

(** [add_then_list_tags] on the instance ["db1"] of the sample backend. *)
Lemma add_then_list_tags_witness :
  exists b',
    RDSBackend.add_tags_to_resource Sample.X
      "arn:aws:rds:us-east-1:123456789012:db:db1" [("env", "dev")]
      (Sample.cluster_with_member None)
    = (Ok [("env", "dev")], b')
    /\ RDSBackend.list_tags_for_resource Sample.X
         "arn:aws:rds:us-east-1:123456789012:db:db1" b'
       = (Ok [("env", "dev")], b').
Proof.
  destruct (RDSBackend.add_tags_to_resource Sample.X
              "arn:aws:rds:us-east-1:123456789012:db:db1" [("env", "dev")]
              (Sample.cluster_with_member None)) as [[out|e] b'] eqn:E;
    [|vm_compute in E; discriminate].
  assert (Hout : out = [("env", "dev")]).
  { vm_compute in E. inversion E. reflexivity. }
  pose proof E as L. apply add_then_list_tags in L.
  subst out. exists b'. split; [reflexivity | exact L].
Defined.

(** [remove_then_list_tags] on the instance ["db1"] after it has been given
    the tags [env] and [team]. *)
Lemma remove_then_list_tags_witness :
  exists b',
    RDSBackend.remove_tags_from_resource Sample.X
      "arn:aws:rds:us-east-1:123456789012:db:db1" ["env"]
      (Sample.after
         (RDSBackend.add_tags_to_resource Sample.X
            "arn:aws:rds:us-east-1:123456789012:db:db1"
            [("env", "dev"); ("team", "db")])
         (Sample.cluster_with_member None))
    = (Ok tt, b')
    /\ RDSBackend.list_tags_for_resource Sample.X
         "arn:aws:rds:us-east-1:123456789012:db:db1" b'
       = (Ok [("team", "db")], b').
Proof.
  destruct (RDSBackend.remove_tags_from_resource Sample.X
              "arn:aws:rds:us-east-1:123456789012:db:db1" ["env"]
              (Sample.after
                 (RDSBackend.add_tags_to_resource Sample.X
                    "arn:aws:rds:us-east-1:123456789012:db:db1"
                    [("env", "dev"); ("team", "db")])
                 (Sample.cluster_with_member None))) as [[[]|e] b'] eqn:E;
    [|vm_compute in E; discriminate].
  pose proof E as L. apply remove_then_list_tags in L.
  destruct L as [old [Hold [Hnew _]]].
  assert (Ho : old = [("env", "dev"); ("team", "db")]).
  { vm_compute in Hold. inversion Hold. reflexivity. }
  subst old. exists b'. split; [reflexivity | exact Hnew].
Defined.

(** [extract_snapshot_name_round_trip] on the ARN of the snapshot ["s1"] in
    the empty backend. *)
Lemma extract_snapshot_name_round_trip_witness :
  RDSBaseModel.arn_format Sample.empty "snapshot" "s1"
  = "arn:aws:rds:us-east-1:123456789012:snapshot:s1"
  /\ RDSMethods.extract_snapshot_name_from_arn
       "arn:aws:rds:us-east-1:123456789012:snapshot:s1" Sample.empty
     = Ok "s1".
Proof.
  split; [reflexivity|].
  apply (@extract_snapshot_name_round_trip Sample.empty "snapshot" "s1");
    intros H; vm_compute in H; repeat (destruct H as [H|H]; [discriminate|]);
    exact H.
Defined.

(** [create_delete_db_snapshot] on a manual snapshot of ["db1"]. *)
Lemma create_delete_db_snapshot_witness :
  exists s b',
    RDSBackend.create_db_snapshot Sample.X (inl "db1") "s1" "manual" None
      (Sample.cluster_with_member None) = (Ok s, b')
    /\ Dict.get "s1" b'.(Backend.database_snapshots) = Some s
    /\ RDSMethods.delete_db_snapshot "s1" b'
       = (Returned s, Sample.cluster_with_member None).
Proof.
  destruct (RDSBackend.create_db_snapshot Sample.X (inl "db1") "s1" "manual" None
              (Sample.cluster_with_member None)) as [[s|e] b'] eqn:E;
    [|vm_compute in E; discriminate].
  pose proof E as L. apply create_delete_db_snapshot in L.
  destruct L as [_ [Hget [_ [_ [_ Hdel]]]]].
  exists s, b'. split; [reflexivity|]. split; [exact Hget | exact Hdel].
Defined.

(** [create_delete_db_instance] on a second member ["db2"] of the cluster
    ["c1"]. *)
Lemma create_delete_db_instance_witness :
  exists d b',
    RDSBackend.create_db_instance Sample.X
      (Sample.instance_kwargs "db2" "mysql" (Some "c1"))
      (Sample.cluster_with_member None) = (Ok d, b')
    /\ RDSBackend.delete_db_instance Sample.X "db2" None b'
       = (Ok (DBInstance.set_status "deleting" d), Sample.cluster_with_member None).
Proof.
  destruct (RDSBackend.create_db_instance Sample.X
              (Sample.instance_kwargs "db2" "mysql" (Some "c1"))
              (Sample.cluster_with_member None)) as [[d|e] b'] eqn:E;
    [|vm_compute in E; discriminate].
  assert (Hp : d.(DBInstance.deletion_protection) = false).
  { vm_compute in E. inversion E. reflexivity. }
  exists d, b'. split; [reflexivity|].
  apply (@create_delete_db_instance Sample.X
           (Sample.instance_kwargs "db2" "mysql" (Some "c1"))
           (Sample.cluster_with_member None) d b');
    [vm_compute; reflexivity | exact E | exact Hp].
Defined.

(** [instance_life_keeps_databases_keyed] on the sample backend: deleting
    ["db1"] and creating ["db2"]. *)
Lemma instance_life_keeps_databases_keyed_witness :
  Stated.databases_keyed
    (Sample.after (RDSBackend.delete_db_instance Sample.X "db1" None)
                  (Sample.cluster_with_member None))
  /\ Stated.databases_keyed
       (Sample.after
          (RDSBackend.create_db_instance Sample.X
             (Sample.instance_kwargs "db2" "mysql" (Some "c1")))
          (Sample.cluster_with_member None)).
Proof.
  destruct (@instance_life_keeps_databases_keyed Sample.X
              (Sample.cluster_with_member None) sample_databases_keyed)
    as [Hc [_ [_ [Hd _]]]].
  split.
  - unfold Sample.after.
    destruct (RDSBackend.delete_db_instance Sample.X "db1" None
                (Sample.cluster_with_member None)) as [r b'] eqn:E.
    exact (Hd _ _ _ _ E).
  - unfold Sample.after.
    destruct (RDSBackend.create_db_instance Sample.X
                (Sample.instance_kwargs "db2" "mysql" (Some "c1"))
                (Sample.cluster_with_member None)) as [r b'] eqn:E.
    exact (Hc _ _ _ E).
Defined.

(** [stop_start_round_trip] on the instance ["db1"]. *)
Lemma stop_start_round_trip_witness :
  exists d b1,
    Dict.get "db1" (Sample.cluster_with_member None).(Backend.databases) = Some d
    /\ RDSBackend.stop_db_instance Sample.X "db1" None
         (Sample.cluster_with_member None)
       = (Ok (DBInstance.set_status "stopped" d), b1)
    /\ RDSBackend.start_db_instance "db1" b1
       = (Ok d, Sample.cluster_with_member None).
Proof.
  destruct (Dict.get "db1" (Sample.cluster_with_member None).(Backend.databases))
    as [d|] eqn:E; [|vm_compute in E; discriminate].
  assert (Hd : d.(DBInstance.status) = "available"
               /\ d.(DBInstance.is_replica) = false
               /\ d.(DBInstance.multi_az)
                  && PyStr.startswith (PyStr.lower d.(DBInstance.engine)) "sqlserver"
                  = false).
  { vm_compute in E. inversion E. repeat split. }
  destruct Hd as [Hs [Hr Hm]].
  destruct (@stop_start_round_trip Sample.X (Sample.cluster_with_member None)
              "db1" d sample_databases_keyed eq_refl E Hs Hr Hm)
    as [b1 [H1 [_ H3]]].
  exists d, b1. split; [reflexivity|]. split; [exact H1 | exact H3].
Defined.

(** [describe_db_instances_by_arn] on the ARN of ["db1"]. *)
Lemma describe_db_instances_by_arn_witness :
  exists d,
    Dict.get "db1" (Sample.cluster_with_member None).(Backend.databases) = Some d
    /\ RDSBackend.describe_db_instances
         (Some "arn:aws:rds:us-east-1:123456789012:db:db1")
         (Sample.cluster_with_member None)
       = Ok [("db1", d)].
Proof.
  destruct (Dict.get "db1" (Sample.cluster_with_member None).(Backend.databases))
    as [d|] eqn:E; [|vm_compute in E; discriminate].
  assert (Harn : RDSBackend.db_instance_arn (Sample.cluster_with_member None) d
                 = "arn:aws:rds:us-east-1:123456789012:db:db1").
  { vm_compute in E. inversion E. reflexivity. }
  exists d. split; [reflexivity|].
  rewrite <- Harn.
  apply (@describe_db_instances_by_arn (Sample.cluster_with_member None) "db1" d
           sample_databases_keyed E).
  rewrite Harn. vm_compute. reflexivity.
Defined.


(** [delete_db_instance_spec] on ["db1"], which is stored, and on ["db9"],
    which is not. *)
Lemma delete_db_instance_spec_witness :
  RDSBackend.delete_db_instance Sample.X "db9" None (Sample.cluster_with_member None)
  = (Raise (DBInstanceNotFoundError "db9"), Sample.cluster_with_member None)
  /\ exists d' b',
       RDSBackend.delete_db_instance Sample.X "db1" None
         (Sample.cluster_with_member None) = (Ok d', b')
       /\ RDSBackend.delete_db_instance Sample.X "db1" None b'
          = (Raise (DBInstanceNotFoundError "db1"), b').
Proof.
  split.
  - apply (proj1 (@delete_db_instance_spec Sample.X "db9" None
                    (Sample.cluster_with_member None) eq_refl)).
    vm_compute. reflexivity.
  - destruct (RDSBackend.delete_db_instance Sample.X "db1" None
                (Sample.cluster_with_member None)) as [[d'|e] b'] eqn:E;
      [|vm_compute in E; discriminate].
    exists d', b'. split; [reflexivity|].
    destruct (proj2 (proj2 (@delete_db_instance_spec Sample.X "db1" None
                              (Sample.cluster_with_member None) eq_refl))
                    d' b' E) as [_ [_ H]].
    apply H.
Defined.


(** [create_db_cluster_spec] on a second cluster ["c2"]. *)
Lemma create_db_cluster_spec_witness :
  exists c b',
    RDSBackend.create_db_cluster Sample.X (Sample.cluster_kwargs "c2" "mysql" None)
      (Sample.cluster_with_member None) = (Ok c, b')
    /\ c.(DBCluster._status) = "creating"
    /\ Dict.get "c2" b'.(Backend.clusters)
       = Some (DBCluster.set_status "available" c)
    /\ RDSBackend.delete_db_cluster Sample.X "c2" None b'
       = (Ok (DBCluster.set_status "available" c), Sample.cluster_with_member None).
Proof.
  destruct (RDSBackend.create_db_cluster Sample.X
              (Sample.cluster_kwargs "c2" "mysql" None)
              (Sample.cluster_with_member None)) as [[c|e] b'] eqn:E;
    [|vm_compute in E; discriminate].
  assert (Hp : c.(DBCluster.deletion_protection) = false).
  { vm_compute in E. inversion E. reflexivity. }
  destruct (proj2 (@create_db_cluster_spec Sample.X
                     (Sample.cluster_kwargs "c2" "mysql" None)
                     (Sample.cluster_with_member None) eq_refl eq_refl) c b' E)
    as (Hst & _ & _ & Hget & _ & _ & Hdel).
  exists c, b'. split; [reflexivity|]. split; [exact Hst|].
  split; [exact Hget|].
  apply Hdel; [vm_compute; reflexivity | exact Hp | vm_compute; reflexivity].
Defined.

(** [create_db_cluster_credentials] on the cluster ["c2"] with the password
    ["password1"]. *)
Lemma create_db_cluster_credentials_witness :
  exists c b',
    RDSBackend.create_db_cluster Sample.X (Sample.cluster_kwargs "c2" "mysql" None)
      (Sample.cluster_with_member None) = (Ok c, b')
    /\ c.(DBCluster._master_user_password) = Some "password1".
Proof.
  destruct (RDSBackend.create_db_cluster Sample.X
              (Sample.cluster_kwargs "c2" "mysql" None)
              (Sample.cluster_with_member None)) as [[c|e] b'] eqn:E;
    [|vm_compute in E; discriminate].
  assert (He : c.(DBCluster.engine) <> "neptune").
  { vm_compute in E. inversion E. discriminate. }
  destruct (proj1 (@create_db_cluster_credentials Sample.X
                     (Sample.cluster_kwargs "c2" "mysql" None)
                     (Sample.cluster_with_member None) c b' E)
                  He (or_introl eq_refl))
    as (pw & Hpw & _ & Hc & _).
  exists c, b'. split; [reflexivity|].
  rewrite Hc. exact (eq_sym Hpw).
Defined.

(** [create_db_instance_defaults] on a MySQL instance ["db2"] created with
    an identifier and an engine only. *)
Lemma create_db_instance_defaults_witness :
  exists d b',
    RDSBackend.create_db_instance Sample.X
      (Sample.instance_kwargs "db2" "mysql" None)
      (Sample.cluster_with_member None) = (Ok d, b')
    /\ d.(DBInstance.engine) = "mysql"
    /\ d.(DBInstance.port) = 3306%Z
    /\ d.(DBInstance.storage_type) = "gp2"
    /\ d.(DBInstance.allocated_storage) = 20%Z
    /\ d.(DBInstance.option_group_name) = Some "default.mysql5.6".
Proof.
  destruct (RDSBackend.create_db_instance Sample.X
              (Sample.instance_kwargs "db2" "mysql" None)
              (Sample.cluster_with_member None)) as [[d|e] b'] eqn:E;
    [|vm_compute in E; discriminate].
  assert (He : d.(DBInstance.engine) = "mysql").
  { vm_compute in E. inversion E. reflexivity. }
  destruct (@create_db_instance_defaults Sample.X
              (Sample.instance_kwargs "db2" "mysql" None)
              (Sample.cluster_with_member None) d b' E)
    as (_ & Hport & Hst & Halloc & _ & _ & _ & _ & _ & Hog).
  cbn [Sample.instance_kwargs DBInstanceKwargs.port DBInstanceKwargs.storage_type
       DBInstanceKwargs.iops DBInstanceKwargs.allocated_storage truthy_Z]
    in Hport, Hst, Halloc.
  specialize (Hog eq_refl).
  rewrite He in Hport, Halloc, Hog. rewrite Hst in Halloc.
  vm_compute in Hport. vm_compute in Halloc. vm_compute in Hog.
  exists d, b'. split; [reflexivity|]. split; [exact He|].
  split; [now inversion Hport|]. split; [exact Hst|].
  split; [now inversion Halloc | exact Hog].
Defined.

(** [db_cluster_stop_start] on the cluster ["c2"] that a failed
    [create_db_cluster] has left stored as ["creating"]: the first
    [stop_db_cluster] raises and leaves it ["available"]. *)
Lemma db_cluster_stop_start_witness :
  fst (RDSBackend.create_db_cluster Sample.X
         (SampleMore.replica_cluster_kwargs "c2"
            "arn:aws:rds:us-east-1:123456789012:cluster:c9") Sample.empty)
  = Raise (DBClusterNotFoundError "arn:aws:rds:us-east-1:123456789012:cluster:c9")
  /\ option_map DBCluster._status
       (Dict.get "c2" SampleMore.half_created.(Backend.clusters))
     = Some "creating"
  /\ fst (RDSBackend.stop_db_cluster "c2" SampleMore.half_created)
     = Raise InvalidDBClusterStateFault
  /\ fst (RDSBackend.start_db_cluster "c2" SampleMore.half_created)
     = Raise InvalidDBClusterStateFault
  /\ option_map DBCluster._status
       (Dict.get "c2"
          (snd (RDSBackend.stop_db_cluster "c2" SampleMore.half_created)).(Backend.clusters))
     = Some "available"
  /\ RDSBackend.stop_db_cluster "c9" SampleMore.half_created
     = (Raise (DBClusterNotFoundError "c9"), SampleMore.half_created).
Proof.
  split; [reflexivity|]. split; [reflexivity|].
  destruct (Dict.get "c2" SampleMore.half_created.(Backend.clusters)) as [c|] eqn:E;
    [|vm_compute in E; discriminate].
  assert (Hs : c.(DBCluster._status) = "creating").
  { vm_compute in E. inversion E. reflexivity. }
  destruct (proj2 (db_cluster_stop_start SampleMore.half_created "c2") c E)
    as (_ & _ & _ & Hc).
  destruct (Hc Hs) as (b1 & Hstop & Hstart & Hb1 & _).
  rewrite Hstop, Hstart. cbn [fst snd].
  split; [reflexivity|]. split; [reflexivity|]. split.
  - rewrite Hb1. destruct SampleMore.half_created. cbn [Backend.set_clusters Backend.clusters].
    rewrite get_set_same. reflexivity.
  - exact (proj1 (proj1 (db_cluster_stop_start SampleMore.half_created "c9") eq_refl)).
Defined.
